(** * school-management-api: the request dispatcher and its route tables

    A shallow embedding of
    - [managers/api/Api.manager.js], class [ApiHandler]: the constructor
      (the scan that builds [methodMatrix] and [mwsStack], then the
      subscription to cortex), [_exec], the HTTP entry point [mw] and its
      [onDone] continuation;
    - [managers/response_dispatcher/ResponseDispatcher.manager.js]:
      [dispatch];
    - [mws/__token.mw.js] and [mws/__device.mw.js]: the two middleware units;
    - [libs/errorHandler.js]: the builders of failure results,
      [validateRequired], [formatFieldName] and the two access checks;
    - class [TokenManager] (required as [managers/token/Token.manager]):
      the two verifiers, [genLongToken] and [refreshToken], over
      [jwt.verify] and [jwt.sign];
    - [managers/_common/schema.validators.js]: [username];
    - [managers/entities/user/User.manager.js]: [getUserById], over the
      database read;
    - class [School]: [getSchoolById], [createSchool] and [deleteSchool],
      over the validator and the database calls.

    Two files that these require are not among the sources: the pipeline
    executor ([managers/virtual_stack/VirtualStack.manager.js]) and the
    parameter introspector ([managers/api/_common/getParamNames.js]).  The
    constructor is embedded over any introspector; the executor, and the
    introspector where a statement needs one, follow the specification and
    say so.

    Conventions of the embedding.
    - A JavaScript object used as a dictionary is the list of its own
      properties in insertion order, which is the order of [Object.keys];
      reading a key yields its own property.  Where the key comes from
      the request (the two lookups of [mw]), and where a parameter name
      is looked up in the middleware registry, the names that an object
      written [{}] inherits from [Object.prototype] are taken into
      account; the other keys of the configuration are taken as they
      are, and a statement that depends on it says which names it leaves
      aside.
    - Strings are byte strings; the character operations used by the source
      ([split] on ",", [replace] of a brace, [startsWith "__"],
      [toLowerCase] on an HTTP method) act on ASCII characters, and [trim]
      removes the ASCII white space.  The helpers that trim or change the
      case of data ([validateRequired], [formatFieldName]) are embedded
      for strings of ASCII characters, and the statements about them say
      so.
    - Numbers are the integers (status codes); the clock read by [dispatch]
      is an explicit argument [now].
    - [await] is sequencing: one request is followed from its arrival to its
      last write, as the trace of the units it runs, the handler call it
      makes and the responses written.  A handler is known by how its call
      ends, a middleware unit by whether it continues, answers or throws. *)

From Stdlib Require Import String Ascii List ZArith Bool Lia.
From Stdlib Require Import DecimalString.
Import ListNotations.
Open Scope string_scope.
Open Scope list_scope.

#[local] Set Warnings "-register-all".

(* ================================================================== *)
(** * String operations of the source *)

Module Str.

(** [s.includes(c)] for a one-character needle. *)
Fixpoint includes (c : ascii) (s : string) : bool :=
  match s with
  | EmptyString => false
  | String d rest => if Ascii.eqb d c then true else includes c rest
  end.

(** [s.split(c)] for a one-character separator: never the empty list,
    [split c ""] is [[""]]. *)
Fixpoint split (c : ascii) (s : string) : list string :=
  match s with
  | EmptyString => [EmptyString]
  | String d rest =>
      if Ascii.eqb d c then EmptyString :: split c rest
      else match split c rest with
           | [] => [String d EmptyString]
           | piece :: pieces => String d piece :: pieces
           end
  end.

(** White space removed by [trim] (TAB, LF, VT, FF, CR, SP). *)
Definition is_space (c : ascii) : bool :=
  let n := nat_of_ascii c in
  (Nat.eqb n 32) || ((Nat.leb 9 n) && (Nat.leb n 13)).

Fixpoint trimStart (s : string) : string :=
  match s with
  | EmptyString => EmptyString
  | String c rest => if is_space c then trimStart rest else s
  end.

Fixpoint trimEnd (s : string) : string :=
  match s with
  | EmptyString => EmptyString
  | String c rest =>
      match trimEnd rest with
      | EmptyString => if is_space c then EmptyString else String c EmptyString
      | kept => String c kept
      end
  end.

Definition trim (s : string) : string := trimEnd (trimStart s).

(** [s.replace(c, "")] with a string pattern: only the first occurrence
    is removed. *)
Fixpoint remove_first (c : ascii) (s : string) : string :=
  match s with
  | EmptyString => EmptyString
  | String d rest => if Ascii.eqb d c then rest else String d (remove_first c rest)
  end.

Definition startsWith (p s : string) : bool := String.prefix p s.

Definition lower_ascii (c : ascii) : ascii :=
  let n := nat_of_ascii c in
  if (Nat.leb 65 n) && (Nat.leb n 90) then ascii_of_nat (n + 32) else c.

Fixpoint toLowerCase (s : string) : string :=
  match s with
  | EmptyString => EmptyString
  | String c rest => String (lower_ascii c) (toLowerCase rest)
  end.

(** Decimal rendering of an array index. *)
Definition of_nat (n : nat) : string := NilEmpty.string_of_uint (Nat.to_uint n).

End Str.

(* ================================================================== *)
(** * JavaScript values *)

Module Js.

(** Objects that live outside the request data (the Express response
    [res]) are [Host] values, named by a handle. *)
Inductive value : Type :=
| Undefined
| Null
| Bool (b : bool)
| Num (n : Z)
| Str (s : string)
| Arr (items : list value)
| Obj (props : list (string * value))
| Host (handle : string).

Definition object := list (string * value).

Definition truthy (v : value) : bool :=
  match v with
  | Undefined | Null => false
  | Bool b => b
  | Num n => negb (Z.eqb n 0)
  | Str s => negb (String.eqb s "")
  | Arr _ | Obj _ | Host _ => true
  end.

(** [a || b] *)
Definition or (a b : value) : value := if truthy a then a else b.

(** Dictionary operations on own properties. *)
Fixpoint lookup {A : Type} (k : string) (o : list (string * A)) : option A :=
  match o with
  | [] => None
  | (k', v) :: rest => if String.eqb k k' then Some v else lookup k rest
  end.

(** [o[k] = v]: an existing property keeps its place, a new one goes last. *)
Fixpoint set {A : Type} (k : string) (v : A) (o : list (string * A)) : list (string * A) :=
  match o with
  | [] => [(k, v)]
  | (k', v') :: rest =>
      if String.eqb k k' then (k', v) :: rest else (k', v') :: set k v rest
  end.

Definition keys {A : Type} (o : list (string * A)) : list string := map fst o.

(** The names that an object written [{}] does not own and still answers
    to, with a function or an object: the properties of
    [Object.prototype]. *)
Definition inherited (k : string) : bool :=
  existsb (String.eqb k)
    [ "constructor"; "__defineGetter__"; "__defineSetter__"; "hasOwnProperty";
      "__lookupGetter__"; "__lookupSetter__"; "isPrototypeOf";
      "propertyIsEnumerable"; "toString"; "valueOf"; "__proto__";
      "toLocaleString" ].

(** [v.k] on a value, for the property names the dispatcher reads off a
    handler result ([selfHandleResponse], [errors], [error], [code]): only
    an object can carry them. *)
Definition get (v : value) (k : string) : value :=
  match v with
  | Obj props => match lookup k props with Some x => x | None => Undefined end
  | _ => Undefined
  end.

Fixpoint indexed_from (i : nat) (items : list value) : object :=
  match items with
  | [] => []
  | x :: rest => (Str.of_nat i, x) :: indexed_from (S i) rest
  end.

Fixpoint chars_from (i : nat) (s : string) : object :=
  match s with
  | EmptyString => []
  | String c rest => (Str.of_nat i, Str (String c EmptyString)) :: chars_from (S i) rest
  end.

(** The own enumerable properties copied by [{...v}]. *)
Definition own_props (v : value) : object :=
  match v with
  | Obj props => props
  | Arr items => indexed_from 0 items
  | Str s => chars_from 0 s
  | _ => []
  end.

(** [{...into, ...from}] once [into] is built. *)
Definition assign (into from : object) : object :=
  fold_left (fun acc kv => set (fst kv) (snd kv) acc) from into.

(** [typeof e === "string"] *)
Definition is_string (v : value) : bool :=
  match v with Str _ => true | _ => false end.

End Js.

(* ================================================================== *)
(** * What a request makes happen *)

(** One request is observed as the sequence of the middleware units it
    runs, the handler calls it makes and the responses written:
    [res.status(status).send(body)] is [Sent res status body]. *)
Inductive event : Type :=
| Ran (unit_name : string)
| Called (moduleName fnName : string) (data : Js.value)
| Sent (res : string) (status body : Js.value).

Definition is_sent (e : event) : bool :=
  match e with Sent _ _ _ => true | _ => false end.

Definition is_ran (e : event) : bool :=
  match e with Ran _ => true | _ => false end.

Definition is_called (e : event) : bool :=
  match e with Called _ _ _ => true | _ => false end.

(* ================================================================== *)
(** * ResponseDispatcher.manager.js *)

Module ResponseDispatcher.

Import Js.

(** The destructured argument of [dispatch]; a field that the caller
    leaves out is [Undefined].  Every caller in the repository passes a
    boolean literal for [ok]. *)
Record params : Type := {
  ok : bool;
  data : value;
  code : value;
  errors : value;
  message : value;
  msg : value
}.

(** STEP 2 of [dispatch]: the error list. *)
Definition errorArray (errors : value) : list value :=
  if truthy errors then
    match errors with
    | Str _ => [Obj [("message", errors)]]
    | Arr items =>
        map (fun e => if is_string e then Obj [("message", e)] else e) items
    | Obj _ | Host _ => [errors]
    | _ => []
    end
  else [].

Definition statusCode (p : params) : value :=
  if truthy (code p) then code p
  else if ok p then Num 200 else Num 400.

(** [msg || message || (ok ? null : "Request failed")] *)
Definition finalMessage (p : params) : value :=
  or (or (msg p) (message p)) (if ok p then Null else Str "Request failed").

Definition is_null (v : value) : bool :=
  match v with Null => true | _ => false end.

(** STEPS 3 to 5: the response body. *)
Definition responseObj (now : string) (p : params) : object :=
  let base :=
    [ ("ok", Bool (ok p));
      ("code", statusCode p);
      ("data", or (data p) (Obj []));
      ("timestamp", Str now) ] in
  let with_errors :=
    match errorArray (errors p) with
    | [] => base
    | errs => set "errors" (Arr errs) base
    end in
  if is_null (finalMessage p) then with_errors
  else set "message" (finalMessage p) with_errors.

(** [dispatch(res, params)]: one write. *)
Definition dispatch (now : string) (res : string) (p : params) : event :=
  Sent res (statusCode p) (Obj (responseObj now p)).

End ResponseDispatcher.

(* ================================================================== *)
(** * Requests, middleware units, handler modules *)

(** The fields of the Express request that the dispatcher and the units
    read. *)
Record request : Type := {
  req_method : string;
  params_moduleName : string;
  params_fnName : string;
  req_body : Js.value;
  req_headers : Js.object;
  req_query : Js.value
}.

(** What a unit called with [{req, res, next}] does: it calls [next(data)],
    or it writes the response itself and returns, or it throws. *)
Inductive outcome : Type :=
| Next (data : Js.value)
| Responded (status body : Js.value)
| Threw (err : Js.value).

Definition middleware : Type := request -> string -> outcome.

(** How an awaited handler call ends. *)
Inductive completion : Type :=
| Returned (v : Js.value)
| Thrown (err : Js.value).

(** A method of a manager: the text of its declared parameter list and
    what a call does. *)
Record func : Type := {
  declared_params : string;
  call : Js.value -> completion
}.

(** A manager, as the dispatcher sees it: its [httpExposed] array when it
    has one, and its methods by name. *)
Record manager : Type := {
  httpExposed : option (list string);
  methods : list (string * func)
}.

(** A computation that may throw. *)
Inductive result (A : Type) : Type :=
| Ok (a : A)
| Throw (err : string).

Arguments Ok {A} a.
Arguments Throw {A} err.

Definition bind {A B : Type} (r : result A) (k : A -> result B) : result B :=
  match r with
  | Ok a => k a
  | Throw e => Throw e
  end.

Notation "x <- r ;; k" := (bind r (fun x => k))
  (at level 61, r at next level, right associativity).

(** [items.forEach(f)] where [f] updates [this] and may throw. *)
Fixpoint forEach {A S : Type} (f : A -> S -> result S) (items : list A) (s : S)
  : result S :=
  match items with
  | [] => Ok s
  | x :: rest => s' <- f x s ;; forEach f rest s'
  end.

(* ================================================================== *)
(** * mws/__token.mw.js *)

Module TokenMw.

Import Js.

(** How [managers.token.verifyLongToken({token})] ends: with the decoded
    payload (or a falsy value), or with an exception of a given [name]. *)
Inductive verification : Type :=
| Decoded (payload : value)
| Failed (err_name : string).

(** STEP 1: the token of the request.  [None] stands for the [TypeError]
    of calling [startsWith] on a truthy [authorization] header that is not
    a string. *)
Definition extract_token (req : request) : option value :=
  let authHeader := get (Obj (req_headers req)) "authorization" in
  let from_auth :=
    if truthy authHeader then
      match authHeader with
      | Str s =>
          if Str.startsWith "Bearer " s
          then Some (Str (String.substring 7 (String.length s - 7) s))
          else Some Null
      | _ => None
      end
    else Some Null in
  match from_auth with
  | None => None
  | Some token =>
      let token :=
        if negb (truthy token) && truthy (get (Obj (req_headers req)) "token")
        then get (Obj (req_headers req)) "token" else token in
      let token :=
        if negb (truthy token) && truthy (req_query req)
           && truthy (get (req_query req) "token")
        then get (req_query req) "token" else token in
      Some token
  end.

(** A unit answers through [managers.responseDispatcher.dispatch]. *)
Definition answer (now res : string) (p : ResponseDispatcher.params) : outcome :=
  Responded (ResponseDispatcher.statusCode p)
            (Obj (ResponseDispatcher.responseObj now p)).

Definition unauthorized (now res : string) (why : string) : outcome :=
  answer now res
    {| ResponseDispatcher.ok := false;
       ResponseDispatcher.data := Undefined;
       ResponseDispatcher.code := Num 401;
       ResponseDispatcher.errors := Str why;
       ResponseDispatcher.message := Undefined;
       ResponseDispatcher.msg := Undefined |}.

Definition service_error (now res : string) : outcome :=
  answer now res
    {| ResponseDispatcher.ok := false;
       ResponseDispatcher.data := Undefined;
       ResponseDispatcher.code := Num 500;
       ResponseDispatcher.errors := Str "Authentication service error";
       ResponseDispatcher.message := Undefined;
       ResponseDispatcher.msg := Undefined |}.

Definition errorMessage (err_name : string) : string :=
  if String.eqb err_name "TokenExpiredError"
  then "Your token has expired. Please log in again."
  else if String.eqb err_name "JsonWebTokenError" then "Invalid token signature"
  else if String.eqb err_name "NotBeforeError" then "Token not yet valid"
  else "Invalid or expired token".

(** The unit built by the factory, for a given verifier and clock. *)
Definition __token (verifyLongToken : value -> verification) (now : string)
  : middleware :=
  fun req res =>
    match extract_token req with
    | None => service_error now res
    | Some token =>
        if negb (truthy token) then
          unauthorized now res
            "Authentication required. Please provide a valid token."
        else
          match verifyLongToken token with
          | Decoded decoded =>
              if negb (truthy decoded)
              then unauthorized now res "Invalid or expired token"
              else Next decoded
          | Failed err_name => unauthorized now res (errorMessage err_name)
          end
    end.

End TokenMw.

(* ================================================================== *)
(** * mws/__device.mw.js *)

Module DeviceMw.

Import Js.

(** The unit, over [requestIp.getClientIp] and over [useragent.lookup]
    when that optional package is installed. *)
Definition __device (getClientIp : request -> value)
  (useragent : option (value -> value)) : middleware :=
  fun req res =>
    let ip := or (getClientIp req) (Str "N/A") in
    let agent :=
      match useragent with
      | Some lookup_agent =>
          if truthy (get (Obj (req_headers req)) "user-agent")
          then or (lookup_agent (get (Obj (req_headers req)) "user-agent")) (Str "N/A")
          else Str "N/A"
      | None => Str "N/A"
      end in
    Next (Obj [("ip", ip); ("agent", agent)]).

End DeviceMw.

(* ================================================================== *)
(** * The pipeline executor *)

Module VirtualStack.

Import Js.

(** How a run ends. *)
Inductive ending : Type :=
| Completed (results : object)
| ShortCircuited
| Failed.

(** Modelled from the spec: the pipeline executor
    ([managers/virtual_stack/VirtualStack.manager.js], required by the
    loader, is not among the sources).  Section 4.3: the units of the
    remaining stack run strictly in sequence; a unit that continues with a
    value [v] stores [results[name] = v] and the run advances; a unit that
    writes the response itself ends the run as [ShortCircuited]; a unit
    that raises (an unresolved name included) ends it as [Failed]; nothing
    runs after either. *)
Fixpoint advance (mwsRepo : list (string * middleware)) (req : request)
  (res : string) (remaining : list string) (results : object)
  : list event * ending :=
  match remaining with
  | [] => ([], Completed results)
  | name :: later =>
      match lookup name mwsRepo with
      | None => ([], Failed)
      | Some unit_fn =>
          match unit_fn req res with
          | Next v =>
              let (evs, e) := advance mwsRepo req res later (set name v results) in
              (Ran name :: evs, e)
          | Responded status payload =>
              ([Ran name; Sent res status payload], ShortCircuited)
          | Threw _ => ([Ran name], Failed)
          end
      end
  end.

(** Modelled from the spec: [createBolt({stack, req, res, onDone})] followed
    by [run()] (absent with the executor).  Section 4.3: on [Completed],
    [onDone] is invoked once with the accumulated results; on
    [ShortCircuited] it is not invoked and nothing more is written; on
    [Failed] it is not invoked and the failure is surfaced as one 500
    envelope. *)
Definition run (mwsRepo : list (string * middleware)) (now : string)
  (stack : list string) (req : request) (res : string)
  (onDone : object -> list event) : list event :=
  match advance mwsRepo req res stack [] with
  | (evs, Completed results) => evs ++ onDone results
  | (evs, ShortCircuited) => evs
  | (evs, Failed) =>
      evs ++ [ResponseDispatcher.dispatch now res
                {| ResponseDispatcher.ok := false;
                   ResponseDispatcher.data := Undefined;
                   ResponseDispatcher.code := Num 500;
                   ResponseDispatcher.errors := Undefined;
                   ResponseDispatcher.message := Undefined;
                   ResponseDispatcher.msg := Undefined |}]
  end.

End VirtualStack.

(* ================================================================== *)
(** * managers/api/Api.manager.js *)

Module ApiHandler.

Import Js.

(** The fields of [this] that the route tables involve. *)
Record t : Type := {
  managers : list (string * manager);
  mwsRepo : list (string * middleware);
  methodMatrix : list (string * list (string * list string));
  mwsStack : list (string * list string)
}.

Definition with_methodMatrix (mm : list (string * list (string * list string)))
  (this : t) : t :=
  {| managers := managers this; mwsRepo := mwsRepo this;
     methodMatrix := mm; mwsStack := mwsStack this |}.

Definition with_mwsStack (st : list (string * list string)) (this : t) : t :=
  {| managers := managers this; mwsRepo := mwsRepo this;
     methodMatrix := methodMatrix this; mwsStack := st |}.

(** Reading a property of [undefined]. *)
Definition TypeError : string := "TypeError".

(** [o[k].push(x)] *)
Definition push {A : Type} (k : string) (x : A) (o : list (string * list A))
  : result (list (string * list A)) :=
  match lookup k o with
  | Some items => Ok (set k (items ++ [x]) o)
  | None => Throw TypeError
  end.

(** [if (!o[k]) o[k] = []], for a key that is not a name every object
    inherits (under such a name the test finds the inherited value). *)
Definition init {A : Type} (k : string) (o : list (string * list A))
  : list (string * list A) :=
  match lookup k o with
  | Some _ => o
  | None => set k [] o
  end.

(** ["verb=name"] or a bare ["name"], which is a [post]. *)
Definition parse (methodDef : string) : string * string :=
  if Str.includes "=" methodDef then
    let parts := Str.split "=" methodDef in
    (nth 0 parts EmptyString, nth 1 parts EmptyString)
  else ("post", methodDef).

(** The clean-up of one piece of the parameter text. *)
Definition clean (param : string) : string :=
  Str.remove_first "}" (Str.remove_first "{" (Str.trim param)).

Definition route (moduleName managerMethod : string) : string :=
  moduleName ++ "." ++ managerMethod.

Definition missing_middleware (param moduleName managerMethod : string) : string :=
  "Unable to find middleware " ++ param ++ " for " ++ route moduleName managerMethod.

Section Constructor.

(** [./_common/getParamNames] is required by the source file and not among
    the sources: the constructor is embedded over any introspector, called
    with the method found on the manager (if any), its name and the module
    name, and returning the parameter text or throwing. *)
Variable getParamNames : option func -> string -> string -> result string.

(** [this.mwsRepo[param]] is truthy: the registry, a plain object, holds a
    unit under the name, or inherits the name from [Object.prototype] (a
    function, or the prototype itself). *)
Definition found (param : string) (mwsRepo : list (string * middleware)) : bool :=
  match lookup param mwsRepo with
  | Some _ => true
  | None => inherited param
  end.

(** STEP 3, the body of [params.forEach]. *)
Definition each_param (moduleName managerMethod param : string) (this : t)
  : result t :=
  let this := with_mwsStack (init (route moduleName managerMethod) (mwsStack this)) this in
  if Str.startsWith "__" param then
    if found param (mwsRepo this) then
      st <- push (route moduleName managerMethod) param (mwsStack this) ;;
      Ok (with_mwsStack st this)
    else Throw (missing_middleware param moduleName managerMethod)
  else Ok this.

(** STEPS 1 to 3 for one entry of [httpExposed]. *)
Definition each_methodDef (moduleName methodDef : string) (this : t) : result t :=
  let (httpMethod, managerMethod) := parse methodDef in
  match lookup moduleName (methodMatrix this) with
  | None => Throw TypeError
  | Some matrix =>
      matrix <- push httpMethod managerMethod (init httpMethod matrix) ;;
      let this := with_methodMatrix (set moduleName matrix (methodMatrix this)) this in
      match lookup moduleName (managers this) with
      | None => Throw TypeError
      | Some mgr =>
          params <- getParamNames (lookup managerMethod (methods mgr))
                      managerMethod moduleName ;;
          forEach (each_param moduleName managerMethod)
                  (map clean (Str.split "," params)) this
      end
  end.

(** The body of [Object.keys(this.managers).forEach]. *)
Definition each_module (moduleName : string) (this : t) : result t :=
  match lookup moduleName (managers this) with
  | None => Throw TypeError
  | Some mgr =>
      match httpExposed mgr with
      | None => Ok this
      | Some defs =>
          forEach (each_methodDef moduleName) defs
            (with_methodMatrix (set moduleName [] (methodMatrix this)) this)
      end
  end.

(** The state of [this] before the scan. *)
Definition fresh (managers : list (string * manager))
  (mwsRepo : list (string * middleware)) : t :=
  {| managers := managers; mwsRepo := mwsRepo; methodMatrix := []; mwsStack := [] |}.

(** The constructor up to the end of the scan of the managers (the cortex
    subscription that follows does not touch the tables). *)
Definition constructor (managers : list (string * manager))
  (mwsRepo : list (string * middleware)) : result t :=
  forEach each_module (keys managers) (fresh managers mwsRepo).

End Constructor.




(** [_exec({targetModule, fnName, data})], called without [cb]: the handler
    call when [targetModule[fnName]] is a method, and the result.  A call
    that throws, like the call of a missing method, leaves [result] at
    [{}] with [error] set. *)
Definition _exec (moduleName : string) (targetModule : option manager)
  (fnName : string) (data : value) : list event * value :=
  let failed := Obj [("error", Str (fnName ++ " failed to execute"))] in
  match targetModule with
  | None => ([], failed)
  | Some mgr =>
      match lookup fnName (methods mgr) with
      | None => ([], failed)
      | Some f =>
          ([Called moduleName fnName data],
           match call f data with
           | Returned v => v
           | Thrown _ => failed
           end)
      end
  end.

(** The argument of the handler: [{...body, ...results, res}]. *)
Definition handler_data (req : request) (res : string) (results : object) : object :=
  let body := or (req_body req) (Obj []) in
  assign (assign (assign [] (own_props body)) results) [("res", Host res)].

(** What [onDone] writes for a handler result. *)
Definition respond (now res : string) (result : value) : list event :=
  let result := if truthy result then result else Obj [] in
  if truthy (get result "selfHandleResponse") then []
  else if truthy (get result "errors") then
    [ResponseDispatcher.dispatch now res
       {| ResponseDispatcher.ok := false;
          ResponseDispatcher.data := Undefined;
          ResponseDispatcher.code := get result "code";
          ResponseDispatcher.errors := get result "errors";
          ResponseDispatcher.message := Undefined;
          ResponseDispatcher.msg := Undefined |}]
  else if truthy (get result "error") then
    [ResponseDispatcher.dispatch now res
       {| ResponseDispatcher.ok := false;
          ResponseDispatcher.data := Undefined;
          ResponseDispatcher.code := get result "code";
          ResponseDispatcher.errors := Undefined;
          ResponseDispatcher.message := get result "error";
          ResponseDispatcher.msg := Undefined |}]
  else
    [ResponseDispatcher.dispatch now res
       {| ResponseDispatcher.ok := true;
          ResponseDispatcher.data := result;
          ResponseDispatcher.code := get result "code";
          ResponseDispatcher.errors := Undefined;
          ResponseDispatcher.message := Undefined;
          ResponseDispatcher.msg := Undefined |}].

(** The continuation handed to the executor. *)
Definition onDone (this : t) (now : string) (req : request) (res : string)
  (moduleName fnName : string) (results : object) : list event :=
  let (evs, result) :=
    _exec moduleName (lookup moduleName (managers this)) fnName
          (Obj (handler_data req res results)) in
  evs ++ respond now res result.

(** A routing failure: [dispatch(res, {ok: false, message})]. *)
Definition refuse (now res : string) (message : string) : event :=
  ResponseDispatcher.dispatch now res
    {| ResponseDispatcher.ok := false;
       ResponseDispatcher.data := Undefined;
       ResponseDispatcher.code := Undefined;
       ResponseDispatcher.errors := Undefined;
       ResponseDispatcher.message := Str message;
       ResponseDispatcher.msg := Undefined |}.

(** The verbs of everyday requests.  None of them names a property of a
    built-in function or of [Object.prototype]. *)
Definition plain_verb (method : string) : bool :=
  existsb (String.eqb method)
    ["get"; "post"; "put"; "delete"; "patch"; "head"; "options"].

(** [mw(req, res, next)].  The keys [moduleName] and [method] come from the
    request and [methodMatrix] and its entries are written [{}], so the
    two lookups answer to inherited names too: for such a [moduleName],
    [moduleMatrix] is a built-in value, truthy, on which a plain verb is
    [undefined].  [None] marks what the sources leave open: an inherited
    name met with anything else, where built-ins decide, and a validated
    route without an entry in [mwsStack], where the executor would be
    handed [undefined]. *)
Definition mw (this : t) (now : string) (req : request) (res : string)
  : option (list event) :=
  let method := Str.toLowerCase (req_method req) in
  let moduleName := params_moduleName req in
  let fnName := params_fnName req in
  match lookup moduleName (methodMatrix this) with
  | None =>
      if inherited moduleName then
        if plain_verb method then
          Some [refuse now res
                  ("unsupported method " ++ method ++ " for " ++ moduleName)]
        else None
      else Some [refuse now res ("module " ++ moduleName ++ " not found")]
  | Some moduleMatrix =>
      match lookup method moduleMatrix with
      | None =>
          if inherited method then None
          else
            Some [refuse now res
                    ("unsupported method " ++ method ++ " for " ++ moduleName)]
      | Some fns =>
          if negb (existsb (String.eqb fnName) fns) then
            Some [refuse now res
                    ("unable to find function " ++ fnName ++ " with method " ++ method)]
          else
            match lookup (route moduleName fnName) (mwsStack this) with
            | None => None
            | Some targetStack =>
                Some (VirtualStack.run (mwsRepo this) now targetStack req res
                        (onDone this now req res moduleName fnName))
            end
      end
  end.

End ApiHandler.

(* ================================================================== *)
(** * The parameter introspector *)

Module Introspector.

(** Modelled from the spec: [getParamNames]
    ([managers/api/_common/getParamNames.js] is not among the sources).
    Section 4.1: given a handler function it produces its declared
    parameter list, and what is not an inspectable function is a
    configuration error raised at build time; section 4.2, step 2: a method
    name that does not exist on the module makes the build throw. *)
Definition getParamNames (fn : option func) (fnName moduleName : string)
  : result string :=
  match fn with
  | Some f => Ok (declared_params f)
  | None => Throw ("function " ++ fnName ++ " not found on " ++ moduleName)
  end.

End Introspector.

(* ================================================================== *)
(** * libs/errorHandler.js *)

Module ErrorHandler.

Import Js.

(** A parameter with a default value: the default stands for [undefined]. *)
Definition defaulted (d v : value) : value :=
  match v with
  | Undefined => d
  | _ => v
  end.

(** [{ok: false, code, errors}] *)
Definition failure (code : Z) (errors : list value) : value :=
  Obj [("ok", Bool false); ("code", Num code); ("errors", Arr errors)].

(** [...(v && {key: v})]: the key is there when [v] is truthy. *)
Definition optional (key : string) (v : value) : object :=
  if truthy v then [(key, v)] else [].

Definition badRequest (message field details : value) : value :=
  failure 400
    [Obj ([("field", defaulted Null field); ("message", message)]
          ++ optional "details" (defaulted Null details))].

Definition nullish (v : value) : bool :=
  match v with
  | Undefined | Null => true
  | _ => false
  end.

(** [validationErrors(errorArray)]: reading [err.field] off [null] or
    [undefined] throws. *)
Definition validationErrors (errorArray : list value) : result value :=
  if existsb nullish errorArray then Throw "TypeError"
  else
    Ok (failure 400
          (map (fun err =>
                  Obj [("field", or (get err "field") Null);
                       ("message", or (get err "message") err)])
               errorArray)).

Definition unauthorized (message : value) : value :=
  failure 401
    [Obj [("message",
           defaulted (Str "Unauthorized. Please login to continue.") message);
          ("type", Str "AUTH_ERROR")]].

Definition forbidden (message : value) : value :=
  failure 403
    [Obj [("message",
           defaulted (Str "You do not have permission to access this resource.")
             message);
          ("type", Str "PERMISSION_ERROR")]].

Definition conflict (message field : value) : value :=
  failure 409
    [Obj [("field", defaulted Null field); ("message", message);
          ("type", Str "CONFLICT")]].

(** [notFound(resource = "Resource")], for a resource given by name. *)
Definition notFound (resource : option string) : value :=
  failure 404
    [Obj [("message",
           Str (match resource with Some name => name | None => "Resource" end
                ++ " not found"));
          ("type", Str "NOT_FOUND")]].

Definition internalError (message errorDetails : value) : value :=
  failure 500
    [Obj ([("message",
            defaulted (Str "An unexpected error occurred. Please try again.")
              message)]
          ++ optional "details" (defaulted Null errorDetails)
          ++ [("type", Str "INTERNAL_ERROR")])].

Definition unprocessable (message field : value) : value :=
  failure 422
    [Obj [("field", defaulted Null field); ("message", message);
          ("type", Str "UNPROCESSABLE")]].

(** [[A-Z]] *)
Definition is_upper (c : ascii) : bool :=
  let n := nat_of_ascii c in (Nat.leb 65 n) && (Nat.leb n 90).

(** The line terminators, which [.] does not match (LF, CR). *)
Definition is_line_terminator (c : ascii) : bool :=
  let n := nat_of_ascii c in (Nat.eqb n 10) || (Nat.eqb n 13).

(** [x.toUpperCase()] for an ASCII character [x]. *)
Definition upper_ascii (c : ascii) : ascii :=
  let n := nat_of_ascii c in
  if (Nat.leb 97 n) && (Nat.leb n 122) then ascii_of_nat (n - 32) else c.

(** The callback of the first [replace]: [x === fieldName[0] ? x : " " + x],
    for a match [x] of one character. *)
Definition respaced (first c : ascii) : string :=
  if Ascii.eqb c first then String c EmptyString
  else String " " (String c EmptyString).

(** [replace(/(?:^|.)(?=[A-Z])/g, ...)] from a position where [^] cannot
    match: a match is one character, other than a line terminator, that
    stands before a capital; the search goes on after it. *)
Fixpoint spaced (first : ascii) (s : string) : string :=
  match s with
  | EmptyString => EmptyString
  | String c rest =>
      match rest with
      | String d _ =>
          if is_upper d && negb (is_line_terminator c)
          then respaced first c ++ spaced first rest
          else String c (spaced first rest)
      | EmptyString => String c EmptyString
      end
  end.

(** The first [replace] on the whole name.  At the start, [^] is tried
    first: before a leading capital it matches the empty string, which is
    never [fieldName[0]] and is replaced by a space; the search then goes
    on from the second character. *)
Definition spaced_name (fieldName : string) : string :=
  match fieldName with
  | EmptyString => EmptyString
  | String c rest =>
      if is_upper c then String " " (String c (spaced c rest))
      else spaced c fieldName
  end.

(** [replace(/^./, (x) => x.toUpperCase())] *)
Definition capitalized (s : string) : string :=
  match s with
  | EmptyString => EmptyString
  | String c rest =>
      if is_line_terminator c then s else String (upper_ascii c) rest
  end.

(** [formatFieldName(fieldName)], for a name of ASCII characters. *)
Definition formatFieldName (fieldName : string) : string :=
  capitalized (spaced_name fieldName).

(** [typeof v === "string" && !v.trim()], for a string of ASCII
    characters (in other strings [trim] removes white space that
    [Str.trim] leaves). *)
Definition blank (v : value) : bool :=
  match v with
  | Str s => String.eqb (Str.trim s) ""
  | _ => false
  end.

(** [validateRequired(data, requiredFields)], on an object [data] whose
    strings are made of ASCII characters, for names of ASCII characters. *)
Fixpoint validateRequired (data : object) (requiredFields : list string) : value :=
  match requiredFields with
  | [] => Null
  | field :: rest =>
      if negb (truthy (get (Obj data) field)) || blank (get (Obj data) field)
      then badRequest (Str (formatFieldName field ++ " is required")) (Str field)
             Undefined
      else validateRequired data rest
  end.

(** [requiredRoles.includes(userRole)], for an array of strings. *)
Definition includes (requiredRoles : list string) (userRole : value) : bool :=
  match userRole with
  | Str role => existsb (String.eqb role) requiredRoles
  | _ => false
  end.

Definition checkRolePermission (userRole : value) (requiredRoles : list string)
  : value :=
  if negb (truthy userRole) then unauthorized (Str "Authentication required")
  else if negb (includes requiredRoles userRole) then
    forbidden (Str ("This operation requires one of these roles: "
                      ++ String.concat ", " requiredRoles))
  else Null.

(** [a === b].  Arrays and objects are equal when they are the same
    reference; the operands compared here are built apart (one comes from
    the token, the other from the request), so two of them never are. *)
Definition strict_equal (a b : value) : bool :=
  match a, b with
  | Undefined, Undefined => true
  | Null, Null => true
  | Bool x, Bool y => Bool.eqb x y
  | Num x, Num y => Z.eqb x y
  | Str x, Str y => String.eqb x y
  | Host x, Host y => String.eqb x y
  | _, _ => false
  end.

Definition checkResourceOwnership (userId resourceOwnerId userRole : value)
  : value :=
  if negb (strict_equal userId resourceOwnerId)
     && negb (strict_equal userRole (Str "superadmin"))
  then forbidden (Str "You can only access your own resources")
  else Null.

End ErrorHandler.

(* ================================================================== *)
(** * managers/token/Token.manager.js (class [TokenManager]) *)

Module TokenManager.

Import Js.

Section Jwt.

(** [jwt.verify(token, secret, options)]: the decoded payload, or no value
    when it throws.  [jwt.sign(payload, secret, options)]: the token, or no
    value when it throws. *)
Variable verify : value -> string -> option value.
Variable sign : value -> string -> value -> option string.

(** [config.dotEnv.LONG_TOKEN_SECRET], [config.dotEnv.SHORT_TOKEN_SECRET],
    [config.jwt?.issuer] and the two expiry settings. *)
Variable LONG_TOKEN_SECRET SHORT_TOKEN_SECRET : string.
Variable issuer : value.
Variable longTokenExpiresIn : string.

Definition _verifyToken (token : value) (secret : string) : value :=
  match verify token secret with
  | Some decoded => decoded
  | None => Null
  end.

Definition verifyLongToken (token : value) : value :=
  if negb (truthy token) then Null else _verifyToken token LONG_TOKEN_SECRET.

Definition verifyShortToken (token : value) : value :=
  if negb (truthy token) then Null else _verifyToken token SHORT_TOKEN_SECRET.

(** The payload signed by [genLongToken]; [seconds] is
    [Math.floor(Date.now() / 1000)]. *)
Definition access_payload (userId email role : value) (seconds : Z) : value :=
  Obj [("userId", userId); ("email", email); ("role", role);
       ("type", Str "access"); ("iat", Num seconds)].

Definition genLongToken (userId email role : value) (seconds : Z) : value :=
  match sign (access_payload userId email role seconds) LONG_TOKEN_SECRET
          (Obj [("expiresIn", Str longTokenExpiresIn);
                ("algorithm", Str "HS256");
                ("issuer", or issuer (Str "school-management-api"));
                ("subject", userId)]) with
  | Some signedToken => Str signedToken
  | None => Null
  end.

(** [refreshToken({__shortToken})] *)
Definition refreshToken (seconds : Z) (data : value) : value :=
  let __shortToken := get data "__shortToken" in
  if negb (truthy __shortToken) || negb (truthy (get __shortToken "userId")) then
    Obj [("ok", Bool false); ("code", Num 401);
         ("errors", Str "Invalid or expired refresh token")]
  else
    Obj [("ok", Bool true); ("code", Num 200);
         ("data",
          Obj [("longToken",
                genLongToken (get __shortToken "userId")
                  (Str "user@example.com") (Str "student") seconds)])].

End Jwt.

End TokenManager.

(* ================================================================== *)
(** * managers/_common/schema.validators.js *)

Module Validators.

Import Js.

(** [[a-zA-Z0-9_-]] *)
Definition allowed (c : ascii) : bool :=
  let n := nat_of_ascii c in
  ((Nat.leb 97 n) && (Nat.leb n 122)) || ((Nat.leb 65 n) && (Nat.leb n 90))
  || ((Nat.leb 48 n) && (Nat.leb n 57)) || (Nat.eqb n 95) || (Nat.eqb n 45).

Fixpoint all_allowed (s : string) : bool :=
  match s with
  | EmptyString => true
  | String c rest => allowed c && all_allowed rest
  end.

(** [/^[a-zA-Z0-9_-]+$/.test(s)] *)
Definition well_formed (s : string) : bool :=
  negb (String.eqb s "") && all_allowed s.

Definition username (data : value) : value :=
  match data with
  | Str s =>
      if String.eqb s "" then Str "Username must be a string"
      else if Nat.ltb (String.length (Str.trim s)) 3 then
        Str "Username must be at least 3 characters long"
      else if Nat.ltb 20 (String.length (Str.trim s)) then
        Str "Username must not exceed 20 characters"
      else if negb (well_formed s) then
        Str "Username can only contain letters, numbers, underscores, and hyphens"
      else Null
  | _ => Str "Username must be a string"
  end.

End Validators.

(* ================================================================== *)
(** * managers/entities/user/User.manager.js *)

Module User.

Import Js.

(** [getUserById({id, __token})], over [_findUserById], which answers the
    user document or [null] and does not throw. *)
Definition getUserById (_findUserById : value -> value) (data : value) : value :=
  let id := get data "id" in
  let __token := get data "__token" in
  let authCheck := ErrorHandler.validateRequired [("id", id)] ["id"] in
  if truthy authCheck then authCheck
  else if negb (truthy __token) then
    ErrorHandler.unauthorized (Str "Authentication required. Please login.")
  else
    let accessCheck :=
      ErrorHandler.checkResourceOwnership (get __token "userId") id
        (get __token "role") in
    if truthy accessCheck then accessCheck
    else
      let user := _findUserById id in
      if negb (truthy user) then ErrorHandler.notFound (Some "User")
      else
        Obj [("user",
              Obj [("id", get user "id"); ("username", get user "username");
                   ("email", get user "email");
                   ("firstName", get user "firstName");
                   ("lastName", get user "lastName"); ("role", get user "role");
                   ("status", get user "status");
                   ("createdAt", get user "createdAt")])].

End User.

(* ================================================================== *)
(** * The school manager (class [School]) *)

Module School.

Import Js.

(** The writes to the [school] collection:
    [mongomodels.school.create(doc)] and
    [mongomodels.school.findOneAndUpdate(filter, update, options)]. *)
Inductive db_call : Type :=
| Create (doc : value)
| FindOneAndUpdate (filter update options : value).

(** [{ok: false, code, errors}] with a string for [errors]. *)
Definition refusal (code : Z) (errors : string) : value :=
  Obj [("ok", Bool false); ("code", Num code); ("errors", Str errors)].

(** [getSchoolById({id, __token})], over [_findSchoolById]. *)
Definition getSchoolById (_findSchoolById : value -> value) (data : value) : value :=
  let id := get data "id" in
  let __token := get data "__token" in
  if negb (truthy __token) then
    Obj [("ok", Bool false); ("code", Num 401);
         ("errors", Str "Authentication required")]
  else
    let school := _findSchoolById id in
    if negb (truthy school) then
      Obj [("ok", Bool false); ("code", Num 404); ("errors", Str "School not found")]
    else
      Obj [("school",
            Obj [("id", get school "id"); ("name", get school "name");
                 ("shortCode", get school "shortCode");
                 ("address", get school "address"); ("phone", get school "phone");
                 ("email", get school "email");
                 ("principalName", get school "principalName");
                 ("status", get school "status")])].

(** [createSchool(data)]: the writes it makes and what it returns.
    [validate] is [validators.school.createSchool] and [create] is
    [mongomodels.school.create], each with no value when it throws;
    [schoolId] is the identifier drawn by [uuid.v4()]. *)
Definition createSchool (validate : value -> option value)
  (_findSchoolByCode : value -> value) (schoolId : string)
  (create : value -> option value) (data : value) : list db_call * value :=
  let schoolName := get data "schoolName" in
  let schoolAddress := get data "schoolAddress" in
  let schoolPhone := get data "schoolPhone" in
  let schoolEmail := get data "schoolEmail" in
  let principalName := get data "principalName" in
  let schoolCode := get data "schoolCode" in
  let establishedYear := get data "establishedYear" in
  let __token := get data "__token" in
  if negb (truthy __token) then ([], refusal 401 "Authentication required")
  else if negb (ErrorHandler.strict_equal (get __token "role") (Str "superadmin"))
  then ([], refusal 403 "Only superadmin can create schools")
  else if negb (truthy schoolName) then ([], refusal 400 "schoolName is required")
  else if negb (truthy schoolAddress) then
    ([], refusal 400 "schoolAddress is required")
  else if negb (truthy schoolPhone) then ([], refusal 400 "schoolPhone is required")
  else if negb (truthy schoolEmail) then ([], refusal 400 "schoolEmail is required")
  else if negb (truthy principalName) then
    ([], refusal 400 "principalName is required")
  else if negb (truthy schoolCode) then ([], refusal 400 "schoolCode is required")
  else
    match validate (Obj [("schoolName", schoolName);
                         ("schoolAddress", schoolAddress);
                         ("schoolPhone", schoolPhone);
                         ("schoolEmail", schoolEmail);
                         ("principalName", principalName);
                         ("schoolCode", schoolCode);
                         ("establishedYear", establishedYear)]) with
    | None => ([], refusal 500 "Failed to create school")
    | Some validation =>
        if truthy validation then
          ([], Obj [("ok", Bool false); ("code", Num 400); ("errors", validation)])
        else if truthy (_findSchoolByCode schoolCode) then
          ([], refusal 409 "School code already exists. Please use a different code.")
        else
          let schoolData :=
            Obj [("id", Str schoolId); ("name", schoolName);
                 ("shortCode", schoolCode); ("address", schoolAddress);
                 ("phone", schoolPhone); ("email", schoolEmail);
                 ("principalName", principalName);
                 ("totalClassrooms", Num 0); ("totalStudents", Num 0);
                 ("totalTeachers", Num 0); ("status", Str "active")] in
          match create schoolData with
          | None => ([Create schoolData], refusal 500 "Failed to create school")
          | Some savedSchool =>
              ([Create schoolData],
               Obj [("school",
                     Obj [("id", get savedSchool "id");
                          ("name", get savedSchool "name");
                          ("shortCode", get savedSchool "shortCode");
                          ("address", get savedSchool "address");
                          ("phone", get savedSchool "phone");
                          ("email", get savedSchool "email");
                          ("principalName", get savedSchool "principalName");
                          ("status", get savedSchool "status")])])
          end
    end.

(** [deleteSchool({id, __token})]: the writes it makes and what it
    returns.  [findOneAndUpdate] tells whether the update returns ([true])
    or throws; [now] is [new Date()]. *)
Definition deleteSchool (_findSchoolById : value -> value)
  (findOneAndUpdate : value -> value -> value -> bool) (now : string)
  (data : value) : list db_call * value :=
  let id := get data "id" in
  let __token := get data "__token" in
  if negb (truthy __token) then ([], refusal 401 "Authentication required")
  else if negb (ErrorHandler.strict_equal (get __token "role") (Str "superadmin"))
  then ([], refusal 403 "Only superadmin can delete schools")
  else if negb (truthy (_findSchoolById id)) then
    ([], refusal 404 "School not found")
  else
    let filter := Obj [("id", id)] in
    let update := Obj [("isDeleted", Bool true); ("deletedAt", Str now)] in
    let options := Obj [("new", Bool true)] in
    ([FindOneAndUpdate filter update options],
     if findOneAndUpdate filter update options
     then Obj [("message", Str "School deactivated successfully")]
     else refusal 500 "Failed to delete school").

End School.

(* ================================================================== *)
(** * A small installation *)

Module Demo.

Import Js.

Definition now : string := "2026-02-25T12:00:00.000Z".

Definition verifyLongToken (token : value) : TokenMw.verification :=
  match token with
  | Str "valid" => TokenMw.Decoded (Obj [("userId", Str "u1"); ("role", Str "superadmin")])
  | Str "expired" => TokenMw.Failed "TokenExpiredError"
  | _ => TokenMw.Decoded Null
  end.

Definition __query : middleware := fun req _ => Next (req_query req).

Definition mwsRepo : list (string * middleware) :=
  [ ("__token", TokenMw.__token verifyLongToken now);
    ("__device", DeviceMw.__device (fun _ => Str "10.0.0.7") None);
    ("__query", __query) ].

Definition createThing : func :=
  {| declared_params := "name,__token,__device,__query";
     call := fun data => Returned (Obj [("created", get data "name")]) |}.

Definition getThing : func :=
  {| declared_params := "{id}";
     call := fun data => Thrown (Str "connection refused at db.internal:27017") |}.

Definition thing : manager :=
  {| httpExposed := Some ["createThing"; "get=getThing"];
     methods := [("createThing", createThing); ("getThing", getThing)] |}.

Definition managers : list (string * manager) :=
  [ ("responseDispatcher", {| httpExposed := None; methods := [] |});
    ("thing", thing) ].

Definition this : ApiHandler.t :=
  {| ApiHandler.managers := managers;
     ApiHandler.mwsRepo := mwsRepo;
     ApiHandler.methodMatrix :=
       [("thing", [("post", ["createThing"]); ("get", ["getThing"])])];
     ApiHandler.mwsStack :=
       [("thing.createThing", ["__token"; "__device"; "__query"]);
        ("thing.getThing", [])] |}.

Definition request_to (verb moduleName fnName : string) (body : value)
  (token : value) : request :=
  {| req_method := verb;
     params_moduleName := moduleName;
     params_fnName := fnName;
     req_body := body;
     req_headers := [("token", token)];
     req_query := Obj [("page", Str "1")] |}.

Definition create_request (token : value) : request :=
  request_to "POST" "thing" "createThing" (Obj [("name", Str "Foo")]) token.

Definition stack : list string := ["__token"; "__device"; "__query"].

(** A module that exposes a method it does not have. *)
Definition broken : manager :=
  {| httpExposed := Some ["createThing"; "get=listThings"];
     methods := [("createThing", createThing)] |}.

(** A module whose method asks for a middleware that is not registered. *)
Definition audited : manager :=
  {| httpExposed := Some ["post=removeThing"];
     methods := [("removeThing",
                  {| declared_params := "id,__token,__audit";
                     call := fun data => Returned data |})] |}.

(** A module whose method is exposed under two verbs. *)
Definition findThing : func :=
  {| declared_params := "id,__token"; call := fun data => Returned data |}.

Definition twice : manager :=
  {| httpExposed := Some ["get=findThing"; "post=findThing"];
     methods := [("findThing", findThing)] |}.

(** A module whose method has a parameter named like a property of every
    object: [probe({id, __proto__})]. *)
Definition probe : func :=
  {| declared_params := "id,__proto__"; call := fun data => Returned data |}.

Definition probing : manager :=
  {| httpExposed := Some ["probe"]; methods := [("probe", probe)] |}.

End Demo.

(* ================================================================== *)
(** * Vocabulary of the statements *)

(** The three ways a request fails to name a registered route, each with
    the message the dispatcher words for it; the module name, or the verb,
    that is not in the table is not an inherited name either. *)
Inductive invalid_route (this : ApiHandler.t) (req : request) : string -> Prop :=
| unknown_module :
    Js.lookup (params_moduleName req) (ApiHandler.methodMatrix this) = None ->
    Js.inherited (params_moduleName req) = false ->
    invalid_route this req ("module " ++ params_moduleName req ++ " not found")
| unsupported_method (moduleMatrix : list (string * list string)) :
    Js.lookup (params_moduleName req) (ApiHandler.methodMatrix this) = Some moduleMatrix ->
    Js.lookup (Str.toLowerCase (req_method req)) moduleMatrix = None ->
    Js.inherited (Str.toLowerCase (req_method req)) = false ->
    invalid_route this req
      ("unsupported method " ++ Str.toLowerCase (req_method req)
         ++ " for " ++ params_moduleName req)
| unknown_function (moduleMatrix : list (string * list string)) (fns : list string) :
    Js.lookup (params_moduleName req) (ApiHandler.methodMatrix this) = Some moduleMatrix ->
    Js.lookup (Str.toLowerCase (req_method req)) moduleMatrix = Some fns ->
    ~ In (params_fnName req) fns ->
    invalid_route this req
      ("unable to find function " ++ params_fnName req ++ " with method "
         ++ Str.toLowerCase (req_method req)).

(** The failure envelope written for a message alone. *)
Definition failure_envelope (now message : string) : Js.value :=
  Js.Obj [ ("ok", Js.Bool false); ("code", Js.Num 400); ("data", Js.Obj []);
           ("timestamp", Js.Str now); ("message", Js.Str message) ].

(** [r.code], or [fallback] when it is falsy. *)
Definition code_or (fallback : Z) (r : Js.value) : Js.value :=
  if Js.truthy (Js.get r "code") then Js.get r "code" else Js.Num fallback.

(** The handler result as [onDone] reads it: [{}] stands for a falsy one. *)
Definition settled (result : Js.value) : Js.value :=
  if Js.truthy result then result else Js.Obj [].

(** The request names a registered route whose middleware stack is [stack]. *)
Definition resolves (this : ApiHandler.t) (req : request) (stack : list string) : Prop :=
  exists moduleMatrix fns,
    Js.lookup (params_moduleName req) (ApiHandler.methodMatrix this) = Some moduleMatrix
    /\ Js.lookup (Str.toLowerCase (req_method req)) moduleMatrix = Some fns
    /\ In (params_fnName req) fns
    /\ Js.lookup (ApiHandler.route (params_moduleName req) (params_fnName req))
         (ApiHandler.mwsStack this) = Some stack.

(** Every unit named in [names] is registered and continues on this
    request. *)
Definition continue (mwsRepo : list (string * middleware)) (req : request)
  (res : string) (names : list string) : Prop :=
  Forall (fun name => exists unit_fn v,
            Js.lookup name mwsRepo = Some unit_fn /\ unit_fn req res = Next v) names.

(** The results accumulated over units that continue. *)
Fixpoint accumulated (mwsRepo : list (string * middleware)) (req : request)
  (res : string) (names : list string) (results : Js.object) : Js.object :=
  match names with
  | [] => results
  | name :: later =>
      match Js.lookup name mwsRepo with
      | Some unit_fn =>
          match unit_fn req res with
          | Next v => accumulated mwsRepo req res later (Js.set name v results)
          | _ => results
          end
      | None => results
      end
  end.

(** The parameters that carry the middleware marker. *)
Definition marked (params : list string) : list string :=
  filter (Str.startsWith "__") params.

(** The parameter names of a parameter text, as the constructor cleans
    them. *)
Definition param_names (text : string) : list string :=
  map ApiHandler.clean (Str.split "," text).

(** The entries of [httpExposed] of the manager found under a name. *)
Definition exposed (managers : list (string * manager)) (moduleName : string)
  : list string :=
  match Js.lookup moduleName managers with
  | Some mgr => match httpExposed mgr with Some defs => defs | None => [] end
  | None => []
  end.

(** The pairs of a module name and one of its declarations, in the order
    of the scan. *)
Definition scanned (managers : list (string * manager)) (names : list string)
  : list (string * string) :=
  flat_map (fun moduleName => map (pair moduleName) (exposed managers moduleName))
           names.

Definition declarations (managers : list (string * manager))
  : list (string * string) :=
  scanned managers (Js.keys managers).

(** The method a declaration exposes, and the key of its stack. *)
Definition method_of (decl : string * string) : string :=
  snd (ApiHandler.parse (snd decl)).

Definition route_of (decl : string * string) : string :=
  ApiHandler.route (fst decl) (method_of decl).

Section Introspected.

Variable getParamNames : option func -> string -> string -> result string.
Variable managers : list (string * manager).

(** What the introspector answers for a declaration. *)
Definition introspect (decl : string * string) : result string :=
  match Js.lookup (fst decl) managers with
  | Some mgr =>
      getParamNames (Js.lookup (method_of decl) (methods mgr))
                    (method_of decl) (fst decl)
  | None => Throw ApiHandler.TypeError
  end.

(** The marked parameters of the method a declaration exposes. *)
Definition marked_params (decl : string * string) : list string :=
  match introspect decl with
  | Ok text => marked (param_names text)
  | Throw _ => []
  end.

(** A declaration at fault, with the error it raises: its method is not
    introspected, or one of its marked parameters is not registered. *)
Definition faulty (mwsRepo : list (string * middleware))
  (decl : string * string) (err : string) : Prop :=
  introspect decl = Throw err
  \/ exists text param,
       introspect decl = Ok text
       /\ In param (param_names text)
       /\ Str.startsWith "__" param = true
       /\ Js.lookup param mwsRepo = None
       /\ err = ApiHandler.missing_middleware param (fst decl) (method_of decl).

(** A declaration at fault, more closely: the introspector throws on its
    method, or one of its marked parameters is neither registered nor a
    name that the registry inherits, and the error is worded for it. *)
Definition at_fault (mwsRepo : list (string * middleware))
  (decl : string * string) (err : string) : Prop :=
  introspect decl = Throw err
  \/ exists text param,
       introspect decl = Ok text
       /\ In param (param_names text)
       /\ Str.startsWith "__" param = true
       /\ Js.lookup param mwsRepo = None
       /\ Js.inherited param = false
       /\ err = ("Unable to find middleware " ++ param ++ " for "
                   ++ fst decl ++ "." ++ method_of decl)%string.

(** A declaration without fault: its method is introspected and each of
    its marked parameters is found in the registry, as one of its units or
    as a name it inherits. *)
Definition configured (mwsRepo : list (string * middleware))
  (decl : string * string) : Prop :=
  exists text,
    introspect decl = Ok text
    /\ Forall (fun param => Str.startsWith "__" param = true ->
                            ApiHandler.found param mwsRepo = true)
              (param_names text).

(** The entry of a stack table under [key] once a declaration has added
    its parameters under its own key. *)
Definition extend (key : string) (added : string * list string)
  (entry : option (list string)) : option (list string) :=
  if String.eqb key (fst added)
  then Some (match entry with Some known => known | None => [] end ++ snd added)
  else entry.

(** The entry under [key] after a sequence of declarations. *)
Definition entry_after (key : string) (decls : list (string * string))
  (entry : option (list string)) : option (list string) :=
  fold_left (fun e decl => extend key (route_of decl, marked_params decl) e)
            decls entry.

End Introspected.

(** Every function listed in the method matrix has a stack. *)
Definition covered (this : ApiHandler.t) : Prop :=
  forall moduleName matrix verb fns fnName,
    Js.lookup moduleName (ApiHandler.methodMatrix this) = Some matrix ->
    Js.lookup verb matrix = Some fns ->
    In fnName fns ->
    Js.lookup (ApiHandler.route moduleName fnName) (ApiHandler.mwsStack this) <> None.

(** A registered module: a manager that has an [httpExposed] array. *)
Definition registered (managers : list (string * manager)) (moduleName : string)
  : Prop :=
  exists mgr defs,
    Js.lookup moduleName managers = Some mgr /\ httpExposed mgr = Some defs.

(* ================================================================== *)
(** * Vocabulary of the further properties *)

(** A name without white space, comma or brace. *)
Definition plain_char (c : ascii) : bool :=
  negb (Str.is_space c) && negb (Ascii.eqb c ",")
  && negb (Ascii.eqb c "{") && negb (Ascii.eqb c "}").

Fixpoint plain (s : string) : bool :=
  match s with
  | EmptyString => true
  | String c rest => plain_char c && plain rest
  end.

(** The field is there, truthy, and not a blank string. *)
Definition present (data : Js.object) (field : string) : bool :=
  Js.truthy (Js.get (Js.Obj data) field)
  && negb (ErrorHandler.blank (Js.get (Js.Obj data) field)).

(** A string of ASCII characters, and a value that is not a string with
    other characters. *)
Fixpoint ascii_only (s : string) : bool :=
  match s with
  | EmptyString => true
  | String c rest => Nat.ltb (nat_of_ascii c) 128 && ascii_only rest
  end.

Definition ascii_value (v : Js.value) : bool :=
  match v with
  | Js.Str s => ascii_only s
  | _ => true
  end.

(** A name without a capital letter. *)
Fixpoint no_capital (s : string) : bool :=
  match s with
  | EmptyString => true
  | String c rest => negb (ErrorHandler.is_upper c) && no_capital rest
  end.

(** The caller named by the token of [data] is the user [data.id], or a
    superadmin. *)
Definition owner_or_superadmin (data : Js.value) : bool :=
  ErrorHandler.strict_equal (Js.get (Js.get data "__token") "userId") (Js.get data "id")
  || ErrorHandler.strict_equal (Js.get (Js.get data "__token") "role")
       (Js.Str "superadmin").

(** The method matrix lists [fnName] under [verb] for the module. *)
Definition listed (this : ApiHandler.t) (moduleName verb fnName : string) : Prop :=
  exists matrix fns,
    Js.lookup moduleName (ApiHandler.methodMatrix this) = Some matrix
    /\ Js.lookup verb matrix = Some fns
    /\ In fnName fns.

(** The token unit of an installation whose token manager is the
    repository's: [managers.token.verifyLongToken] does not throw. *)
Definition token_unit_of (verify : Js.value -> string -> option Js.value)
  (LONG_TOKEN_SECRET : string) (now : string) : middleware :=
  TokenMw.__token
    (fun token =>
       TokenMw.Decoded (TokenManager.verifyLongToken verify LONG_TOKEN_SECRET token))
    now.

(* ================================================================== *)
(** * Dictionaries: reading after writing *)

Section Dictionary.

Context {A : Type}.

Lemma lookup_set_same (k : string) (v : A) (o : list (string * A)) :
  Js.lookup k (Js.set k v o) = Some v.
Proof.
  induction o as [|[k' v'] rest IH]; simpl.
  - now rewrite String.eqb_refl.
  - destruct (String.eqb k k') eqn:E; simpl; rewrite E; auto.
Qed.

Lemma lookup_set_other (k k' : string) (v : A) (o : list (string * A)) :
  k' <> k -> Js.lookup k' (Js.set k v o) = Js.lookup k' o.
Proof.
  intros Hne. induction o as [|[k0 v0] rest IH]; simpl.
  - destruct (String.eqb_spec k' k); congruence.
  - destruct (String.eqb_spec k k0) as [->|Hk]; simpl.
    + destruct (String.eqb_spec k' k0); congruence.
    + destruct (String.eqb_spec k' k0); auto.
Qed.

Lemma keys_set (k k' : string) (v : A) (o : list (string * A)) :
  In k' (Js.keys (Js.set k v o)) <-> k' = k \/ In k' (Js.keys o).
Proof.
  unfold Js.keys. induction o as [|[k0 v0] rest IH]; simpl.
  - intuition.
  - destruct (String.eqb_spec k k0) as [->|Hk]; simpl.
    + intuition.
    + rewrite IH. intuition.
Qed.

Lemma lookup_none_keys (k : string) (o : list (string * A)) :
  Js.lookup k o = None <-> ~ In k (Js.keys o).
Proof.
  unfold Js.keys. induction o as [|[k0 v0] rest IH]; simpl.
  - intuition.
  - destruct (String.eqb_spec k k0) as [->|Hk].
    + split; [discriminate | intros H; exfalso; apply H; now left].
    + rewrite IH. intuition congruence.
Qed.

Lemma lookup_some_keys (k : string) (v : A) (o : list (string * A)) :
  Js.lookup k o = Some v -> In k (Js.keys o).
Proof.
  intros H. destruct (in_dec string_dec k (Js.keys o)) as [|Hn]; auto.
  apply lookup_none_keys in Hn. congruence.
Qed.

Lemma keys_lookup (k : string) (o : list (string * A)) :
  In k (Js.keys o) -> exists v, Js.lookup k o = Some v.
Proof.
  intros H. destruct (Js.lookup k o) eqn:E; eauto.
  apply lookup_none_keys in E. contradiction.
Qed.

End Dictionary.

Lemma keys_assign (into from : Js.object) (k : string) :
  In k (Js.keys (Js.assign into from)) <-> In k (Js.keys into) \/ In k (Js.keys from).
Proof.
  unfold Js.assign. revert into.
  induction from as [|[k0 v0] rest IH]; intros into; simpl.
  - intuition.
  - rewrite IH, keys_set. simpl. intuition.
Qed.

Lemma lookup_assign_into (into from : Js.object) (k : string) :
  ~ In k (Js.keys from) ->
  Js.lookup k (Js.assign into from) = Js.lookup k into.
Proof.
  unfold Js.assign. revert into.
  induction from as [|[k0 v0] rest IH]; intros into Hn; simpl in *; auto.
  rewrite IH by tauto. apply lookup_set_other. intros ->. tauto.
Qed.

Lemma lookup_assign_from (into from : Js.object) (k : string) :
  In k (Js.keys from) ->
  exists v, Js.lookup k (Js.assign into from) = Some v /\ In (k, v) from.
Proof.
  unfold Js.assign. revert into.
  induction from as [|[k0 v0] rest IH]; intros into Hin; simpl in *.
  - contradiction.
  - destruct (in_dec string_dec k (Js.keys rest)) as [Hr|Hr].
    + destruct (IH (Js.set k0 v0 into) Hr) as (v & Hv & Hm). eauto.
    + destruct Hin as [->|]; [|contradiction].
      exists v0. split; [|now left].
      change (Js.lookup k (Js.assign (Js.set k v0 into) rest) = Some v0).
      rewrite lookup_assign_into by assumption. apply lookup_set_same.
Qed.

Lemma nonempty_suffix (s t : string) :
  t <> EmptyString -> String.eqb (s ++ t) "" = false.
Proof.
  intros Ht. destruct s; simpl; [|reflexivity].
  destruct t; [congruence | reflexivity].
Qed.

Lemma existsb_eqb_in (x : string) (l : list string) :
  existsb (String.eqb x) l = true <-> In x l.
Proof.
  rewrite existsb_exists. split.
  - intros (y & Hy & E). apply String.eqb_eq in E. now subst.
  - intros H. exists x. split; auto. apply String.eqb_refl.
Qed.

(* ================================================================== *)
(** * Reading a declaration *)

Example parse_bare : ApiHandler.parse "registerUser" = ("post", "registerUser").
Proof. reflexivity. Qed.

Example parse_verb :
  ApiHandler.parse "get=getSchoolById" = ("get", "getSchoolById").
Proof. reflexivity. Qed.

Example param_names_braces :
  param_names "{id, page, __token}" = ["id"; "page"; "__token"].
Proof. reflexivity. Qed.

Example param_names_none : param_names "" = [""].
Proof. reflexivity. Qed.

Example marked_in_order :
  marked (param_names "__token,id,__device") = ["__token"; "__device"].
Proof. reflexivity. Qed.

Lemma split_nonempty (c : ascii) (s : string) : Str.split c s <> [].
Proof.
  induction s as [|d rest IH]; simpl; [discriminate|].
  destruct (Ascii.eqb d c); [discriminate|].
  destruct (Str.split c rest); [contradiction | discriminate].
Qed.

Lemma split_includes (c : ascii) (s : string) :
  Str.includes c s = true -> 2 <= length (Str.split c s).
Proof.
  induction s as [|d rest IH]; simpl; [discriminate|].
  destruct (Ascii.eqb d c).
  - intros _. simpl. pose proof (split_nonempty c rest) as Hne.
    destruct (Str.split c rest); [contradiction | simpl; lia].
  - intros H. specialize (IH H).
    destruct (Str.split c rest); simpl in *; lia.
Qed.

(* ================================================================== *)
(** * The two units *)

(** The token unit continues only with a truthy decoded payload; otherwise
    it answers itself, with a 401 or a 500. *)
Lemma token_unit (verifyLongToken : Js.value -> TokenMw.verification)
  (now : string) (req : request) (res : string) :
  (exists decoded,
     TokenMw.__token verifyLongToken now req res = Next decoded
     /\ Js.truthy decoded = true)
  \/ (exists status payload,
        TokenMw.__token verifyLongToken now req res = Responded status payload
        /\ (status = Js.Num 401 \/ status = Js.Num 500)).
Proof.
  unfold TokenMw.__token.
  destruct (TokenMw.extract_token req) as [token|].
  - destruct (Js.truthy token); simpl.
    + destruct (verifyLongToken token) as [decoded|err_name].
      * destruct (Js.truthy decoded) eqn:E; simpl.
        -- left. eauto.
        -- right. eexists. eexists. split; [reflexivity | now left].
      * right. eexists. eexists. split; [reflexivity | now left].
    + right. eexists. eexists. split; [reflexivity | now left].
  - right. eexists. eexists. split; [reflexivity | now right].
Qed.

(** The device unit always continues. *)
Lemma device_unit (getClientIp : request -> Js.value)
  (useragent : option (Js.value -> Js.value)) (req : request) (res : string) :
  exists device, DeviceMw.__device getClientIp useragent req res = Next device.
Proof. eexists. reflexivity. Qed.

(* ================================================================== *)
(** * The dispatcher *)

(** A request whose module is not in the method matrix is answered with
    the failure envelope [module <moduleName> not found]; one whose verb has
    no methods for the module, or whose function is not listed under the
    verb, with an envelope that says so.  In the three cases the trace is
    that single write: no unit runs and no handler is called. *)
Lemma mw_refuses_invalid_route (this : ApiHandler.t) (now : string)
  (req : request) (res message : string) :
  invalid_route this req message ->
  ApiHandler.mw this now req res
  = Some [Sent res (Js.Num 400) (failure_envelope now message)].
Proof.
  intros H. unfold ApiHandler.mw.
  destruct H as [Hm Hi | mm Hm Hv Hi | mm fns Hm Hv Hf].
  - now rewrite Hm, Hi.
  - now rewrite Hm, Hv, Hi.
  - rewrite Hm, Hv.
    destruct (existsb (String.eqb (params_fnName req)) fns) eqn:E.
    + apply existsb_eqb_in in E. contradiction.
    + reflexivity.
Qed.

(** A module name that is not registered and is a property of
    [Object.prototype] passes the test of the module: with a plain verb the
    answer is [unsupported method <method> for <moduleName>]. *)
Lemma mw_on_inherited_module_name (this : ApiHandler.t) (now : string)
  (req : request) (res : string) :
  Js.lookup (params_moduleName req) (ApiHandler.methodMatrix this) = None ->
  Js.inherited (params_moduleName req) = true ->
  ApiHandler.plain_verb (Str.toLowerCase (req_method req)) = true ->
  ApiHandler.mw this now req res
  = Some [Sent res (Js.Num 400)
            (failure_envelope now
               ("unsupported method " ++ Str.toLowerCase (req_method req)
                  ++ " for " ++ params_moduleName req))].
Proof.
  intros Hm Hi Hv. unfold ApiHandler.mw. now rewrite Hm, Hi, Hv.
Qed.

(* ================================================================== *)
(** * Normalising a handler result *)

Lemma settled_truthy (result : Js.value) : Js.truthy (settled result) = true.
Proof. unfold settled. destruct (Js.truthy result) eqn:E; auto. Qed.

Lemma truthy_not_null (v : Js.value) :
  Js.truthy v = true -> ResponseDispatcher.is_null v = false.
Proof. destruct v; simpl; congruence. Qed.

(** C5, as the code has it: the precedence is [selfHandleResponse], then
    [errors], then [error], then success, each decided by truthiness (of the
    result itself, too: a falsy result counts as [{}]); the code is
    [result.code] when truthy, else 400 for a failure and 200 for a
    success.  Every failure envelope carries [data: {}] and a [message]
    (["Request failed"] when the handler gave [errors]); the [errors] key
    is written only for a non-empty normalised list.  So [{errors: ["x"]}]
    yields [{ok: false, code: 400, data: {}, timestamp, errors:
    [{message: "x"}], message: "Request failed"}], and a success yields
    [{ok: true, code, data: result, timestamp}]. *)
Theorem respond_by_precedence (now res : string) (result : Js.value) :
  let r := settled result in
  (Js.truthy (Js.get r "selfHandleResponse") = true ->
   ApiHandler.respond now res result = [])
  /\ (Js.truthy (Js.get r "selfHandleResponse") = false ->
      Js.truthy (Js.get r "errors") = true ->
      ApiHandler.respond now res result
      = [Sent res (code_or 400 r)
           (Js.Obj ([ ("ok", Js.Bool false); ("code", code_or 400 r);
                      ("data", Js.Obj []); ("timestamp", Js.Str now) ]
                    ++ match ResponseDispatcher.errorArray (Js.get r "errors") with
                       | [] => []
                       | errs => [("errors", Js.Arr errs)]
                       end
                    ++ [("message", Js.Str "Request failed")]))])
  /\ (Js.truthy (Js.get r "selfHandleResponse") = false ->
      Js.truthy (Js.get r "errors") = false ->
      Js.truthy (Js.get r "error") = true ->
      ApiHandler.respond now res result
      = [Sent res (code_or 400 r)
           (Js.Obj [ ("ok", Js.Bool false); ("code", code_or 400 r);
                     ("data", Js.Obj []); ("timestamp", Js.Str now);
                     ("message", Js.get r "error") ])])
  /\ (Js.truthy (Js.get r "selfHandleResponse") = false ->
      Js.truthy (Js.get r "errors") = false ->
      Js.truthy (Js.get r "error") = false ->
      ApiHandler.respond now res result
      = [Sent res (code_or 200 r)
           (Js.Obj [ ("ok", Js.Bool true); ("code", code_or 200 r);
                     ("data", r); ("timestamp", Js.Str now) ])])
  /\ ApiHandler.respond now res (Js.Obj [("errors", Js.Arr [Js.Str "x"])])
     = [Sent res (Js.Num 400)
          (Js.Obj [ ("ok", Js.Bool false); ("code", Js.Num 400);
                    ("data", Js.Obj []); ("timestamp", Js.Str now);
                    ("errors", Js.Arr [Js.Obj [("message", Js.Str "x")]]);
                    ("message", Js.Str "Request failed") ])].
Proof.
  intros r. unfold ApiHandler.respond. fold (settled result). fold r.
  repeat split.
  - intros ->. reflexivity.
  - intros -> ->.
    unfold ResponseDispatcher.dispatch, ResponseDispatcher.responseObj,
      ResponseDispatcher.statusCode, ResponseDispatcher.finalMessage, code_or.
    cbn [ResponseDispatcher.ok ResponseDispatcher.code ResponseDispatcher.errors
         ResponseDispatcher.data ResponseDispatcher.message ResponseDispatcher.msg].
    destruct (ResponseDispatcher.errorArray (Js.get r "errors")); reflexivity.
  - intros -> -> He.
    unfold ResponseDispatcher.dispatch, ResponseDispatcher.responseObj,
      ResponseDispatcher.statusCode, ResponseDispatcher.finalMessage, code_or.
    cbn [ResponseDispatcher.ok ResponseDispatcher.code ResponseDispatcher.errors
         ResponseDispatcher.data ResponseDispatcher.message ResponseDispatcher.msg].
    rewrite He.
    assert (Hm : Js.or (Js.or Js.Undefined (Js.get r "error")) (Js.Str "Request failed")
                 = Js.get r "error").
    { unfold Js.or at 2. simpl. unfold Js.or. now rewrite He. }
    rewrite Hm, (truthy_not_null _ He). reflexivity.
  - intros -> -> ->.
    unfold ResponseDispatcher.dispatch, ResponseDispatcher.responseObj,
      ResponseDispatcher.statusCode, ResponseDispatcher.finalMessage, code_or.
    cbn [ResponseDispatcher.ok ResponseDispatcher.code ResponseDispatcher.errors
         ResponseDispatcher.data ResponseDispatcher.message ResponseDispatcher.msg].
    assert (Hr : Js.or r (Js.Obj []) = r).
    { unfold Js.or. subst r. now rewrite settled_truthy. }
    rewrite Hr. reflexivity.
Qed.

(** The claimed envelope [{ok: false, code: 400, errors: [{message: "x"}],
    timestamp}] for [{errors: ["x"]}] leaves out two of the keys written. *)
Lemma errors_envelope_has_data_and_message :
  ~ exists envelope,
      ApiHandler.respond "2026-02-25T12:00:00.000Z" "res"
        (Js.Obj [("errors", Js.Arr [Js.Str "x"])])
      = [Sent "res" (Js.Num 400) (Js.Obj envelope)]
      /\ forall k, In k (Js.keys envelope)
                   <-> In k ["ok"; "code"; "errors"; "timestamp"].
Proof.
  intros (envelope & Hsent & Hkeys).
  injection Hsent as <-.
  assert (Hin : In "message" ["ok"; "code"; "errors"; "timestamp"]).
  { apply Hkeys. simpl. tauto. }
  simpl in Hin. intuition discriminate.
Qed.

Lemma respond_by_precedence_witness :
  ApiHandler.respond "t" "res" (Js.Obj [("selfHandleResponse", Js.Bool true)]) = []
  /\ ApiHandler.respond "t" "res"
       (Js.Obj [("error", Js.Str "School not found"); ("code", Js.Num 404)])
     = [Sent "res" (Js.Num 404)
          (Js.Obj [ ("ok", Js.Bool false); ("code", Js.Num 404);
                    ("data", Js.Obj []); ("timestamp", Js.Str "t");
                    ("message", Js.Str "School not found") ])]
  /\ ApiHandler.respond "t" "res" (Js.Obj [("school", Js.Str "s1")])
     = [Sent "res" (Js.Num 200)
          (Js.Obj [ ("ok", Js.Bool true); ("code", Js.Num 200);
                    ("data", Js.Obj [("school", Js.Str "s1")]);
                    ("timestamp", Js.Str "t") ])].
Proof.
  split; [|split].
  - apply (respond_by_precedence "t" "res"
             (Js.Obj [("selfHandleResponse", Js.Bool true)])). reflexivity.
  - apply (respond_by_precedence "t" "res"
             (Js.Obj [("error", Js.Str "School not found"); ("code", Js.Num 404)]));
      reflexivity.
  - apply (respond_by_precedence "t" "res" (Js.Obj [("school", Js.Str "s1")]));
      reflexivity.
Defined.

(* ================================================================== *)
(** * The handler call *)

Lemma handler_data_res (req : request) (res : string) (results : Js.object) :
  Js.lookup "res" (ApiHandler.handler_data req res results) = Some (Js.Host res).
Proof. unfold ApiHandler.handler_data, Js.assign at 1. simpl. apply lookup_set_same. Qed.

Lemma onDone_calls_handler (this : ApiHandler.t) (now : string) (req : request)
  (res moduleName fnName : string) (results : Js.object) (mgr : manager) (f : func) :
  Js.lookup moduleName (ApiHandler.managers this) = Some mgr ->
  Js.lookup fnName (methods mgr) = Some f ->
  ApiHandler.onDone this now req res moduleName fnName results
  = Called moduleName fnName (Js.Obj (ApiHandler.handler_data req res results))
    :: ApiHandler.respond now res
         match call f (Js.Obj (ApiHandler.handler_data req res results)) with
         | Returned v => v
         | Thrown _ => Js.Obj [("error", Js.Str (fnName ++ " failed to execute"))]
         end.
Proof.
  intros Hm Hf. unfold ApiHandler.onDone, ApiHandler._exec.
  now rewrite Hm, Hf.
Qed.

(** C8: when the handler throws (or its promise rejects), [onDone] still
    returns: after the call it writes one envelope, the 400 failure whose
    message is [<fnName> failed to execute]; what was thrown appears nowhere
    in it. *)
Theorem handler_exception_is_contained (this : ApiHandler.t) (now : string)
  (req : request) (res moduleName fnName : string) (results : Js.object)
  (mgr : manager) (f : func) (err : Js.value) :
  Js.lookup moduleName (ApiHandler.managers this) = Some mgr ->
  Js.lookup fnName (methods mgr) = Some f ->
  call f (Js.Obj (ApiHandler.handler_data req res results)) = Thrown err ->
  ApiHandler.onDone this now req res moduleName fnName results
  = [ Called moduleName fnName (Js.Obj (ApiHandler.handler_data req res results));
      Sent res (Js.Num 400) (failure_envelope now (fnName ++ " failed to execute")) ].
Proof.
  intros Hm Hf Hthrow.
  rewrite (onDone_calls_handler _ _ _ _ _ _ _ _ _ Hm Hf), Hthrow.
  f_equal.
  unfold ApiHandler.respond, ResponseDispatcher.dispatch,
    ResponseDispatcher.responseObj, ResponseDispatcher.statusCode,
    ResponseDispatcher.finalMessage, Js.or.
  simpl. rewrite nonempty_suffix by discriminate. reflexivity.
Qed.

(** C10: the object handed to the handler has the key [res], bound to the
    response object of the request, whatever the body and the middleware
    results hold under that name. *)
Theorem handler_is_given_res (this : ApiHandler.t) (now : string)
  (req : request) (res moduleName fnName : string) (results : Js.object)
  (mgr : manager) (f : func) :
  Js.lookup moduleName (ApiHandler.managers this) = Some mgr ->
  Js.lookup fnName (methods mgr) = Some f ->
  exists data after,
    ApiHandler.onDone this now req res moduleName fnName results
    = Called moduleName fnName (Js.Obj data) :: after
    /\ Js.get (Js.Obj data) "res" = Js.Host res
    /\ existsb is_called after = false.
Proof.
  intros Hm Hf.
  eexists. eexists. split; [apply (onDone_calls_handler _ _ _ _ _ _ _ _ _ Hm Hf)|].
  split.
  - simpl. now rewrite handler_data_res.
  - unfold ApiHandler.respond.
    repeat match goal with
           | |- context [if ?c then _ else _] => destruct c
           end; reflexivity.
Qed.

(* ================================================================== *)
(** * The pipeline *)

Lemma keys_set_nodup {A : Type} (k : string) (v : A) (o : list (string * A)) :
  NoDup (Js.keys o) -> NoDup (Js.keys (Js.set k v o)).
Proof.
  unfold Js.keys. induction o as [|[k0 v0] rest IH]; simpl; intros Hnd.
  - constructor; [intros [] | constructor].
  - destruct (String.eqb_spec k k0) as [->|Hk]; simpl; auto.
    inversion Hnd as [|? ? Hnotin Hrest]; subst.
    constructor; auto.
    intros Hin. apply (keys_set k k0 v rest) in Hin.
    destruct Hin as [->|Hin]; [congruence | contradiction].
Qed.

Lemma lookup_of_member {A : Type} (k : string) (v : A) (o : list (string * A)) :
  NoDup (Js.keys o) -> In (k, v) o -> Js.lookup k o = Some v.
Proof.
  unfold Js.keys. induction o as [|[k0 v0] rest IH]; simpl; intros Hnd Hin.
  - contradiction.
  - inversion Hnd as [|? ? Hnotin Hrest]; subst.
    destruct Hin as [E|Hin].
    + injection E as -> ->. now rewrite String.eqb_refl.
    + destruct (String.eqb_spec k k0) as [->|Hk]; auto.
      exfalso. apply Hnotin. apply (in_map fst) in Hin. exact Hin.
Qed.

Lemma accumulated_nodup (mwsRepo : list (string * middleware)) (req : request)
  (res : string) (names : list string) (results : Js.object) :
  NoDup (Js.keys results) ->
  NoDup (Js.keys (accumulated mwsRepo req res names results)).
Proof.
  revert results. induction names as [|name later IH]; intros results Hnd; simpl; auto.
  destruct (Js.lookup name mwsRepo) as [unit_fn|]; auto.
  destruct (unit_fn req res); auto.
  apply IH. now apply keys_set_nodup.
Qed.

Lemma accumulated_keys (mwsRepo : list (string * middleware)) (req : request)
  (res : string) (names : list string) :
  continue mwsRepo req res names ->
  forall results k,
    In k (Js.keys (accumulated mwsRepo req res names results))
    <-> In k (Js.keys results) \/ In k names.
Proof.
  induction 1 as [|name later (unit_fn & v & Hu & Hv) _ IH]; intros results k; simpl.
  - tauto.
  - rewrite Hu, Hv, IH, keys_set. intuition.
Qed.

Lemma accumulated_other (mwsRepo : list (string * middleware)) (req : request)
  (res : string) (names : list string) (results : Js.object) (k : string) :
  ~ In k names ->
  Js.lookup k (accumulated mwsRepo req res names results) = Js.lookup k results.
Proof.
  revert results. induction names as [|name later IH]; intros results Hn; simpl; auto.
  destruct (Js.lookup name mwsRepo) as [unit_fn|]; auto.
  destruct (unit_fn req res); auto.
  rewrite IH by (simpl in Hn; tauto).
  apply lookup_set_other. simpl in Hn. intros ->. tauto.
Qed.

Lemma accumulated_value (mwsRepo : list (string * middleware)) (req : request)
  (res : string) (names : list string) :
  continue mwsRepo req res names ->
  forall results k, In k names ->
    exists unit_fn v,
      Js.lookup k mwsRepo = Some unit_fn /\ unit_fn req res = Next v
      /\ Js.lookup k (accumulated mwsRepo req res names results) = Some v.
Proof.
  induction 1 as [|name later (unit_fn & v & Hu & Hv) _ IH]; intros results k Hin.
  - contradiction.
  - simpl. rewrite Hu, Hv.
    destruct (in_dec string_dec k later) as [Hl|Hl]; [now apply IH|].
    destruct Hin as [->|]; [|contradiction].
    exists unit_fn, v. repeat split; auto.
    rewrite accumulated_other by assumption. apply lookup_set_same.
Qed.

Lemma advance_continue (mwsRepo : list (string * middleware)) (req : request)
  (res : string) (names : list string) :
  continue mwsRepo req res names ->
  forall rest results,
    VirtualStack.advance mwsRepo req res (names ++ rest) results
    = (map Ran names
         ++ fst (VirtualStack.advance mwsRepo req res rest
                   (accumulated mwsRepo req res names results)),
       snd (VirtualStack.advance mwsRepo req res rest
              (accumulated mwsRepo req res names results))).
Proof.
  induction 1 as [|name later (unit_fn & v & Hu & Hv) _ IH]; intros rest results; simpl.
  - now destruct (VirtualStack.advance mwsRepo req res rest results).
  - rewrite Hu, Hv, IH. reflexivity.
Qed.

Lemma mw_resolved (this : ApiHandler.t) (now : string) (req : request)
  (res : string) (stack : list string) :
  resolves this req stack ->
  ApiHandler.mw this now req res
  = Some (VirtualStack.run (ApiHandler.mwsRepo this) now stack req res
            (ApiHandler.onDone this now req res
               (params_moduleName req) (params_fnName req))).
Proof.
  intros (mm & fns & Hm & Hv & Hf & Hs). unfold ApiHandler.mw.
  rewrite Hm, Hv. apply existsb_eqb_in in Hf. rewrite Hf. simpl. now rewrite Hs.
Qed.

(** C3: when the units before [name] continue and [name] writes the
    response itself, the run consists of those units and [name], and the
    response of [name] is the only thing written: no later unit runs and
    [onDone], whatever it is, is not invoked; so for the dispatcher the
    handler is not called and the client gets that one response. *)
Theorem short_circuit_ends_the_request (this : ApiHandler.t) (now : string)
  (req : request) (res : string) (before later : list string) (name : string)
  (unit_fn : middleware) (status payload : Js.value) :
  resolves this req (before ++ name :: later) ->
  continue (ApiHandler.mwsRepo this) req res before ->
  Js.lookup name (ApiHandler.mwsRepo this) = Some unit_fn ->
  unit_fn req res = Responded status payload ->
  (forall onDone,
     VirtualStack.run (ApiHandler.mwsRepo this) now (before ++ name :: later)
       req res onDone
     = map Ran before ++ [Ran name; Sent res status payload])
  /\ ApiHandler.mw this now req res
     = Some (map Ran before ++ [Ran name; Sent res status payload]).
Proof.
  intros Hroute Hbefore Hu Hshort.
  assert (Hrun : forall onDone,
             VirtualStack.run (ApiHandler.mwsRepo this) now
               (before ++ name :: later) req res onDone
             = map Ran before ++ [Ran name; Sent res status payload]).
  { intros onDone. unfold VirtualStack.run.
    rewrite (advance_continue _ _ _ _ Hbefore). simpl.
    now rewrite Hu, Hshort. }
  split; [exact Hrun|].
  rewrite (mw_resolved _ _ _ _ _ Hroute). f_equal. apply Hrun.
Qed.

Lemma respond_only_sends (now res : string) (result : Js.value) :
  existsb is_called (ApiHandler.respond now res result) = false
  /\ existsb is_ran (ApiHandler.respond now res result) = false.
Proof.
  unfold ApiHandler.respond.
  repeat match goal with
         | |- context [if ?c then _ else _] => destruct c
         end; split; reflexivity.
Qed.

Lemma handler_data_keys (req : request) (res : string) (results : Js.object)
  (k : string) :
  In k (Js.keys (ApiHandler.handler_data req res results))
  <-> In k (Js.keys (Js.own_props (Js.or (req_body req) (Js.Obj []))))
      \/ In k (Js.keys results) \/ k = "res".
Proof.
  unfold ApiHandler.handler_data. rewrite !keys_assign. simpl. intuition.
Qed.

Lemma handler_data_result (req : request) (res : string) (results : Js.object)
  (k : string) (v : Js.value) :
  NoDup (Js.keys results) -> Js.lookup k results = Some v -> k <> "res" ->
  Js.lookup k (ApiHandler.handler_data req res results) = Some v.
Proof.
  intros Hnd Hk Hres. unfold ApiHandler.handler_data.
  rewrite lookup_assign_into by (simpl; intuition).
  destruct (lookup_assign_from
              (Js.assign [] (Js.own_props (Js.or (req_body req) (Js.Obj []))))
              results k (lookup_some_keys _ _ _ Hk)) as (w & Hw & Hin).
  rewrite Hw. rewrite (lookup_of_member _ _ _ Hnd Hin) in Hk. exact Hk.
Qed.

Lemma handler_data_body (req : request) (res : string) (results : Js.object)
  (k : string) :
  ~ In k (Js.keys results) -> k <> "res" ->
  Js.lookup k (ApiHandler.handler_data req res results)
  = Js.lookup k (Js.assign [] (Js.own_props (Js.or (req_body req) (Js.Obj [])))).
Proof.
  intros Hk Hres. unfold ApiHandler.handler_data.
  rewrite lookup_assign_into by (simpl; intuition).
  now rewrite lookup_assign_into.
Qed.

(** C2, as the code has it: when every unit of the stack continues, the
    request runs the units in stack order and then calls the handler, once,
    and nothing runs after it.  The keys of the one object the handler
    receives are those of the parsed body, the names of the stack and
    [res]; under a name of the stack it finds what that unit continued
    with, under [res] the response object, and under any other key the
    body field. *)
Theorem handler_runs_after_the_stack (this : ApiHandler.t) (now : string)
  (req : request) (res : string) (stack : list string) (mgr : manager) (f : func) :
  resolves this req stack ->
  continue (ApiHandler.mwsRepo this) req res stack ->
  Js.lookup (params_moduleName req) (ApiHandler.managers this) = Some mgr ->
  Js.lookup (params_fnName req) (methods mgr) = Some f ->
  exists data after,
    ApiHandler.mw this now req res
    = Some (map Ran stack
              ++ Called (params_moduleName req) (params_fnName req) (Js.Obj data)
              :: after)
    /\ existsb is_called after = false
    /\ existsb is_ran after = false
    /\ (forall k, In k (Js.keys data)
                  <-> In k (Js.keys (Js.own_props (Js.or (req_body req) (Js.Obj []))))
                      \/ In k stack \/ k = "res")
    /\ (forall k, In k stack -> k <> "res" ->
          exists unit_fn v,
            Js.lookup k (ApiHandler.mwsRepo this) = Some unit_fn
            /\ unit_fn req res = Next v /\ Js.lookup k data = Some v)
    /\ Js.lookup "res" data = Some (Js.Host res)
    /\ (forall k, ~ In k stack -> k <> "res" ->
          Js.lookup k data
          = Js.lookup k (Js.assign [] (Js.own_props (Js.or (req_body req) (Js.Obj []))))).
Proof.
  intros Hroute Hall Hm Hf.
  set (results := accumulated (ApiHandler.mwsRepo this) req res stack []).
  assert (Hkeys : forall k, In k (Js.keys results) <-> In k stack).
  { intros k. unfold results. rewrite (accumulated_keys _ _ _ _ Hall). simpl. tauto. }
  assert (Hnd : NoDup (Js.keys results)).
  { apply accumulated_nodup. constructor. }
  exists (ApiHandler.handler_data req res results).
  eexists. split; [|split; [|split; [|split; [|split; [|split]]]]].
  - rewrite (mw_resolved _ _ _ _ _ Hroute). f_equal.
    unfold VirtualStack.run.
    rewrite <- (app_nil_r stack) at 1.
    rewrite (advance_continue _ _ _ _ Hall). simpl. rewrite app_nil_r.
    fold results.
    rewrite (onDone_calls_handler _ _ _ _ _ _ _ _ _ Hm Hf). reflexivity.
  - apply respond_only_sends.
  - apply respond_only_sends.
  - intros k. rewrite handler_data_keys, Hkeys. tauto.
  - intros k Hin Hres.
    destruct (accumulated_value _ _ _ _ Hall [] k Hin) as (u & v & Hu & Hv & Hl).
    exists u, v. repeat split; auto.
    apply handler_data_result; auto.
  - apply handler_data_res.
  - intros k Hin Hres. apply handler_data_body; auto. now rewrite Hkeys.
Qed.

(* ================================================================== *)
(** * The statements on the small installation *)

Lemma refused_requests :
  ApiHandler.mw Demo.this Demo.now
    (Demo.request_to "GET" "ghost" "x" Js.Undefined Js.Undefined) "res"
  = Some [Sent "res" (Js.Num 400)
            (failure_envelope Demo.now "module ghost not found")]
  /\ ApiHandler.mw Demo.this Demo.now
       (Demo.request_to "DELETE" "thing" "getThing" Js.Undefined Js.Undefined) "res"
     = Some [Sent "res" (Js.Num 400)
               (failure_envelope Demo.now "unsupported method delete for thing")]
  /\ ApiHandler.mw Demo.this Demo.now
       (Demo.request_to "GET" "thing" "createThing" Js.Undefined Js.Undefined) "res"
     = Some [Sent "res" (Js.Num 400)
               (failure_envelope Demo.now
                  "unable to find function createThing with method get")].
Proof.
  split; [|split].
  - apply (mw_refuses_invalid_route Demo.this Demo.now
             (Demo.request_to "GET" "ghost" "x" Js.Undefined Js.Undefined)).
    exact (unknown_module Demo.this
             (Demo.request_to "GET" "ghost" "x" Js.Undefined Js.Undefined)
             eq_refl eq_refl).
  - apply (mw_refuses_invalid_route Demo.this Demo.now
             (Demo.request_to "DELETE" "thing" "getThing" Js.Undefined Js.Undefined)).
    exact (unsupported_method Demo.this
             (Demo.request_to "DELETE" "thing" "getThing" Js.Undefined Js.Undefined)
             [("post", ["createThing"]); ("get", ["getThing"])]
             eq_refl eq_refl eq_refl).
  - apply (mw_refuses_invalid_route Demo.this Demo.now
             (Demo.request_to "GET" "thing" "createThing" Js.Undefined Js.Undefined)).
    refine (unknown_function Demo.this
              (Demo.request_to "GET" "thing" "createThing" Js.Undefined Js.Undefined)
              [("post", ["createThing"]); ("get", ["getThing"])] ["getThing"]
              eq_refl eq_refl _).
    simpl. intros [E|[]]. discriminate E.
Qed.

(** C1: [GET /api/constructor/x] names no registered module, and the
    dispatcher does not answer [module constructor not found]:
    [methodMatrix] is written [{}], [methodMatrix["constructor"]] is the
    inherited [Object] function and passes for a module matrix, on which
    [get] is [undefined]; the answer is [unsupported method get for
    constructor].  No unit runs and no handler is called. *)
Theorem module_named_constructor :
  ~ registered Demo.managers "constructor"
  /\ Js.lookup "constructor" (ApiHandler.methodMatrix Demo.this) = None
  /\ ApiHandler.mw Demo.this Demo.now
       (Demo.request_to "GET" "constructor" "x" Js.Undefined Js.Undefined) "res"
     = Some [Sent "res" (Js.Num 400)
               (failure_envelope Demo.now "unsupported method get for constructor")]
  /\ ApiHandler.mw Demo.this Demo.now
       (Demo.request_to "GET" "constructor" "x" Js.Undefined Js.Undefined) "res"
     <> Some [Sent "res" (Js.Num 400)
                (failure_envelope Demo.now "module constructor not found")].
Proof.
  split; [|split; [reflexivity|split; [reflexivity|]]].
  - intros (mgr & defs & Hmgr & _). discriminate Hmgr.
  - simpl. discriminate.
Qed.

(** On a route whose stack is [__token, __device, __query] and whose units
    all continue, the handler is given the key [res], which is neither a
    body field nor a name of the stack. *)
Lemma handler_data_has_res_besides :
  exists data after,
    ApiHandler.mw Demo.this Demo.now
      (Demo.create_request (Js.Str "valid")) "res"
    = Some (map Ran Demo.stack
              ++ Called "thing" "createThing" (Js.Obj data) :: after)
    /\ ~ (forall k, In k (Js.keys data)
                    <-> In k (Js.keys (Js.own_props
                                        (req_body (Demo.create_request (Js.Str "valid")))))
                        \/ In k Demo.stack).
Proof.
  eexists. eexists. split; [reflexivity|].
  intros H.
  assert (Hres : In "res" ["name"] \/ In "res" Demo.stack).
  { apply H. simpl. tauto. }
  simpl in Hres. intuition discriminate.
Qed.

Lemma handler_runs_after_the_stack_witness :
  exists data after,
    ApiHandler.mw Demo.this Demo.now
      (Demo.create_request (Js.Str "valid")) "res"
    = Some (map Ran Demo.stack
              ++ Called "thing" "createThing" (Js.Obj data) :: after)
    /\ Js.lookup "res" data = Some (Js.Host "res").
Proof.
  assert (Hroute : resolves Demo.this (Demo.create_request (Js.Str "valid"))
                     Demo.stack).
  { exists [("post", ["createThing"]); ("get", ["getThing"])], ["createThing"].
    repeat split; simpl; auto. }
  assert (Hall : continue (ApiHandler.mwsRepo Demo.this)
                   (Demo.create_request (Js.Str "valid")) "res" Demo.stack).
  { repeat constructor; eexists; eexists; split; reflexivity. }
  destruct (handler_runs_after_the_stack Demo.this Demo.now
              (Demo.create_request (Js.Str "valid")) "res" Demo.stack
              Demo.thing Demo.createThing Hroute Hall eq_refl eq_refl)
    as (data & after & Hmw & _ & _ & _ & _ & Hres & _).
  exists data, after. split; assumption.
Defined.

Lemma short_circuit_ends_the_request_witness :
  ApiHandler.mw Demo.this Demo.now
    (Demo.create_request (Js.Str "expired")) "res"
  = Some [ Ran "__token";
           Sent "res" (Js.Num 401)
             (Js.Obj [ ("ok", Js.Bool false); ("code", Js.Num 401);
                       ("data", Js.Obj []); ("timestamp", Js.Str Demo.now);
                       ("errors",
                        Js.Arr [Js.Obj [("message",
                                         Js.Str "Your token has expired. Please log in again.")]]);
                       ("message", Js.Str "Request failed") ]) ].
Proof.
  refine (proj2 (short_circuit_ends_the_request Demo.this Demo.now
                   (Demo.create_request (Js.Str "expired")) "res"
                   [] ["__device"; "__query"] "__token"
                   (TokenMw.__token Demo.verifyLongToken Demo.now)
                   (Js.Num 401) _ _ _ eq_refl eq_refl)).
  - exists [("post", ["createThing"]); ("get", ["getThing"])], ["createThing"].
    repeat split; simpl; auto.
  - constructor.
Defined.

Lemma handler_exception_is_contained_witness :
  ApiHandler.onDone Demo.this Demo.now
    (Demo.request_to "GET" "thing" "getThing" Js.Undefined Js.Undefined)
    "res" "thing" "getThing" []
  = [ Called "thing" "getThing" (Js.Obj [("res", Js.Host "res")]);
      Sent "res" (Js.Num 400)
        (failure_envelope Demo.now "getThing failed to execute") ].
Proof.
  apply (handler_exception_is_contained Demo.this Demo.now
           (Demo.request_to "GET" "thing" "getThing" Js.Undefined Js.Undefined)
           "res" "thing" "getThing" [] Demo.thing Demo.getThing
           (Js.Str "connection refused at db.internal:27017"));
    reflexivity.
Defined.

Lemma handler_is_given_res_witness :
  exists data after,
    ApiHandler.onDone Demo.this Demo.now
      (Demo.request_to "POST" "thing" "createThing"
         (Js.Obj [("name", Js.Str "Foo"); ("res", Js.Str "mine")]) Js.Undefined)
      "res" "thing" "createThing" []
    = Called "thing" "createThing" (Js.Obj data) :: after
    /\ Js.get (Js.Obj data) "res" = Js.Host "res"
    /\ existsb is_called after = false.
Proof.
  apply (handler_is_given_res Demo.this Demo.now
           (Demo.request_to "POST" "thing" "createThing"
              (Js.Obj [("name", Js.Str "Foo"); ("res", Js.Str "mine")]) Js.Undefined)
           "res" "thing" "createThing" [] Demo.thing Demo.createThing);
    reflexivity.
Defined.

(* ================================================================== *)
(** * The scan of the managers *)

Lemma init_lookup_same {A : Type} (k : string) (o : list (string * list A)) :
  Js.lookup k (ApiHandler.init k o)
  = Some match Js.lookup k o with Some known => known | None => [] end.
Proof.
  unfold ApiHandler.init. destruct (Js.lookup k o) eqn:E; auto.
  apply lookup_set_same.
Qed.

Lemma init_lookup_other {A : Type} (k k' : string) (o : list (string * list A)) :
  k' <> k -> Js.lookup k' (ApiHandler.init k o) = Js.lookup k' o.
Proof.
  intros Hne. unfold ApiHandler.init. destruct (Js.lookup k o); auto.
  now apply lookup_set_other.
Qed.

Lemma extend_twice (key k : string) (c1 c2 : list string)
  (entry : option (list string)) :
  extend key (k, c2) (extend key (k, c1) entry) = extend key (k, c1 ++ c2) entry.
Proof.
  unfold extend. simpl. destruct (String.eqb key k); auto.
  now rewrite app_assoc.
Qed.

(** One parameter. *)
Lemma each_param_ok (moduleName managerMethod param : string)
  (this this' : ApiHandler.t) :
  ApiHandler.each_param moduleName managerMethod param this = Ok this' ->
  ApiHandler.managers this' = ApiHandler.managers this
  /\ ApiHandler.mwsRepo this' = ApiHandler.mwsRepo this
  /\ ApiHandler.methodMatrix this' = ApiHandler.methodMatrix this
  /\ (forall key,
        Js.lookup key (ApiHandler.mwsStack this')
        = extend key (ApiHandler.route moduleName managerMethod, marked [param])
            (Js.lookup key (ApiHandler.mwsStack this)))
  /\ (Str.startsWith "__" param = true ->
      ApiHandler.found param (ApiHandler.mwsRepo this) = true).
Proof.
  unfold ApiHandler.each_param, marked. simpl.
  destruct (Str.startsWith "__" param) eqn:Hmark.
  - destruct (ApiHandler.found param (ApiHandler.mwsRepo this)) eqn:Hrepo;
      [|discriminate].
    unfold ApiHandler.push. rewrite init_lookup_same. simpl.
    intros E. injection E as <-. simpl.
    repeat split; auto.
    intros key. unfold extend. simpl.
    destruct (String.eqb_spec key (ApiHandler.route moduleName managerMethod)) as [->|Hk].
    + apply lookup_set_same.
    + rewrite lookup_set_other by assumption. now apply init_lookup_other.
  - intros E. injection E as <-. simpl.
    repeat split; auto; [|discriminate].
    intros key. unfold extend. simpl.
    destruct (String.eqb_spec key (ApiHandler.route moduleName managerMethod)) as [->|Hk].
    + rewrite init_lookup_same, app_nil_r. reflexivity.
    + now apply init_lookup_other.
Qed.

Lemma each_param_throw (moduleName managerMethod param : string)
  (this : ApiHandler.t) (err : string) :
  ApiHandler.each_param moduleName managerMethod param this = Throw err ->
  Str.startsWith "__" param = true
  /\ Js.lookup param (ApiHandler.mwsRepo this) = None
  /\ Js.inherited param = false
  /\ err = ApiHandler.missing_middleware param moduleName managerMethod.
Proof.
  unfold ApiHandler.each_param. simpl.
  destruct (Str.startsWith "__" param); [|discriminate].
  destruct (ApiHandler.found param (ApiHandler.mwsRepo this)) eqn:Hrepo.
  - unfold ApiHandler.push. rewrite init_lookup_same. discriminate.
  - intros E. injection E as <-. unfold ApiHandler.found in Hrepo.
    destruct (Js.lookup param (ApiHandler.mwsRepo this)); [discriminate|]. auto.
Qed.

(** The parameters of one method. *)
Lemma params_ok (moduleName managerMethod : string) (rest : list string) :
  forall (param : string) (this this' : ApiHandler.t),
    forEach (ApiHandler.each_param moduleName managerMethod) (param :: rest) this
    = Ok this' ->
    ApiHandler.managers this' = ApiHandler.managers this
    /\ ApiHandler.mwsRepo this' = ApiHandler.mwsRepo this
    /\ ApiHandler.methodMatrix this' = ApiHandler.methodMatrix this
    /\ (forall key,
          Js.lookup key (ApiHandler.mwsStack this')
          = extend key (ApiHandler.route moduleName managerMethod,
                        marked (param :: rest))
              (Js.lookup key (ApiHandler.mwsStack this)))
    /\ Forall (fun q => Str.startsWith "__" q = true ->
                        ApiHandler.found q (ApiHandler.mwsRepo this) = true)
              (param :: rest).
Proof.
  induction rest as [|next rest IH]; intros param this this' Hrun.
  - simpl in Hrun.
    destruct (ApiHandler.each_param moduleName managerMethod param this)
      as [this1|] eqn:E; [|discriminate].
    simpl in Hrun. injection Hrun as <-.
    destruct (each_param_ok _ _ _ _ _ E) as (Hm & Hr & Hx & Hs & Hp).
    repeat split; auto.
  - change (forEach (ApiHandler.each_param moduleName managerMethod)
              (param :: next :: rest) this)
      with (bind (ApiHandler.each_param moduleName managerMethod param this)
              (forEach (ApiHandler.each_param moduleName managerMethod)
                 (next :: rest))) in Hrun.
    destruct (ApiHandler.each_param moduleName managerMethod param this)
      as [this1|] eqn:E; [|discriminate].
    unfold bind in Hrun.
    destruct (each_param_ok _ _ _ _ _ E) as (Hm & Hr & Hx & Hs & Hp).
    destruct (IH _ _ _ Hrun) as (Hm' & Hr' & Hx' & Hs' & Hp').
    repeat split; try congruence.
    + intros key. rewrite Hs', Hs, extend_twice.
      change (param :: next :: rest) with ([param] ++ next :: rest).
      unfold marked. now rewrite filter_app.
    + constructor; auto. rewrite <- Hr. exact Hp'.
Qed.

Lemma params_throw (moduleName managerMethod : string) (params : list string) :
  forall (this : ApiHandler.t) (err : string),
    forEach (ApiHandler.each_param moduleName managerMethod) params this
    = Throw err ->
    exists param,
      In param params
      /\ Str.startsWith "__" param = true
      /\ Js.lookup param (ApiHandler.mwsRepo this) = None
      /\ Js.inherited param = false
      /\ err = ApiHandler.missing_middleware param moduleName managerMethod.
Proof.
  induction params as [|param rest IH]; intros this err Hrun; [discriminate|].
  simpl in Hrun.
  destruct (ApiHandler.each_param moduleName managerMethod param this)
    as [this1|err1] eqn:E; simpl in Hrun.
  - destruct (each_param_ok _ _ _ _ _ E) as (_ & Hr & _).
    destruct (IH _ _ Hrun) as (q & Hin & Hq & Hnone & Hown & Herr).
    exists q. rewrite <- Hr. repeat split; auto. now right.
  - injection Hrun as <-.
    destruct (each_param_throw _ _ _ _ _ E) as (Hq & Hnone & Hown & Herr).
    exists param. repeat split; auto. now left.
Qed.

Section Scan.

Variable getParamNames : option func -> string -> string -> result string.

(** One declaration. *)
Lemma each_methodDef_ok (moduleName methodDef : string) (this this' : ApiHandler.t) :
  ApiHandler.each_methodDef getParamNames moduleName methodDef this = Ok this' ->
  ApiHandler.managers this' = ApiHandler.managers this
  /\ ApiHandler.mwsRepo this' = ApiHandler.mwsRepo this
  /\ Js.lookup moduleName (ApiHandler.methodMatrix this') <> None
  /\ exists text,
      introspect getParamNames (ApiHandler.managers this) (moduleName, methodDef)
      = Ok text
      /\ (forall key,
            Js.lookup key (ApiHandler.mwsStack this')
            = extend key (route_of (moduleName, methodDef), marked (param_names text))
                (Js.lookup key (ApiHandler.mwsStack this)))
      /\ Forall (fun q => Str.startsWith "__" q = true ->
                          ApiHandler.found q (ApiHandler.mwsRepo this) = true)
                (param_names text).
Proof.
  unfold ApiHandler.each_methodDef, introspect, route_of, method_of. simpl.
  destruct (ApiHandler.parse methodDef) as [httpMethod managerMethod]. simpl.
  destruct (Js.lookup moduleName (ApiHandler.methodMatrix this)) as [matrix|];
    [|discriminate].
  unfold ApiHandler.push. rewrite init_lookup_same. simpl.
  destruct (Js.lookup moduleName (ApiHandler.managers this)) as [mgr|];
    [|discriminate].
  destruct (getParamNames (Js.lookup managerMethod (methods mgr))
              managerMethod moduleName) as [text|] eqn:Hgp; [|discriminate].
  simpl. fold (param_names text).
  destruct (param_names text) as [|param rest] eqn:Hnames.
  - exfalso. unfold param_names in Hnames.
    apply map_eq_nil in Hnames. now apply split_nonempty in Hnames.
  - intros Hrun.
    destruct (params_ok _ _ _ _ _ _ Hrun) as (Hm & Hr & Hx & Hs & Hp).
    simpl in Hm, Hr, Hx.
    repeat split; auto.
    + rewrite Hx, lookup_set_same. discriminate.
    + exists text. rewrite Hnames. repeat split; auto.
Qed.

Lemma each_methodDef_throw (moduleName methodDef : string) (this : ApiHandler.t)
  (err : string) :
  ApiHandler.each_methodDef getParamNames moduleName methodDef this = Throw err ->
  Js.lookup moduleName (ApiHandler.methodMatrix this) <> None ->
  Js.lookup moduleName (ApiHandler.managers this) <> None ->
  at_fault getParamNames (ApiHandler.managers this) (ApiHandler.mwsRepo this)
    (moduleName, methodDef) err.
Proof.
  unfold ApiHandler.each_methodDef, at_fault, introspect, route_of, method_of. simpl.
  destruct (ApiHandler.parse methodDef) as [httpMethod managerMethod]. simpl.
  destruct (Js.lookup moduleName (ApiHandler.methodMatrix this)) as [matrix|];
    [|congruence].
  unfold ApiHandler.push. rewrite init_lookup_same. simpl.
  destruct (Js.lookup moduleName (ApiHandler.managers this)) as [mgr|];
    [|congruence].
  destruct (getParamNames (Js.lookup managerMethod (methods mgr))
              managerMethod moduleName) as [text|err'] eqn:Hgp; simpl.
  - intros Hrun _ _. right.
    destruct (params_throw _ _ _ _ _ Hrun)
      as (param & Hin & Hmark & Hnone & Hown & Herr).
    exists text, param. repeat split; auto.
  - intros E _ _. left. injection E as <-. reflexivity.
Qed.

(** The declarations of one module. *)
Lemma defs_ok (moduleName : string) (defs : list string) :
  forall this this' : ApiHandler.t,
    forEach (ApiHandler.each_methodDef getParamNames moduleName) defs this = Ok this' ->
    ApiHandler.managers this' = ApiHandler.managers this
    /\ ApiHandler.mwsRepo this' = ApiHandler.mwsRepo this
    /\ (forall key,
          Js.lookup key (ApiHandler.mwsStack this')
          = entry_after getParamNames (ApiHandler.managers this) key
              (map (pair moduleName) defs)
              (Js.lookup key (ApiHandler.mwsStack this)))
    /\ Forall (configured getParamNames (ApiHandler.managers this)
                 (ApiHandler.mwsRepo this))
              (map (pair moduleName) defs).
Proof.
  induction defs as [|methodDef rest IH]; intros this this' Hrun; simpl in Hrun.
  - injection Hrun as <-. repeat split; auto using Forall_nil.
  - destruct (ApiHandler.each_methodDef getParamNames moduleName methodDef this)
      as [this1|] eqn:E; [|discriminate].
    simpl in Hrun.
    destruct (each_methodDef_ok _ _ _ _ E) as (Hm & Hr & _ & text & Ht & Hs & Hp).
    destruct (IH _ _ Hrun) as (Hm' & Hr' & Hs' & Hc').
    rewrite Hm in Hs', Hc'. rewrite Hr in Hc'.
    repeat split; try congruence.
    + intros key. rewrite Hs', Hs. simpl. unfold entry_after at 2. simpl.
      unfold marked_params. now rewrite Ht.
    + simpl. constructor; auto. exists text. split; auto.
Qed.

Lemma defs_throw (moduleName : string) (defs : list string) :
  forall (this : ApiHandler.t) (err : string),
    forEach (ApiHandler.each_methodDef getParamNames moduleName) defs this = Throw err ->
    Js.lookup moduleName (ApiHandler.methodMatrix this) <> None ->
    Js.lookup moduleName (ApiHandler.managers this) <> None ->
    exists methodDef,
      In methodDef defs
      /\ at_fault getParamNames (ApiHandler.managers this) (ApiHandler.mwsRepo this)
           (moduleName, methodDef) err.
Proof.
  induction defs as [|methodDef rest IH]; intros this err Hrun Hmatrix Hmgr;
    simpl in Hrun; [discriminate|].
  destruct (ApiHandler.each_methodDef getParamNames moduleName methodDef this)
    as [this1|err1] eqn:E; simpl in Hrun.
  - destruct (each_methodDef_ok _ _ _ _ E) as (Hm & Hr & Hx & _).
    destruct (IH _ _ Hrun Hx) as (d & Hin & Hfault); [congruence|].
    exists d. rewrite Hm, Hr in Hfault. split; [now right | exact Hfault].
  - injection Hrun as <-. exists methodDef. split; [now left|].
    now apply each_methodDef_throw.
Qed.

(** One module. *)
Lemma each_module_ok (moduleName : string) (this this' : ApiHandler.t) :
  ApiHandler.each_module getParamNames moduleName this = Ok this' ->
  ApiHandler.managers this' = ApiHandler.managers this
  /\ ApiHandler.mwsRepo this' = ApiHandler.mwsRepo this
  /\ (forall key,
        Js.lookup key (ApiHandler.mwsStack this')
        = entry_after getParamNames (ApiHandler.managers this) key
            (map (pair moduleName) (exposed (ApiHandler.managers this) moduleName))
            (Js.lookup key (ApiHandler.mwsStack this)))
  /\ Forall (configured getParamNames (ApiHandler.managers this)
               (ApiHandler.mwsRepo this))
            (map (pair moduleName) (exposed (ApiHandler.managers this) moduleName)).
Proof.
  unfold ApiHandler.each_module, exposed.
  destruct (Js.lookup moduleName (ApiHandler.managers this)) as [mgr|];
    [|discriminate].
  destruct (httpExposed mgr) as [defs|].
  - intros Hrun. apply defs_ok in Hrun. exact Hrun.
  - intros E. injection E as <-. repeat split; auto using Forall_nil.
Qed.

Lemma each_module_throw (moduleName : string) (this : ApiHandler.t) (err : string) :
  ApiHandler.each_module getParamNames moduleName this = Throw err ->
  Js.lookup moduleName (ApiHandler.managers this) <> None ->
  exists methodDef,
    In methodDef (exposed (ApiHandler.managers this) moduleName)
    /\ at_fault getParamNames (ApiHandler.managers this) (ApiHandler.mwsRepo this)
         (moduleName, methodDef) err.
Proof.
  unfold ApiHandler.each_module, exposed. intros Hrun Hmgr.
  destruct (Js.lookup moduleName (ApiHandler.managers this)) as [mgr|] eqn:Hl;
    [|congruence].
  destruct (httpExposed mgr) as [defs|]; [|discriminate].
  apply defs_throw in Hrun; simpl.
  - exact Hrun.
  - rewrite lookup_set_same. discriminate.
  - now rewrite Hl.
Qed.

(** The modules. *)
Lemma modules_ok (names : list string) :
  forall this this' : ApiHandler.t,
    forEach (ApiHandler.each_module getParamNames) names this = Ok this' ->
    ApiHandler.managers this' = ApiHandler.managers this
    /\ ApiHandler.mwsRepo this' = ApiHandler.mwsRepo this
    /\ (forall key,
          Js.lookup key (ApiHandler.mwsStack this')
          = entry_after getParamNames (ApiHandler.managers this) key
              (scanned (ApiHandler.managers this) names)
              (Js.lookup key (ApiHandler.mwsStack this)))
    /\ Forall (configured getParamNames (ApiHandler.managers this)
                 (ApiHandler.mwsRepo this))
              (scanned (ApiHandler.managers this) names).
Proof.
  induction names as [|moduleName rest IH]; intros this this' Hrun; simpl in Hrun.
  - injection Hrun as <-. repeat split; auto using Forall_nil.
  - destruct (ApiHandler.each_module getParamNames moduleName this)
      as [this1|] eqn:E; [|discriminate].
    simpl in Hrun.
    destruct (each_module_ok _ _ _ E) as (Hm & Hr & Hs & Hc).
    destruct (IH _ _ Hrun) as (Hm' & Hr' & Hs' & Hc').
    rewrite Hm in Hs', Hc'. rewrite Hr in Hc'.
    repeat split; try congruence.
    + intros key. rewrite Hs', Hs. simpl. unfold entry_after.
      now rewrite fold_left_app.
    + simpl. apply Forall_app. split; assumption.
Qed.

Lemma modules_throw (names : list string) :
  forall (this : ApiHandler.t) (err : string),
    forEach (ApiHandler.each_module getParamNames) names this = Throw err ->
    (forall moduleName, In moduleName names ->
       Js.lookup moduleName (ApiHandler.managers this) <> None) ->
    exists decl,
      In decl (scanned (ApiHandler.managers this) names)
      /\ at_fault getParamNames (ApiHandler.managers this) (ApiHandler.mwsRepo this)
           decl err.
Proof.
  induction names as [|moduleName rest IH]; intros this err Hrun Hmgrs;
    simpl in Hrun; [discriminate|].
  destruct (ApiHandler.each_module getParamNames moduleName this)
    as [this1|err1] eqn:E; simpl in Hrun.
  - destruct (each_module_ok _ _ _ E) as (Hm & Hr & _).
    destruct (IH _ _ Hrun) as (decl & Hin & Hfault).
    { intros m Hin. rewrite Hm. apply Hmgrs. now right. }
    rewrite Hm, Hr in Hfault. rewrite Hm in Hin.
    exists decl. split; auto. simpl. apply in_or_app. now right.
  - injection Hrun as <-.
    destruct (each_module_throw _ _ _ E) as (d & Hin & Hfault).
    { apply Hmgrs. now left. }
    exists (moduleName, d). split; auto.
    simpl. apply in_or_app. left. now apply in_map.
Qed.

End Scan.

(* ================================================================== *)
(** * The constructor *)

Section Built.

Variable getParamNames : option func -> string -> string -> result string.
Variable managers : list (string * manager).
Variable mwsRepo : list (string * middleware).

Lemma constructor_ok (this : ApiHandler.t) :
  ApiHandler.constructor getParamNames managers mwsRepo = Ok this ->
  ApiHandler.managers this = managers
  /\ ApiHandler.mwsRepo this = mwsRepo
  /\ (forall key,
        Js.lookup key (ApiHandler.mwsStack this)
        = entry_after getParamNames managers key (declarations managers) None)
  /\ Forall (configured getParamNames managers mwsRepo) (declarations managers).
Proof.
  unfold ApiHandler.constructor. intros Hrun.
  apply modules_ok in Hrun. exact Hrun.
Qed.

Lemma constructor_throw (err : string) :
  ApiHandler.constructor getParamNames managers mwsRepo = Throw err ->
  exists decl,
    In decl (declarations managers)
    /\ at_fault getParamNames managers mwsRepo decl err.
Proof.
  unfold ApiHandler.constructor. intros Hrun.
  apply modules_throw in Hrun; [exact Hrun|].
  simpl. intros moduleName Hin.
  destruct (keys_lookup _ _ Hin) as (mgr & Hmgr). congruence.
Qed.

Lemma at_fault_faulty (decl : string * string) (err : string) :
  at_fault getParamNames managers mwsRepo decl err ->
  faulty getParamNames managers mwsRepo decl err.
Proof.
  intros [H|(text & param & Ht & Hin & Hmark & Hnone & _ & Herr)]; [now left|].
  right. exists text, param. repeat split; auto.
Qed.

Lemma declared (moduleName methodDef : string) (mgr : manager) (defs : list string) :
  Js.lookup moduleName managers = Some mgr ->
  httpExposed mgr = Some defs ->
  In methodDef defs ->
  In (moduleName, methodDef) (declarations managers).
Proof.
  intros Hmgr Hdefs Hin. unfold declarations, scanned.
  apply in_flat_map. exists moduleName. split.
  - exact (lookup_some_keys _ _ _ Hmgr).
  - apply in_map. unfold exposed. now rewrite Hmgr, Hdefs.
Qed.

Lemma entry_after_absent (key : string) (decls : list (string * string)) :
  forall entry,
    ~ In key (map route_of decls) ->
    entry_after getParamNames managers key decls entry = entry.
Proof.
  induction decls as [|decl rest IH]; intros entry Hn; simpl; auto.
  unfold entry_after in *. simpl. rewrite IH by (simpl in Hn; tauto).
  unfold extend. simpl.
  destruct (String.eqb_spec key (route_of decl)); auto.
  exfalso. apply Hn. simpl. auto.
Qed.

Lemma entry_after_once (decl : string * string) (decls : list (string * string)) :
  forall entry,
    In decl decls ->
    count_occ string_dec (map route_of decls) (route_of decl) = 1 ->
    entry_after getParamNames managers (route_of decl) decls entry
    = Some (match entry with Some known => known | None => [] end
              ++ marked_params getParamNames managers decl).
Proof.
  induction decls as [|first rest IH]; intros entry Hin Hcount; [contradiction|].
  simpl in Hcount. unfold entry_after. simpl. fold (entry_after getParamNames managers).
  destruct (string_dec (route_of first) (route_of decl)) as [Heq|Hne].
  - assert (Hrest : ~ In (route_of decl) (map route_of rest)).
    { apply (count_occ_not_In string_dec). lia. }
    assert (Hfirst : first = decl).
    { destruct Hin as [|Hin]; auto. exfalso. apply Hrest. now apply in_map. }
    subst first.
    change (fold_left _ rest ?e)
      with (entry_after getParamNames managers (route_of decl) rest e).
    rewrite entry_after_absent by assumption.
    unfold extend. simpl. now rewrite String.eqb_refl.
  - destruct Hin as [->|Hin]; [congruence|].
    change (fold_left _ rest ?e)
      with (entry_after getParamNames managers (route_of decl) rest e).
    rewrite IH by assumption.
    unfold extend. simpl.
    destruct (String.eqb_spec (route_of decl) (route_of first)); [congruence|].
    reflexivity.
Qed.

Lemma entry_after_members (key : string) (decls : list (string * string)) :
  forall entry stack param,
    entry_after getParamNames managers key decls entry = Some stack ->
    In param stack ->
    (exists known, entry = Some known /\ In param known)
    \/ exists decl, In decl decls
                    /\ route_of decl = key
                    /\ In param (marked_params getParamNames managers decl).
Proof.
  induction decls as [|first rest IH]; intros entry stack param Hentry Hin.
  - left. exists stack. auto.
  - unfold entry_after in Hentry. simpl in Hentry.
    destruct (IH _ _ _ Hentry Hin) as [(known & Hk & Hp)|(decl & Hd & Hkey & Hp)].
    + unfold extend in Hk. simpl in Hk.
      destruct (String.eqb_spec key (route_of first)) as [Heq|Hne].
      * injection Hk as <-. apply in_app_or in Hp. destruct Hp as [Hp|Hp].
        -- left. destruct entry as [known|]; [|contradiction]. eauto.
        -- right. exists first. repeat split; auto. now left.
      * left. eauto.
    + right. exists decl. repeat split; auto. now right.
Qed.


End Built.

(** C4: with the introspector of the specification, an entry of
    [httpExposed] that names no method of its manager makes the constructor
    throw: no handler object, hence no route table, comes out of it, and
    the error is that of a declaration at fault. *)
Theorem missing_method_aborts_the_build
  (managers : list (string * manager)) (mwsRepo : list (string * middleware))
  (moduleName methodDef : string) (mgr : manager) (defs : list string) :
  Js.lookup moduleName managers = Some mgr ->
  httpExposed mgr = Some defs ->
  In methodDef defs ->
  Js.lookup (snd (ApiHandler.parse methodDef)) (methods mgr) = None ->
  exists err,
    ApiHandler.constructor Introspector.getParamNames managers mwsRepo = Throw err
    /\ exists decl,
         In decl (declarations managers)
         /\ faulty Introspector.getParamNames managers mwsRepo decl err.
Proof.
  intros Hmgr Hdefs Hin Hmissing.
  destruct (ApiHandler.constructor Introspector.getParamNames managers mwsRepo)
    as [this|err] eqn:Hbuilt.
  - exfalso.
    destruct (constructor_ok _ _ _ _ Hbuilt) as (_ & _ & _ & Hall).
    rewrite Forall_forall in Hall.
    destruct (Hall _ (declared _ _ _ _ _ Hmgr Hdefs Hin)) as (text & Htext & _).
    unfold introspect, method_of in Htext. simpl in Htext.
    rewrite Hmgr, Hmissing in Htext. discriminate.
  - exists err. split; auto.
    destruct (constructor_throw _ _ _ _ Hbuilt) as (decl & Hdecl & Hfault).
    exists decl. split; auto. now apply at_fault_faulty.
Qed.

(** A marked parameter of an exposed method that is neither in the
    middleware registry nor a name that the registry inherits makes the
    constructor throw, whatever the introspector.  The error is that of a
    declaration at fault: [Unable to find middleware <param> for
    <moduleName>.<method>] for such a parameter, unless the introspector
    itself threw on a declaration.  (No declaration uses, for a verb, a
    name that every object inherits.) *)
Lemma unresolved_middleware_throws
  (getParamNames : option func -> string -> string -> result string)
  (managers : list (string * manager)) (mwsRepo : list (string * middleware))
  (moduleName methodDef : string) (mgr : manager) (defs : list string)
  (text param : string) :
  Forall (fun decl => Js.inherited (fst (ApiHandler.parse (snd decl))) = false)
         (declarations managers) ->
  Js.lookup moduleName managers = Some mgr ->
  httpExposed mgr = Some defs ->
  In methodDef defs ->
  getParamNames (Js.lookup (snd (ApiHandler.parse methodDef)) (methods mgr))
    (snd (ApiHandler.parse methodDef)) moduleName = Ok text ->
  In param (param_names text) ->
  Str.startsWith "__" param = true ->
  Js.lookup param mwsRepo = None ->
  Js.inherited param = false ->
  exists err,
    ApiHandler.constructor getParamNames managers mwsRepo = Throw err
    /\ exists decl,
         In decl (declarations managers)
         /\ at_fault getParamNames managers mwsRepo decl err.
Proof.
  intros _ Hmgr Hdefs Hin Htext Hparam Hmark Hnone Hown.
  destruct (ApiHandler.constructor getParamNames managers mwsRepo)
    as [this|err] eqn:Hbuilt.
  - exfalso.
    destruct (constructor_ok _ _ _ _ Hbuilt) as (_ & _ & _ & Hall).
    rewrite Forall_forall in Hall.
    destruct (Hall _ (declared _ _ _ _ _ Hmgr Hdefs Hin)) as (text' & Htext' & Hres).
    unfold introspect, method_of in Htext'. simpl in Htext'.
    rewrite Hmgr, Htext in Htext'. injection Htext' as <-.
    rewrite Forall_forall in Hres. specialize (Hres param Hparam Hmark).
    unfold ApiHandler.found in Hres. rewrite Hnone, Hown in Hres. discriminate.
  - exists err. split; auto. now apply constructor_throw.
Qed.

(** After a successful build, a declaration whose key
    [<moduleName>.<methodName>] no other declaration shares has, under that
    key, exactly the marked parameters of its method in their order in the
    parameter list; and whatever the stack under a key holds is a marked
    parameter of a declaration of that key. *)
Lemma stack_of_a_declaration
  (getParamNames : option func -> string -> string -> result string)
  (managers : list (string * manager)) (mwsRepo : list (string * middleware))
  (this : ApiHandler.t) :
  ApiHandler.constructor getParamNames managers mwsRepo = Ok this ->
  (forall decl,
     In decl (declarations managers) ->
     count_occ string_dec (map route_of (declarations managers)) (route_of decl) = 1 ->
     exists text,
       introspect getParamNames managers decl = Ok text
       /\ Js.lookup (ApiHandler.route (fst decl) (method_of decl))
            (ApiHandler.mwsStack this)
          = Some (filter (Str.startsWith "__") (param_names text)))
  /\ (forall key stack param,
        Js.lookup key (ApiHandler.mwsStack this) = Some stack ->
        In param stack ->
        Str.startsWith "__" param = true
        /\ exists decl text,
             In decl (declarations managers)
             /\ ApiHandler.route (fst decl) (method_of decl) = key
             /\ introspect getParamNames managers decl = Ok text
             /\ In param (param_names text)).
Proof.
  intros Hbuilt.
  destruct (constructor_ok _ _ _ _ Hbuilt) as (_ & _ & Hstack & Hall).
  rewrite Forall_forall in Hall. split.
  - intros decl Hin Honce.
    destruct (Hall _ Hin) as (text & Htext & _).
    exists text. split; auto.
    change (ApiHandler.route (fst decl) (method_of decl)) with (route_of decl).
    rewrite Hstack, (entry_after_once _ _ _ _ _ Hin Honce).
    unfold marked_params. rewrite Htext. reflexivity.
  - intros key stack param Hkey Hin.
    rewrite Hstack in Hkey.
    destruct (entry_after_members _ _ _ _ _ _ _ Hkey Hin)
      as [(known & Hk & _)|(decl & Hd & Hroute & Hp)]; [discriminate|].
    destruct (Hall _ Hd) as (text & Htext & _).
    unfold marked_params in Hp. rewrite Htext in Hp.
    apply filter_In in Hp. destruct Hp as (Hp & Hmark).
    split; auto. exists decl, text. auto.
Qed.


(* ================================================================== *)
(** * The tables of a built handler *)

Lemma extend_keeps (key : string) (added : string * list string)
  (entry : option (list string)) :
  entry <> None -> extend key added entry <> None.
Proof.
  unfold extend. destruct (String.eqb key (fst added)); auto. discriminate.
Qed.

Section Tables.

Variable getParamNames : option func -> string -> string -> result string.

Lemma each_methodDef_matrix (moduleName methodDef : string)
  (this this' : ApiHandler.t) :
  ApiHandler.each_methodDef getParamNames moduleName methodDef this = Ok this' ->
  exists matrix,
    Js.lookup moduleName (ApiHandler.methodMatrix this) = Some matrix
    /\ ApiHandler.methodMatrix this'
       = Js.set moduleName
           (Js.set (fst (ApiHandler.parse methodDef))
              (match Js.lookup (fst (ApiHandler.parse methodDef)) matrix with
               | Some known => known
               | None => []
               end ++ [snd (ApiHandler.parse methodDef)])
              (ApiHandler.init (fst (ApiHandler.parse methodDef)) matrix))
           (ApiHandler.methodMatrix this).
Proof.
  unfold ApiHandler.each_methodDef.
  destruct (ApiHandler.parse methodDef) as [httpMethod managerMethod]. simpl.
  destruct (Js.lookup moduleName (ApiHandler.methodMatrix this)) as [matrix|];
    [|discriminate].
  unfold ApiHandler.push. rewrite init_lookup_same. simpl.
  destruct (Js.lookup moduleName (ApiHandler.managers this)) as [mgr|];
    [|discriminate].
  destruct (getParamNames (Js.lookup managerMethod (methods mgr))
              managerMethod moduleName) as [text|]; [|discriminate].
  simpl. fold (param_names text).
  destruct (param_names text) as [|param rest] eqn:Hnames.
  - exfalso. unfold param_names in Hnames.
    apply map_eq_nil in Hnames. now apply split_nonempty in Hnames.
  - intros Hrun.
    destruct (params_ok _ _ _ _ _ _ Hrun) as (_ & _ & Hx & _).
    exists matrix. split; auto.
Qed.

Lemma each_methodDef_covered (moduleName methodDef : string)
  (this this' : ApiHandler.t) :
  ApiHandler.each_methodDef getParamNames moduleName methodDef this = Ok this' ->
  covered this -> covered this'.
Proof.
  intros Hrun Hcov.
  destruct (each_methodDef_matrix _ _ _ _ Hrun) as (matrix & Hmatrix & Hx).
  destruct (each_methodDef_ok _ _ _ _ _ Hrun) as (_ & _ & _ & text & _ & Hs & _).
  intros m0 mm0 verb0 fns0 fn0 Hm0 Hv0 Hin0.
  rewrite Hs. rewrite Hx in Hm0.
  destruct (string_dec m0 moduleName) as [->|Hm].
  - rewrite lookup_set_same in Hm0. injection Hm0 as <-.
    destruct (string_dec verb0 (fst (ApiHandler.parse methodDef))) as [->|Hv].
    + rewrite lookup_set_same in Hv0. injection Hv0 as <-.
      apply in_app_or in Hin0. destruct Hin0 as [Hold|[<-|[]]].
      * apply extend_keeps.
        destruct (Js.lookup (fst (ApiHandler.parse methodDef)) matrix)
          as [known|] eqn:Hk; [|contradiction].
        exact (Hcov _ _ _ _ _ Hmatrix Hk Hold).
      * unfold extend, route_of, method_of. simpl.
        rewrite String.eqb_refl. discriminate.
    + rewrite lookup_set_other in Hv0 by assumption.
      rewrite init_lookup_other in Hv0 by assumption.
      apply extend_keeps. exact (Hcov _ _ _ _ _ Hmatrix Hv0 Hin0).
  - rewrite lookup_set_other in Hm0 by assumption.
    apply extend_keeps. exact (Hcov _ _ _ _ _ Hm0 Hv0 Hin0).
Qed.

Lemma defs_covered (moduleName : string) (defs : list string) :
  forall this this' : ApiHandler.t,
    forEach (ApiHandler.each_methodDef getParamNames moduleName) defs this = Ok this' ->
    covered this -> covered this'.
Proof.
  induction defs as [|methodDef rest IH]; intros this this' Hrun Hcov; simpl in Hrun.
  - now injection Hrun as <-.
  - destruct (ApiHandler.each_methodDef getParamNames moduleName methodDef this)
      as [this1|] eqn:E; [|discriminate].
    simpl in Hrun. apply (IH _ _ Hrun). exact (each_methodDef_covered _ _ _ _ E Hcov).
Qed.

Lemma each_module_covered (moduleName : string) (this this' : ApiHandler.t) :
  ApiHandler.each_module getParamNames moduleName this = Ok this' ->
  covered this -> covered this'.
Proof.
  unfold ApiHandler.each_module. intros Hrun Hcov.
  destruct (Js.lookup moduleName (ApiHandler.managers this)) as [mgr|];
    [|discriminate].
  destruct (httpExposed mgr) as [defs|].
  - apply (defs_covered _ _ _ _ Hrun).
    intros m0 mm0 verb0 fns0 fn0 Hm0 Hv0 Hin0. simpl in *.
    destruct (string_dec m0 moduleName) as [->|Hm].
    + rewrite lookup_set_same in Hm0. injection Hm0 as <-. discriminate.
    + rewrite lookup_set_other in Hm0 by assumption.
      exact (Hcov _ _ _ _ _ Hm0 Hv0 Hin0).
  - now injection Hrun as <-.
Qed.

Lemma modules_covered (names : list string) :
  forall this this' : ApiHandler.t,
    forEach (ApiHandler.each_module getParamNames) names this = Ok this' ->
    covered this -> covered this'.
Proof.
  induction names as [|moduleName rest IH]; intros this this' Hrun Hcov; simpl in Hrun.
  - now injection Hrun as <-.
  - destruct (ApiHandler.each_module getParamNames moduleName this)
      as [this1|] eqn:E; [|discriminate].
    simpl in Hrun. apply (IH _ _ Hrun). exact (each_module_covered _ _ _ E Hcov).
Qed.

(** On the tables of a built handler, [mw] always has a stack to hand to
    the executor: every request that uses no inherited name gets a trace. *)
Lemma mw_on_built (managers : list (string * manager))
  (mwsRepo : list (string * middleware)) (this : ApiHandler.t)
  (now : string) (req : request) (res : string) :
  ApiHandler.constructor getParamNames managers mwsRepo = Ok this ->
  Js.inherited (params_moduleName req) = false ->
  Js.inherited (Str.toLowerCase (req_method req)) = false ->
  exists trace, ApiHandler.mw this now req res = Some trace.
Proof.
  intros Hbuilt Hmodule Hverb.
  assert (Hcov : covered this).
  { apply (modules_covered _ _ _ Hbuilt). intros m0 mm0 ? ? ? Hm0. discriminate. }
  unfold ApiHandler.mw. rewrite Hmodule, Hverb.
  destruct (Js.lookup (params_moduleName req) (ApiHandler.methodMatrix this))
    as [matrix|] eqn:Hm; [|eauto].
  destruct (Js.lookup (Str.toLowerCase (req_method req)) matrix)
    as [fns|] eqn:Hv; [|eauto].
  destruct (existsb (String.eqb (params_fnName req)) fns) eqn:Hf; simpl; [|eauto].
  apply existsb_eqb_in in Hf.
  destruct (Js.lookup (ApiHandler.route (params_moduleName req) (params_fnName req))
              (ApiHandler.mwsStack this)) as [stack|] eqn:Hs; [eauto|].
  exfalso. exact (Hcov _ _ _ _ _ Hm Hv Hf Hs).
Qed.

Lemma defs_modules (moduleName : string) (defs : list string) :
  forall this this' : ApiHandler.t,
    forEach (ApiHandler.each_methodDef getParamNames moduleName) defs this = Ok this' ->
    forall m, Js.lookup m (ApiHandler.methodMatrix this') = None
              <-> Js.lookup m (ApiHandler.methodMatrix this) = None.
Proof.
  induction defs as [|methodDef rest IH]; intros this this' Hrun m; simpl in Hrun.
  - injection Hrun as <-. tauto.
  - destruct (ApiHandler.each_methodDef getParamNames moduleName methodDef this)
      as [this1|] eqn:E; [|discriminate].
    simpl in Hrun. rewrite (IH _ _ Hrun).
    destruct (each_methodDef_matrix _ _ _ _ E) as (matrix & Hmatrix & Hx).
    rewrite Hx. destruct (string_dec m moduleName) as [->|Hm].
    + rewrite lookup_set_same, Hmatrix. split; discriminate.
    + now rewrite lookup_set_other.
Qed.

Lemma each_module_modules (moduleName : string) (this this' : ApiHandler.t) :
  ApiHandler.each_module getParamNames moduleName this = Ok this' ->
  forall m, Js.lookup m (ApiHandler.methodMatrix this') <> None
            <-> Js.lookup m (ApiHandler.methodMatrix this) <> None
                \/ (m = moduleName /\ registered (ApiHandler.managers this) m).
Proof.
  unfold ApiHandler.each_module, registered. intros Hrun m.
  destruct (Js.lookup moduleName (ApiHandler.managers this)) as [mgr|] eqn:Hmgr;
    [|discriminate].
  destruct (httpExposed mgr) as [defs|] eqn:Hdefs.
  - rewrite (defs_modules _ _ _ _ Hrun). simpl.
    destruct (string_dec m moduleName) as [->|Hm].
    + rewrite lookup_set_same. split; [|discriminate].
      intros _. right. split; auto. exists mgr, defs. auto.
    + rewrite lookup_set_other by assumption. tauto.
  - injection Hrun as <-. split; [tauto|].
    intros [H|(-> & mgr' & defs & Hl & Hd)]; auto. congruence.
Qed.

Lemma modules_modules (names : list string) :
  forall this this' : ApiHandler.t,
    forEach (ApiHandler.each_module getParamNames) names this = Ok this' ->
    forall m, Js.lookup m (ApiHandler.methodMatrix this') <> None
              <-> Js.lookup m (ApiHandler.methodMatrix this) <> None
                  \/ (In m names /\ registered (ApiHandler.managers this) m).
Proof.
  induction names as [|moduleName rest IH]; intros this this' Hrun m; simpl in Hrun.
  - injection Hrun as <-. simpl. tauto.
  - destruct (ApiHandler.each_module getParamNames moduleName this)
      as [this1|] eqn:E; [|discriminate].
    simpl in Hrun. rewrite (IH _ _ Hrun), (each_module_modules _ _ _ E).
    destruct (each_module_ok _ _ _ _ E) as (Hm & _). rewrite Hm. simpl.
    intuition (subst; auto).
Qed.

(** The modules of the method matrix of a built handler are the registered
    ones. *)
Lemma modules_of_built (managers : list (string * manager))
  (mwsRepo : list (string * middleware)) (this : ApiHandler.t) (m : string) :
  ApiHandler.constructor getParamNames managers mwsRepo = Ok this ->
  Js.lookup m (ApiHandler.methodMatrix this) = None <-> ~ registered managers m.
Proof.
  intros Hbuilt.
  pose proof (modules_modules _ _ _ Hbuilt m) as Hiff. simpl in Hiff.
  split.
  - intros Hnone Hreg. apply (proj2 Hiff); auto.
    right. split; auto.
    destruct Hreg as (mgr & defs & Hl & _). exact (lookup_some_keys _ _ _ Hl).
  - intros Hnot. destruct (Js.lookup m (ApiHandler.methodMatrix this)) eqn:E; auto.
    exfalso. destruct (proj1 Hiff) as [H|(_ & H)]; auto; congruence.
Qed.

(** So a request for a module that is not registered is refused by a built
    handler with [module <moduleName> not found], unless the name is an
    inherited one. *)
Lemma unregistered_module_is_refused (managers : list (string * manager))
  (mwsRepo : list (string * middleware)) (this : ApiHandler.t)
  (now : string) (req : request) (res : string) :
  ApiHandler.constructor getParamNames managers mwsRepo = Ok this ->
  ~ registered managers (params_moduleName req) ->
  Js.inherited (params_moduleName req) = false ->
  ApiHandler.mw this now req res
  = Some [Sent res (Js.Num 400)
            (failure_envelope now
               ("module " ++ params_moduleName req ++ " not found"))].
Proof.
  intros Hbuilt Hnot Hown.
  apply (modules_of_built _ _ _ _ Hbuilt) in Hnot.
  unfold ApiHandler.mw. now rewrite Hnot, Hown.
Qed.

End Tables.

(* ================================================================== *)
(** * The constructor on the small installation *)

Lemma example_built :
  ApiHandler.constructor Introspector.getParamNames Demo.managers Demo.mwsRepo
  = Ok Demo.this.
Proof. reflexivity. Qed.

Lemma example_unresolved :
  ApiHandler.constructor Introspector.getParamNames
    [("thing", Demo.audited)] Demo.mwsRepo
  = Throw "Unable to find middleware __audit for thing.removeThing".
Proof. reflexivity. Qed.

Lemma example_missing_method :
  ApiHandler.constructor Introspector.getParamNames
    [("thing", Demo.broken)] Demo.mwsRepo
  = Throw "function listThings not found on thing".
Proof. reflexivity. Qed.

Lemma missing_method_aborts_the_build_witness :
  exists err,
    ApiHandler.constructor Introspector.getParamNames
      [("thing", Demo.broken)] Demo.mwsRepo = Throw err
    /\ exists decl,
         In decl (declarations [("thing", Demo.broken)])
         /\ faulty Introspector.getParamNames [("thing", Demo.broken)]
              Demo.mwsRepo decl err.
Proof.
  apply (missing_method_aborts_the_build [("thing", Demo.broken)] Demo.mwsRepo
           "thing" "get=listThings" Demo.broken
           ["createThing"; "get=listThings"]);
    try reflexivity.
  simpl. tauto.
Defined.

Lemma stack_of_createThing :
  exists text,
    introspect Introspector.getParamNames Demo.managers ("thing", "createThing")
    = Ok text
    /\ Js.lookup "thing.createThing" (ApiHandler.mwsStack Demo.this)
       = Some (filter (Str.startsWith "__") (param_names text)).
Proof.
  apply (proj1 (stack_of_a_declaration Introspector.getParamNames
                  Demo.managers Demo.mwsRepo Demo.this eq_refl)
           ("thing", "createThing")).
  - simpl. tauto.
  - reflexivity.
Defined.

(** C6: [findThing], declared with the parameters [id,__token], is exposed
    as [get=findThing] and as [post=findThing].  Whatever the introspector,
    as long as it reads [id,__token] off the method, the build succeeds
    and the stack recorded under [thing.findThing] is [__token, __token]:
    the second declaration appends to the stack that the first one left.
    The marked parameters of the method are [__token]. *)
Theorem stack_of_a_method_exposed_twice
  (getParamNames : option func -> string -> string -> result string) :
  getParamNames (Some Demo.findThing) "findThing" "thing" = Ok "id,__token" ->
  filter (Str.startsWith "__") (param_names "id,__token") = ["__token"]
  /\ exists this,
       ApiHandler.constructor getParamNames [("thing", Demo.twice)] Demo.mwsRepo
       = Ok this
       /\ ApiHandler.methodMatrix this
          = [("thing", [("get", ["findThing"]); ("post", ["findThing"])])]
       /\ ApiHandler.mwsStack this = [("thing.findThing", ["__token"; "__token"])].
Proof.
  intros Htext. split; [reflexivity|]. eexists.
  unfold ApiHandler.constructor, ApiHandler.each_module. simpl.
  unfold ApiHandler.each_methodDef at 1. simpl. rewrite Htext. simpl.
  unfold ApiHandler.each_methodDef at 1. simpl. rewrite Htext. simpl.
  repeat split; reflexivity.
Qed.

Lemma stack_of_a_method_exposed_twice_witness :
  exists this,
    ApiHandler.constructor Introspector.getParamNames
      [("thing", Demo.twice)] Demo.mwsRepo = Ok this
    /\ Js.lookup "thing.findThing" (ApiHandler.mwsStack this)
       = Some ["__token"; "__token"].
Proof.
  destruct (stack_of_a_method_exposed_twice Introspector.getParamNames eq_refl)
    as (_ & this & Hbuilt & _ & Hstack).
  exists this. split; [exact Hbuilt|]. rewrite Hstack. reflexivity.
Defined.


(* ================================================================== *)
(** * The envelope of every response *)

Lemma responseObj_base (now : string) (p : ResponseDispatcher.params) (k : string) :
  k <> "errors" -> k <> "message" ->
  Js.lookup k (ResponseDispatcher.responseObj now p)
  = Js.lookup k [ ("ok", Js.Bool (ResponseDispatcher.ok p));
                  ("code", ResponseDispatcher.statusCode p);
                  ("data", Js.or (ResponseDispatcher.data p) (Js.Obj []));
                  ("timestamp", Js.Str now) ].
Proof.
  intros He Hm. unfold ResponseDispatcher.responseObj.
  destruct (ResponseDispatcher.is_null (ResponseDispatcher.finalMessage p));
    [|rewrite lookup_set_other by assumption];
    (destruct (ResponseDispatcher.errorArray (ResponseDispatcher.errors p));
     [reflexivity | now rewrite lookup_set_other by assumption]).
Qed.

Lemma statusCode_truthy (p : ResponseDispatcher.params) :
  Js.truthy (ResponseDispatcher.statusCode p) = true.
Proof.
  unfold ResponseDispatcher.statusCode.
  destruct (Js.truthy (ResponseDispatcher.code p)) eqn:E; auto.
  now destruct (ResponseDispatcher.ok p).
Qed.

(** X1: whatever [dispatch] is given, the status it writes is truthy and is
    the [code] of the body, and the body has [ok], a truthy [data] and the
    [timestamp]. *)
Theorem dispatch_status_matches_body (now res : string)
  (p : ResponseDispatcher.params) :
  exists status body data,
    ResponseDispatcher.dispatch now res p = Sent res status (Js.Obj body)
    /\ Js.truthy status = true
    /\ Js.lookup "code" body = Some status
    /\ Js.lookup "ok" body = Some (Js.Bool (ResponseDispatcher.ok p))
    /\ Js.lookup "data" body = Some data
    /\ Js.truthy data = true
    /\ Js.lookup "timestamp" body = Some (Js.Str now).
Proof.
  exists (ResponseDispatcher.statusCode p), (ResponseDispatcher.responseObj now p),
    (Js.or (ResponseDispatcher.data p) (Js.Obj [])).
  split; [reflexivity|]. split; [apply statusCode_truthy|].
  rewrite !responseObj_base by discriminate.
  repeat split.
  unfold Js.or. now destruct (Js.truthy (ResponseDispatcher.data p)) eqn:E.
Qed.

Lemma errorArray_no_string (errors : Js.value) :
  Forall (fun e => Js.is_string e = false) (ResponseDispatcher.errorArray errors).
Proof.
  unfold ResponseDispatcher.errorArray.
  destruct (Js.truthy errors); [|constructor].
  destruct errors; try constructor; auto.
  induction items as [|e rest IH]; simpl; constructor; auto.
  destruct (Js.is_string e) eqn:E; auto.
Qed.

(** X2: the body has the key [errors] exactly when the normalised list is
    not empty, and then it is that list, in which no item is a bare string:
    each string given has been wrapped as [{message}]. *)
Theorem dispatch_errors_are_wrapped (now : string) (p : ResponseDispatcher.params) :
  match Js.lookup "errors" (ResponseDispatcher.responseObj now p) with
  | None => ResponseDispatcher.errorArray (ResponseDispatcher.errors p) = []
  | Some listed_errors =>
      exists errs,
        listed_errors = Js.Arr errs
        /\ errs = ResponseDispatcher.errorArray (ResponseDispatcher.errors p)
        /\ errs <> []
        /\ Forall (fun e => Js.is_string e = false) errs
  end.
Proof.
  assert (H : Js.lookup "errors" (ResponseDispatcher.responseObj now p)
              = match ResponseDispatcher.errorArray (ResponseDispatcher.errors p) with
                | [] => None
                | errs => Some (Js.Arr errs)
                end).
  { unfold ResponseDispatcher.responseObj.
    destruct (ResponseDispatcher.is_null (ResponseDispatcher.finalMessage p));
      [|rewrite lookup_set_other by discriminate];
      (destruct (ResponseDispatcher.errorArray (ResponseDispatcher.errors p));
       [reflexivity | now rewrite lookup_set_same]). }
  rewrite H. pose proof (errorArray_no_string (ResponseDispatcher.errors p)) as Hall.
  destruct (ResponseDispatcher.errorArray (ResponseDispatcher.errors p)) as [|e rest];
    auto.
  exists (e :: rest). repeat split; auto. discriminate.
Qed.

(** X3: a response dispatched with [ok: false] always carries a truthy
    [message], whatever else it is given: [msg], else [message], else
    ["Request failed"]. *)
Theorem failure_always_has_a_message (now : string) (p : ResponseDispatcher.params) :
  ResponseDispatcher.ok p = false ->
  exists m,
    Js.lookup "message" (ResponseDispatcher.responseObj now p) = Some m
    /\ Js.truthy m = true
    /\ m = (if Js.truthy (ResponseDispatcher.msg p) then ResponseDispatcher.msg p
            else if Js.truthy (ResponseDispatcher.message p)
                 then ResponseDispatcher.message p
                 else Js.Str "Request failed").
Proof.
  intros Hok.
  assert (Hm : ResponseDispatcher.finalMessage p
               = (if Js.truthy (ResponseDispatcher.msg p) then ResponseDispatcher.msg p
                  else if Js.truthy (ResponseDispatcher.message p)
                       then ResponseDispatcher.message p
                       else Js.Str "Request failed")).
  { unfold ResponseDispatcher.finalMessage, Js.or. rewrite Hok.
    destruct (Js.truthy (ResponseDispatcher.msg p)) eqn:E1; rewrite ?E1; auto. }
  assert (Ht : Js.truthy (ResponseDispatcher.finalMessage p) = true).
  { rewrite Hm.
    destruct (Js.truthy (ResponseDispatcher.msg p)) eqn:E1; auto.
    destruct (Js.truthy (ResponseDispatcher.message p)) eqn:E2; auto. }
  exists (ResponseDispatcher.finalMessage p). split; [|split; auto].
  unfold ResponseDispatcher.responseObj.
  rewrite (truthy_not_null _ Ht). apply lookup_set_same.
Qed.

Lemma failure_always_has_a_message_witness :
  exists m,
    Js.lookup "message"
      (ResponseDispatcher.responseObj "t"
         {| ResponseDispatcher.ok := false;
            ResponseDispatcher.data := Js.Undefined;
            ResponseDispatcher.code := Js.Num 401;
            ResponseDispatcher.errors := Js.Str "Invalid or expired token";
            ResponseDispatcher.message := Js.Undefined;
            ResponseDispatcher.msg := Js.Undefined |}) = Some m
    /\ m = Js.Str "Request failed".
Proof.
  destruct (failure_always_has_a_message "t"
              {| ResponseDispatcher.ok := false;
                 ResponseDispatcher.data := Js.Undefined;
                 ResponseDispatcher.code := Js.Num 401;
                 ResponseDispatcher.errors := Js.Str "Invalid or expired token";
                 ResponseDispatcher.message := Js.Undefined;
                 ResponseDispatcher.msg := Js.Undefined |} eq_refl)
    as (m & Hl & _ & Hm).
  exists m. split; [exact Hl | exact Hm].
Defined.

(* ================================================================== *)
(** * Handlers that return nothing, handlers that are not there *)

(** X4: a handler that returns a falsy value ([undefined], [null],
    [false], [0], the empty string) is answered as a success: status 200
    and the envelope [{ok: true, code: 200, data: {}, timestamp}]. *)
Theorem handler_without_result_is_a_success (now res : string) (result : Js.value) :
  Js.truthy result = false ->
  ApiHandler.respond now res result
  = [Sent res (Js.Num 200)
       (Js.Obj [ ("ok", Js.Bool true); ("code", Js.Num 200);
                 ("data", Js.Obj []); ("timestamp", Js.Str now) ])].
Proof.
  intros H. unfold ApiHandler.respond. rewrite H. reflexivity.
Qed.

Lemma handler_without_result_is_a_success_witness :
  ApiHandler.respond "t" "res" Js.Undefined
  = [Sent "res" (Js.Num 200)
       (Js.Obj [ ("ok", Js.Bool true); ("code", Js.Num 200);
                 ("data", Js.Obj []); ("timestamp", Js.Str "t") ])].
Proof.
  apply (handler_without_result_is_a_success "t" "res" Js.Undefined). reflexivity.
Defined.

(** X5: when the module has no method of the name, which no object
    inherits either (or when there is no such module), [onDone] calls
    nothing and writes the same 400 envelope as for a handler that throws:
    [<fnName> failed to execute]. *)
Theorem missing_handler_is_answered_as_a_failure (this : ApiHandler.t)
  (now : string) (req : request) (res moduleName fnName : string)
  (results : Js.object) :
  Js.inherited fnName = false ->
  (forall mgr, Js.lookup moduleName (ApiHandler.managers this) = Some mgr ->
               Js.lookup fnName (methods mgr) = None) ->
  ApiHandler.onDone this now req res moduleName fnName results
  = [Sent res (Js.Num 400) (failure_envelope now (fnName ++ " failed to execute"))].
Proof.
  intros _ Hmissing. unfold ApiHandler.onDone, ApiHandler._exec.
  assert (Hsent : ApiHandler.respond now res
                    (Js.Obj [("error", Js.Str (fnName ++ " failed to execute"))])
                  = [Sent res (Js.Num 400)
                       (failure_envelope now (fnName ++ " failed to execute"))]).
  { unfold ApiHandler.respond, ResponseDispatcher.dispatch,
      ResponseDispatcher.responseObj, ResponseDispatcher.statusCode,
      ResponseDispatcher.finalMessage, Js.or.
    simpl. rewrite nonempty_suffix by discriminate. reflexivity. }
  destruct (Js.lookup moduleName (ApiHandler.managers this)) as [mgr|] eqn:Hm.
  - rewrite (Hmissing mgr eq_refl). exact Hsent.
  - exact Hsent.
Qed.

Lemma missing_handler_is_answered_as_a_failure_witness :
  ApiHandler.onDone Demo.this "t" (Demo.create_request Js.Undefined) "res"
    "thing" "dropThing" []
  = [Sent "res" (Js.Num 400) (failure_envelope "t" "dropThing failed to execute")].
Proof.
  apply (missing_handler_is_answered_as_a_failure Demo.this "t"
           (Demo.create_request Js.Undefined) "res" "thing" "dropThing" []);
    [reflexivity|].
  intros mgr Hm. vm_compute in Hm. injection Hm as <-. reflexivity.
Defined.

(* ================================================================== *)
(** * Reading declarations and parameter lists *)

Lemma includes_app (c : ascii) (a b : string) :
  Str.includes c (a ++ String c b) = true.
Proof.
  induction a as [|d a IH]; simpl.
  - now rewrite Ascii.eqb_refl.
  - destruct (Ascii.eqb d c); auto.
Qed.

Lemma split_one (c : ascii) (a : string) :
  Str.includes c a = false -> Str.split c a = [a].
Proof.
  induction a as [|d a IH]; simpl; auto.
  destruct (Ascii.eqb d c); [discriminate|].
  intros H. now rewrite (IH H).
Qed.

Lemma split_app (c : ascii) (a b : string) :
  Str.includes c a = false ->
  Str.split c (a ++ String c b) = a :: Str.split c b.
Proof.
  induction a as [|d a IH]; simpl.
  - intros _. now rewrite Ascii.eqb_refl.
  - destruct (Ascii.eqb d c); [discriminate|].
    intros H. now rewrite (IH H).
Qed.

(** X6: a declaration [<verb>=<name>] is read back as that verb and that
    name, and whatever follows a second [=] is dropped. *)
Theorem parse_reads_verb_and_name (verb name rest : string) :
  Str.includes "=" verb = false ->
  Str.includes "=" name = false ->
  ApiHandler.parse (verb ++ "=" ++ name) = (verb, name)
  /\ ApiHandler.parse (verb ++ "=" ++ name ++ "=" ++ rest) = (verb, name).
Proof.
  intros Hv Hn. unfold ApiHandler.parse.
  change (verb ++ "=" ++ name)%string with (verb ++ String "=" name)%string.
  change (verb ++ "=" ++ name ++ "=" ++ rest)%string
    with (verb ++ String "=" (name ++ String "=" rest))%string.
  rewrite !includes_app, !split_app by assumption.
  rewrite (split_one _ _ Hn). split; reflexivity.
Qed.

Lemma parse_reads_verb_and_name_witness :
  ApiHandler.parse "get=getSchoolById" = ("get", "getSchoolById")
  /\ ApiHandler.parse "get=getSchoolById=v2" = ("get", "getSchoolById").
Proof.
  apply (parse_reads_verb_and_name "get" "getSchoolById" "v2"); reflexivity.
Defined.

Lemma plain_no_comma (s : string) : plain s = true -> Str.includes "," s = false.
Proof.
  induction s as [|c s IH]; simpl; auto.
  unfold plain_char. intros H.
  apply andb_prop in H. destruct H as (Hc & Hs).
  destruct (Ascii.eqb c ","); simpl in *.
  - rewrite !andb_false_r in Hc. simpl in Hc. discriminate.
  - auto.
Qed.

Lemma plain_head (c : ascii) (s : string) :
  plain (String c s) = true ->
  Str.is_space c = false /\ Ascii.eqb c "{" = false /\ Ascii.eqb c "}" = false
  /\ plain s = true.
Proof.
  simpl. unfold plain_char. intros H.
  apply andb_prop in H. destruct H as (Hc & Hs).
  destruct (Str.is_space c), (Ascii.eqb c ","), (Ascii.eqb c "{"), (Ascii.eqb c "}");
    simpl in Hc; try discriminate; auto.
Qed.

Lemma trimStart_plain (s : string) : plain s = true -> Str.trimStart s = s.
Proof.
  destruct s as [|c s]; auto. intros H.
  apply plain_head in H. destruct H as (Hc & _). simpl. now rewrite Hc.
Qed.

Lemma trimEnd_plain (s : string) : plain s = true -> Str.trimEnd s = s.
Proof.
  induction s as [|c s IH]; auto. intros H.
  apply plain_head in H. destruct H as (Hc & _ & _ & Hs).
  simpl. rewrite (IH Hs), Hc. now destruct s.
Qed.

Lemma trimEnd_plain_closed (s : string) :
  plain s = true -> Str.trimEnd (s ++ "}") = (s ++ "}")%string.
Proof.
  induction s as [|c s IH]; auto. intros H.
  apply plain_head in H. destruct H as (Hc & _ & _ & Hs).
  simpl. rewrite (IH Hs). now destruct s.
Qed.

Lemma remove_first_plain (c : ascii) (s : string) :
  Str.includes c s = false -> Str.remove_first c s = s.
Proof.
  induction s as [|d s IH]; simpl; auto.
  destruct (Ascii.eqb d c); [discriminate|]. intros H. now rewrite (IH H).
Qed.

Lemma remove_first_last (c : ascii) (s : string) :
  Str.includes c s = false -> Str.remove_first c (s ++ String c "") = s.
Proof.
  induction s as [|d s IH]; simpl.
  - now rewrite Ascii.eqb_refl.
  - destruct (Ascii.eqb d c); [discriminate|]. intros H. now rewrite (IH H).
Qed.

Lemma plain_no_open (s : string) : plain s = true -> Str.includes "{" s = false.
Proof.
  induction s as [|c s IH]; auto. intros H.
  apply plain_head in H. destruct H as (_ & Ho & _ & Hs).
  simpl. rewrite Ho. auto.
Qed.

Lemma plain_no_close (s : string) : plain s = true -> Str.includes "}" s = false.
Proof.
  induction s as [|c s IH]; auto. intros H.
  apply plain_head in H. destruct H as (_ & _ & Hc & Hs).
  simpl. rewrite Hc. auto.
Qed.

(** The clean-up of a piece of a well-spaced parameter text: the name,
    after the opening brace or the space that follows a comma, and before
    the closing brace if it is the last. *)
Lemma clean_piece (name : string) :
  plain name = true ->
  ApiHandler.clean name = name
  /\ ApiHandler.clean ("{" ++ name) = name
  /\ ApiHandler.clean (" " ++ name) = name
  /\ ApiHandler.clean (name ++ "}") = name
  /\ ApiHandler.clean ("{" ++ name ++ "}") = name
  /\ ApiHandler.clean (" " ++ name ++ "}") = name.
Proof.
  intros H. unfold ApiHandler.clean, Str.trim.
  pose proof (plain_no_open _ H) as Ho. pose proof (plain_no_close _ H) as Hc.
  assert (Hopen : forall s, Str.trimEnd s = s ->
                            Str.trimEnd (String "{" s) = String "{" s).
  { intros s Hs. simpl. rewrite Hs. now destruct s. }
  assert (Hstart : Str.trimStart (name ++ "}") = (name ++ "}")%string).
  { destruct name as [|c name]; auto.
    apply plain_head in H. destruct H as (Hsp & _). simpl. now rewrite Hsp. }
  assert (Hro : Str.remove_first "{" (name ++ "}") = (name ++ "}")%string).
  { apply remove_first_plain. clear - Ho.
    induction name as [|d name IH]; simpl in *; auto.
    destruct (Ascii.eqb d "{"); [discriminate | auto]. }
  repeat split.
  - rewrite (trimStart_plain _ H), (trimEnd_plain _ H).
    now rewrite (remove_first_plain _ _ Ho), (remove_first_plain _ _ Hc).
  - change (Str.trimStart ("{" ++ name)) with (String "{" name).
    rewrite (Hopen _ (trimEnd_plain _ H)). simpl.
    now apply remove_first_plain.
  - change (Str.trimStart (" " ++ name)) with (Str.trimStart name).
    rewrite (trimStart_plain _ H), (trimEnd_plain _ H).
    now rewrite (remove_first_plain _ _ Ho), (remove_first_plain _ _ Hc).
  - rewrite Hstart, (trimEnd_plain_closed _ H), Hro.
    now apply remove_first_last.
  - change (Str.trimStart ("{" ++ name ++ "}")) with (String "{" (name ++ "}")).
    rewrite (Hopen _ (trimEnd_plain_closed _ H)). simpl.
    now apply remove_first_last.
  - change (Str.trimStart (" " ++ name ++ "}")) with (Str.trimStart (name ++ "}")).
    rewrite Hstart, (trimEnd_plain_closed _ H), Hro.
    now apply remove_first_last.
Qed.

Lemma string_app_assoc (a b c : string) :
  ((a ++ b) ++ c = a ++ (b ++ c))%string.
Proof. induction a as [|d a IH]; simpl; congruence. Qed.

Lemma includes_comma_app (a b : string) :
  Str.includes "," a = false -> Str.includes "," b = false ->
  Str.includes "," (a ++ b) = false.
Proof.
  induction a as [|c a IH]; simpl; auto.
  destruct (Ascii.eqb c ","); [discriminate | auto].
Qed.

Lemma param_names_from (names : list string) :
  names <> [] ->
  Forall (fun name => plain name = true) names ->
  forall before,
    before = "{" \/ before = " " \/ before = "" ->
    (map ApiHandler.clean (Str.split "," (before ++ String.concat ", " names ++ "}"))
     = names)
    /\ (map ApiHandler.clean (Str.split "," (before ++ String.concat ", " names))
        = names).
Proof.
  induction names as [|name rest IH]; [congruence|].
  intros _ Hall before Hb. inversion Hall as [|? ? Hname Hrest]; subst.
  destruct (clean_piece _ Hname) as (C0 & C1 & C2 & C3 & C4 & C5).
  pose proof (plain_no_comma _ Hname) as Hcomma.
  assert (Hbefore : Str.includes "," (before ++ name) = false).
  { destruct Hb as [->|[->| ->]]; simpl; auto. }
  destruct rest as [|next rest].
  - simpl String.concat. split.
    + rewrite split_one
        by (rewrite <- string_app_assoc; apply includes_comma_app; auto).
      simpl. f_equal. destruct Hb as [->|[->| ->]]; auto.
    + rewrite split_one by assumption.
      simpl. f_equal. destruct Hb as [->|[->| ->]]; auto.
  - assert (Hne : next :: rest <> []) by discriminate.
    destruct (IH Hne Hrest " " (or_intror (or_introl eq_refl))) as (IH1 & IH2).
    change (String.concat ", " (name :: next :: rest))
      with (name ++ String "," (" " ++ String.concat ", " (next :: rest)))%string.
    split.
    + replace (before ++ (name ++ String "," (" " ++ String.concat ", " (next :: rest)))
                 ++ "}")%string
        with ((before ++ name)
                ++ String "," (" " ++ String.concat ", " (next :: rest) ++ "}"))%string.
      * rewrite split_app by assumption. rewrite map_cons, IH1.
        f_equal. destruct Hb as [->|[->| ->]]; auto.
      * rewrite !string_app_assoc. simpl. reflexivity.
    + replace (before ++ name ++ String "," (" " ++ String.concat ", " (next :: rest)))%string
        with ((before ++ name)
                ++ String "," (" " ++ String.concat ", " (next :: rest)))%string.
      * rewrite split_app by assumption. rewrite map_cons, IH2.
        f_equal. destruct Hb as [->|[->| ->]]; auto.
      * now rewrite string_app_assoc.
Qed.

(** X7: the parameter names are read back from a well-spaced parameter
    text: names without white space, comma or brace, joined by [", "],
    between braces or not, come out unchanged and in order. *)
Theorem param_names_of_a_list (names : list string) :
  names <> [] ->
  Forall (fun name => plain name = true) names ->
  param_names ("{" ++ String.concat ", " names ++ "}") = names
  /\ param_names (String.concat ", " names) = names.
Proof.
  intros Hne Hall. unfold param_names. split.
  - exact (proj1 (param_names_from names Hne Hall "{" (or_introl eq_refl))).
  - exact (proj2 (param_names_from names Hne Hall ""
                    (or_intror (or_intror eq_refl)))).
Qed.

Lemma param_names_of_a_list_witness :
  param_names "{id, __token}" = ["id"; "__token"]
  /\ param_names "id, __token" = ["id"; "__token"].
Proof.
  apply (param_names_of_a_list ["id"; "__token"]).
  - discriminate.
  - repeat constructor.
Defined.

(** X8: white space between a brace and a name survives the clean-up,
    because the text is trimmed before the braces are removed: after
    [{ ] the name keeps a leading space, so that a marked parameter is
    not recognised; before [ }] it keeps a trailing space. *)
Theorem space_inside_braces_is_kept (name : string) :
  plain name = true ->
  name <> "" ->
  ApiHandler.clean ("{ " ++ name) = (" " ++ name)%string
  /\ Str.startsWith "__" (ApiHandler.clean ("{ " ++ name)) = false
  /\ ApiHandler.clean (name ++ " }") = (name ++ " ")%string.
Proof.
  intros H Hne. unfold ApiHandler.clean, Str.trim.
  pose proof (plain_no_open _ H) as Ho. pose proof (plain_no_close _ H) as Hc.
  assert (Hkeep : forall s, s <> "" -> Str.trimEnd s = s ->
                            forall c, Str.trimEnd (String c s) = String c s).
  { intros s Hs Ht c. simpl. rewrite Ht. destruct s; congruence. }
  assert (H1 : Str.remove_first "}"
                 (Str.remove_first "{" (Str.trimEnd (Str.trimStart ("{ " ++ name))))
               = (" " ++ name)%string).
  { change (Str.trimStart ("{ " ++ name)) with (String "{" (String " " name)).
    rewrite (Hkeep (String " " name)); [|discriminate|].
    - simpl. now rewrite remove_first_plain.
    - apply Hkeep; auto. now apply trimEnd_plain. }
  repeat split.
  - exact H1.
  - rewrite H1. reflexivity.
  - assert (Hstart : Str.trimStart (name ++ " }") = (name ++ " }")%string).
    { destruct name as [|c name]; [congruence|].
      apply plain_head in H. destruct H as (Hsp & _). simpl. now rewrite Hsp. }
    assert (Hend : Str.trimEnd (name ++ " }") = (name ++ " }")%string).
    { clear - H. induction name as [|c name IH]; auto.
      apply plain_head in H. destruct H as (_ & _ & _ & Hs).
      simpl. rewrite (IH Hs). now destruct name. }
    rewrite Hstart, Hend.
    assert (Hro : Str.includes "{" (name ++ " }") = false).
    { clear - Ho. induction name as [|d name IH]; simpl in *; auto.
      destruct (Ascii.eqb d "{"); [discriminate | auto]. }
    rewrite (remove_first_plain _ _ Hro).
    change (name ++ " }")%string with (name ++ String " " (String "}" ""))%string.
    clear - Hc. induction name as [|d name IH]; simpl in *; auto.
    destruct (Ascii.eqb d "}"); [discriminate|]. now rewrite (IH Hc).
Qed.

Lemma space_inside_braces_is_kept_witness :
  ApiHandler.clean "{ __token" = " __token"
  /\ Str.startsWith "__" (ApiHandler.clean "{ __token") = false
  /\ ApiHandler.clean "__token }" = "__token ".
Proof.
  apply (space_inside_braces_is_kept "__token"); [reflexivity | discriminate].
Defined.

(* ================================================================== *)
(** * Where the token is read, and what a rejected token is answered *)

Lemma substring_all (s : string) : String.substring 0 (String.length s) s = s.
Proof. induction s as [|c s IH]; simpl; congruence. Qed.

Lemma prefix_app (p t : string) : String.prefix p (p ++ t) = true.
Proof.
  induction p as [|a p IH]; simpl.
  - now destruct t.
  - destruct (ascii_dec a a); [exact IH | congruence].
Qed.

Lemma truthy_Str (s : string) : s <> "" -> Js.truthy (Js.Str s) = true.
Proof. intros H. destruct s; [congruence | reflexivity]. Qed.

(** X9: a header [authorization: Bearer <t>] with a non-empty [t] gives
    the token [t], whatever the [token] header and the [token] query
    parameter hold. *)
Theorem bearer_token_comes_first (req : request) (t : string) :
  Js.lookup "authorization" (req_headers req) = Some (Js.Str ("Bearer " ++ t)) ->
  t <> "" ->
  TokenMw.extract_token req = Some (Js.Str t).
Proof.
  intros Hauth Ht. unfold TokenMw.extract_token. simpl Js.get. rewrite Hauth.
  change (Js.truthy (Js.Str ("Bearer " ++ t))) with true. cbv iota.
  unfold Str.startsWith. rewrite prefix_app.
  assert (Hs : String.substring 7 (String.length ("Bearer " ++ t) - 7) ("Bearer " ++ t)
               = t).
  { simpl. rewrite Nat.sub_0_r. apply substring_all. }
  rewrite Hs, (truthy_Str _ Ht). cbn [negb andb].
  rewrite (truthy_Str _ Ht). reflexivity.
Qed.

Lemma bearer_token_comes_first_witness :
  TokenMw.extract_token
    {| req_method := "GET"; params_moduleName := "user";
       params_fnName := "getUserById"; req_body := Js.Undefined;
       req_headers := [("authorization", Js.Str "Bearer abc");
                       ("token", Js.Str "other")];
       req_query := Js.Obj [("token", Js.Str "third")] |}
  = Some (Js.Str "abc").
Proof.
  apply (bearer_token_comes_first
           {| req_method := "GET"; params_moduleName := "user";
              params_fnName := "getUserById"; req_body := Js.Undefined;
              req_headers := [("authorization", Js.Str "Bearer abc");
                              ("token", Js.Str "other")];
              req_query := Js.Obj [("token", Js.Str "third")] |} "abc");
    [reflexivity | discriminate].
Defined.

(** X10: with the repository's token manager behind it, the token unit
    answers every token that [jwt.verify] rejects in the same way, whatever
    the reason: 401 with the error [Invalid or expired token].  The manager
    catches the exception, so the messages the unit keeps for an expired
    token, a bad signature or a token not yet valid are never sent. *)
Theorem rejected_token_is_answered_alike
  (verify : Js.value -> string -> option Js.value) (LONG_TOKEN_SECRET : string)
  (now : string) (req : request) (res : string) (token : Js.value) :
  TokenMw.extract_token req = Some token ->
  Js.truthy token = true ->
  verify token LONG_TOKEN_SECRET = None ->
  token_unit_of verify LONG_TOKEN_SECRET now req res
  = Responded (Js.Num 401)
      (Js.Obj [ ("ok", Js.Bool false); ("code", Js.Num 401); ("data", Js.Obj []);
                ("timestamp", Js.Str now);
                ("errors",
                 Js.Arr [Js.Obj [("message", Js.Str "Invalid or expired token")]]);
                ("message", Js.Str "Request failed") ]).
Proof.
  intros Htoken Htruthy Hverify.
  unfold token_unit_of, TokenMw.__token, TokenManager.verifyLongToken,
    TokenManager._verifyToken.
  rewrite Htoken, Htruthy, Hverify. reflexivity.
Qed.

Lemma rejected_token_is_answered_alike_witness :
  token_unit_of (fun _ _ => None) "secret" "t" (Demo.create_request (Js.Str "abc")) "res"
  = Responded (Js.Num 401)
      (Js.Obj [ ("ok", Js.Bool false); ("code", Js.Num 401); ("data", Js.Obj []);
                ("timestamp", Js.Str "t");
                ("errors",
                 Js.Arr [Js.Obj [("message", Js.Str "Invalid or expired token")]]);
                ("message", Js.Str "Request failed") ]).
Proof.
  apply (rejected_token_is_answered_alike (fun _ _ => None) "secret" "t"
           (Demo.create_request (Js.Str "abc")) "res" (Js.Str "abc"));
    reflexivity.
Defined.

(** X11: with the repository's token manager behind it, the token unit
    lets a request through only with what [jwt.verify] decoded, under the
    long-token secret, from the token found in the request; that token and
    the decoded payload are truthy. *)
Theorem token_unit_continues_only_when_verified
  (verify : Js.value -> string -> option Js.value) (LONG_TOKEN_SECRET : string)
  (now : string) (req : request) (res : string) (decoded : Js.value) :
  token_unit_of verify LONG_TOKEN_SECRET now req res = Next decoded ->
  exists token,
    TokenMw.extract_token req = Some token
    /\ Js.truthy token = true
    /\ verify token LONG_TOKEN_SECRET = Some decoded
    /\ Js.truthy decoded = true.
Proof.
  unfold token_unit_of, TokenMw.__token, TokenManager.verifyLongToken,
    TokenManager._verifyToken.
  destruct (TokenMw.extract_token req) as [token|]; [|discriminate].
  destruct (Js.truthy token) eqn:Ht; simpl; [|discriminate].
  destruct (verify token LONG_TOKEN_SECRET) as [payload|] eqn:Hv; [|discriminate].
  destruct (Js.truthy payload) eqn:Hp; simpl; [|discriminate].
  intros H. injection H as <-. exists token. repeat split; auto.
Qed.

Lemma token_unit_continues_only_when_verified_witness :
  exists token,
    TokenMw.extract_token (Demo.create_request (Js.Str "abc")) = Some token
    /\ Js.truthy token = true
    /\ (fun _ _ => Some (Js.Obj [("userId", Js.Str "u1")])) token "secret"
       = Some (Js.Obj [("userId", Js.Str "u1")])
    /\ Js.truthy (Js.Obj [("userId", Js.Str "u1")]) = true.
Proof.
  apply (token_unit_continues_only_when_verified
           (fun _ _ => Some (Js.Obj [("userId", Js.Str "u1")])) "secret" "t"
           (Demo.create_request (Js.Str "abc")) "res"
           (Js.Obj [("userId", Js.Str "u1")])).
  reflexivity.
Defined.

(* ================================================================== *)
(** * Refreshing a token *)

Section Refresh.

Variable sign : Js.value -> string -> Js.value -> option string.
Variable LONG_TOKEN_SECRET : string.
Variable issuer : Js.value.
Variable longTokenExpiresIn : string.

(** X12: without a short token that carries a truthy [userId],
    [refreshToken] signs nothing and the request is answered 401 with the
    error [Invalid or expired refresh token]. *)
Theorem refresh_requires_a_user_id (now res : string) (seconds : Z)
  (data : Js.value) :
  Js.truthy (Js.get (Js.get data "__shortToken") "userId") = false ->
  TokenManager.refreshToken sign LONG_TOKEN_SECRET issuer longTokenExpiresIn
    seconds data
  = Js.Obj [ ("ok", Js.Bool false); ("code", Js.Num 401);
             ("errors", Js.Str "Invalid or expired refresh token") ]
  /\ ApiHandler.respond now res
       (TokenManager.refreshToken sign LONG_TOKEN_SECRET issuer longTokenExpiresIn
          seconds data)
     = [Sent res (Js.Num 401)
          (Js.Obj [ ("ok", Js.Bool false); ("code", Js.Num 401);
                    ("data", Js.Obj []); ("timestamp", Js.Str now);
                    ("errors",
                     Js.Arr [Js.Obj [("message",
                                      Js.Str "Invalid or expired refresh token")]]);
                    ("message", Js.Str "Request failed") ])].
Proof.
  intros H.
  assert (Hr : TokenManager.refreshToken sign LONG_TOKEN_SECRET issuer
                 longTokenExpiresIn seconds data
               = Js.Obj [ ("ok", Js.Bool false); ("code", Js.Num 401);
                          ("errors", Js.Str "Invalid or expired refresh token") ]).
  { unfold TokenManager.refreshToken. rewrite H.
    now rewrite orb_true_r. }
  rewrite Hr. split; reflexivity.
Qed.

(** X13: with a short token that carries a truthy [userId], the request
    is answered 200 and the handler's own [{ok, code, data}] sits under
    [data] of the envelope.  The long token is signed for that [userId]
    with the e-mail [user@example.com] and the role [student], whatever
    else the short token holds; when signing fails, [longToken] is [null]
    and the answer is 200 all the same. *)
Theorem refresh_signs_a_student_token (now res : string) (seconds : Z)
  (data : Js.value) :
  Js.truthy (Js.get (Js.get data "__shortToken") "userId") = true ->
  ApiHandler.respond now res
    (TokenManager.refreshToken sign LONG_TOKEN_SECRET issuer longTokenExpiresIn
       seconds data)
  = [Sent res (Js.Num 200)
       (Js.Obj
          [ ("ok", Js.Bool true); ("code", Js.Num 200);
            ("data",
             Js.Obj
               [ ("ok", Js.Bool true); ("code", Js.Num 200);
                 ("data",
                  Js.Obj
                    [("longToken",
                      match
                        sign
                          (Js.Obj
                             [ ("userId", Js.get (Js.get data "__shortToken") "userId");
                               ("email", Js.Str "user@example.com");
                               ("role", Js.Str "student");
                               ("type", Js.Str "access");
                               ("iat", Js.Num seconds) ])
                          LONG_TOKEN_SECRET
                          (Js.Obj
                             [ ("expiresIn", Js.Str longTokenExpiresIn);
                               ("algorithm", Js.Str "HS256");
                               ("issuer",
                                Js.or issuer (Js.Str "school-management-api"));
                               ("subject",
                                Js.get (Js.get data "__shortToken") "userId") ])
                      with
                      | Some signedToken => Js.Str signedToken
                      | None => Js.Null
                      end)]) ]);
            ("timestamp", Js.Str now) ])].
Proof.
  intros H.
  assert (Ht : Js.truthy (Js.get data "__shortToken") = true).
  { destruct (Js.get data "__shortToken"); simpl in H; try discriminate; auto. }
  unfold TokenManager.refreshToken. rewrite H, Ht. reflexivity.
Qed.

End Refresh.

Lemma refresh_requires_a_user_id_witness :
  TokenManager.refreshToken (fun _ _ _ => Some "signed") "secret" Js.Undefined "7d"
    1772020800 (Js.Obj [("res", Js.Host "res")])
  = Js.Obj [ ("ok", Js.Bool false); ("code", Js.Num 401);
             ("errors", Js.Str "Invalid or expired refresh token") ].
Proof.
  apply (refresh_requires_a_user_id (fun _ _ _ => Some "signed") "secret"
           Js.Undefined "7d" "t" "res" 1772020800 (Js.Obj [("res", Js.Host "res")])).
  reflexivity.
Defined.

Lemma refresh_signs_a_student_token_witness :
  ApiHandler.respond "t" "res"
    (TokenManager.refreshToken (fun _ _ _ => None) "secret" Js.Undefined "7d"
       1772020800
       (Js.Obj [("__shortToken",
                 Js.Obj [("userId", Js.Str "u1"); ("role", Js.Str "superadmin")])]))
  = [Sent "res" (Js.Num 200)
       (Js.Obj
          [ ("ok", Js.Bool true); ("code", Js.Num 200);
            ("data",
             Js.Obj [ ("ok", Js.Bool true); ("code", Js.Num 200);
                      ("data", Js.Obj [("longToken", Js.Null)]) ]);
            ("timestamp", Js.Str "t") ])].
Proof.
  apply (refresh_signs_a_student_token (fun _ _ _ => None) "secret" Js.Undefined
           "7d" "t" "res" 1772020800
           (Js.Obj [("__shortToken",
                     Js.Obj [("userId", Js.Str "u1");
                             ("role", Js.Str "superadmin")])])).
  reflexivity.
Defined.

(* ================================================================== *)
(** * The error helper *)

(** X14: on data whose strings, under the required names, are made of
    ASCII characters, [validateRequired] answers [null] exactly when every
    required field is there, truthy, and not a blank string.  (The
    required names are not among those that every object inherits.) *)
Theorem validateRequired_accepts (data : Js.object) (requiredFields : list string) :
  Forall (fun field => Js.inherited field = false) requiredFields ->
  Forall (fun field => ascii_value (Js.get (Js.Obj data) field) = true)
         requiredFields ->
  ErrorHandler.validateRequired data requiredFields = Js.Null
  <-> forallb (present data) requiredFields = true.
Proof.
  intros _ _.
  induction requiredFields as [|field rest IH];
    cbn [ErrorHandler.validateRequired forallb].
  - tauto.
  - unfold present at 1.
    destruct (Js.truthy (Js.get (Js.Obj data) field)); cbn [negb orb andb].
    + destruct (ErrorHandler.blank (Js.get (Js.Obj data) field)); cbn [negb andb].
      * split; discriminate.
      * exact IH.
    + split; discriminate.
Qed.

Lemma validateRequired_accepts_witness :
  ErrorHandler.validateRequired
    [("email", Js.Str "a@b.c"); ("password", Js.Str "secret")] ["email"; "password"]
  = Js.Null
  <-> forallb (present [("email", Js.Str "a@b.c"); ("password", Js.Str "secret")])
        ["email"; "password"] = true.
Proof.
  apply (validateRequired_accepts
           [("email", Js.Str "a@b.c"); ("password", Js.Str "secret")]
           ["email"; "password"]); repeat constructor.
Defined.

(** X15: otherwise it answers for the first field that is missing or
    blank, in the order of the list: a 400 whose single error names the
    field and says [<formatted name> is required].  This is for a field
    name made of ASCII characters and for data whose strings, under the
    names checked, are made of ASCII characters.  (The names checked are
    not among those that every object inherits.) *)
Theorem validateRequired_names_the_first_missing (data : Js.object)
  (checked later : list string) (field : string) :
  Forall (fun name => Js.inherited name = false) (checked ++ [field]) ->
  Forall (fun name => ascii_value (Js.get (Js.Obj data) name) = true)
         (checked ++ [field]) ->
  ascii_only field = true ->
  forallb (present data) checked = true ->
  present data field = false ->
  ErrorHandler.validateRequired data (checked ++ field :: later)
  = Js.Obj
      [ ("ok", Js.Bool false); ("code", Js.Num 400);
        ("errors",
         Js.Arr
           [Js.Obj
              [ ("field", Js.Str field);
                ("message",
                 Js.Str (ErrorHandler.formatFieldName field ++ " is required")) ]]) ].
Proof.
  intros _ _ _ Hchecked Hfield.
  induction checked as [|c checked IH];
    cbn [app ErrorHandler.validateRequired forallb] in *.
  - unfold present in Hfield.
    destruct (Js.truthy (Js.get (Js.Obj data) field)); cbn [negb orb andb] in *.
    + apply negb_false_iff in Hfield. rewrite Hfield. reflexivity.
    + reflexivity.
  - apply andb_prop in Hchecked. destruct Hchecked as (Hc & Hrest).
    unfold present in Hc. apply andb_prop in Hc. destruct Hc as (Ht & Hb).
    apply negb_true_iff in Hb. rewrite Ht, Hb. cbn [negb orb].
    exact (IH Hrest).
Qed.

Lemma validateRequired_names_the_first_missing_witness :
  ErrorHandler.validateRequired
    [("email", Js.Str "a@b.c"); ("password", Js.Str "   ")]
    ["email"; "password"; "username"]
  = Js.Obj
      [ ("ok", Js.Bool false); ("code", Js.Num 400);
        ("errors",
         Js.Arr [Js.Obj [ ("field", Js.Str "password");
                          ("message", Js.Str "Password is required") ]]) ].
Proof.
  apply (validateRequired_names_the_first_missing
           [("email", Js.Str "a@b.c"); ("password", Js.Str "   ")]
           ["email"] ["username"] "password");
    [repeat constructor | repeat constructor | reflexivity | reflexivity
    | reflexivity].
Defined.

Lemma spaced_step (first c d : ascii) (s : string) :
  ErrorHandler.spaced first (String c (String d s))
  = if ErrorHandler.is_upper d && negb (ErrorHandler.is_line_terminator c)
    then (ErrorHandler.respaced first c ++ ErrorHandler.spaced first (String d s))%string
    else String c (ErrorHandler.spaced first (String d s)).
Proof. reflexivity. Qed.

Lemma no_capital_head (c : ascii) (s : string) :
  no_capital (String c s) = true ->
  ErrorHandler.is_upper c = false /\ no_capital s = true.
Proof.
  cbn [no_capital]. intros H. apply andb_prop in H. destruct H as (Hc & Hs).
  now apply negb_true_iff in Hc.
Qed.

Lemma spaced_no_capital (first : ascii) (s : string) :
  no_capital s = true -> ErrorHandler.spaced first s = s.
Proof.
  induction s as [|c s IH]; auto. intros H.
  apply no_capital_head in H. destruct H as (_ & Hs). specialize (IH Hs).
  destruct s as [|d s]; auto.
  apply no_capital_head in Hs. destruct Hs as (Hd & _).
  rewrite spaced_step, Hd, IH. reflexivity.
Qed.

(** X16: a field name made of ASCII characters, without a capital
    letter, is formatted by putting its first letter in upper case, and
    nothing else. *)
Theorem formatFieldName_without_capital (c : ascii) (rest : string) :
  ascii_only (String c rest) = true ->
  no_capital (String c rest) = true ->
  ErrorHandler.is_line_terminator c = false ->
  ErrorHandler.formatFieldName (String c rest)
  = String (ErrorHandler.upper_ascii c) rest.
Proof.
  intros _ H Hlt. unfold ErrorHandler.formatFieldName, ErrorHandler.spaced_name.
  pose proof (no_capital_head _ _ H) as (Hc & _).
  rewrite Hc, (spaced_no_capital _ _ H).
  unfold ErrorHandler.capitalized. now rewrite Hlt.
Qed.

Lemma formatFieldName_without_capital_witness :
  ErrorHandler.formatFieldName "email" = "Email".
Proof.
  apply (formatFieldName_without_capital "e" "mail"); reflexivity.
Defined.

Lemma spaced_before_capital (first c u : ascii) (head rest : string) :
  no_capital head = true ->
  ErrorHandler.is_upper c = false ->
  ErrorHandler.is_upper u = true ->
  ErrorHandler.is_line_terminator c = false ->
  no_capital rest = true ->
  ErrorHandler.spaced first (head ++ String c (String u rest))
  = (head ++ ErrorHandler.respaced first c ++ String u rest)%string.
Proof.
  intros Hhead Hc Hu Hlt Hrest.
  assert (Htail : ErrorHandler.spaced first (String u rest) = String u rest).
  { destruct rest as [|d rest]; auto.
    pose proof (no_capital_head _ _ Hrest) as (Hd & _).
    rewrite spaced_step, Hd, (spaced_no_capital _ _ Hrest). reflexivity. }
  induction head as [|a head IH].
  - cbn [append]. rewrite spaced_step, Hu, Hlt, Htail. reflexivity.
  - apply no_capital_head in Hhead. destruct Hhead as (Ha & Hh).
    specialize (IH Hh).
    assert (Hnext : exists d tail,
               (head ++ String c (String u rest))%string = String d tail
               /\ ErrorHandler.is_upper d = false).
    { destruct head as [|h head].
      - exists c, (String u rest). auto.
      - exists h, (head ++ String c (String u rest))%string. split; auto.
        now apply no_capital_head in Hh. }
    destruct Hnext as (d & tail & E & Hd).
    change (String a head ++ String c (String u rest))%string
      with (String a (head ++ String c (String u rest))).
    rewrite E in *. rewrite spaced_step, Hd, IH. reflexivity.
Qed.

(** X17: in a camel-case name made of ASCII characters, with one capital
    letter, the space goes before the letter that precedes the capital,
    not before the capital: [firstName] becomes [Firs tName]. *)
Theorem formatFieldName_spaces_one_letter_early (a c u : ascii) (head rest : string) :
  ascii_only (String a head ++ String c (String u rest)) = true ->
  no_capital (String a head) = true ->
  ErrorHandler.is_upper c = false ->
  ErrorHandler.is_upper u = true ->
  no_capital rest = true ->
  ErrorHandler.is_line_terminator a = false ->
  ErrorHandler.is_line_terminator c = false ->
  c <> a ->
  ErrorHandler.formatFieldName (String a head ++ String c (String u rest))
  = String (ErrorHandler.upper_ascii a)
      (head ++ String " " (String c (String u rest))).
Proof.
  intros _ Hhead Hc Hu Hrest Ha Hlt Hne.
  unfold ErrorHandler.formatFieldName, ErrorHandler.spaced_name.
  change (String a head ++ String c (String u rest))%string
    with (String a (head ++ String c (String u rest))).
  pose proof (no_capital_head _ _ Hhead) as (Hua & _). rewrite Hua.
  change (String a (head ++ String c (String u rest)))
    with (String a head ++ String c (String u rest))%string.
  rewrite (spaced_before_capital a c u (String a head) rest) by assumption.
  unfold ErrorHandler.respaced.
  destruct (Ascii.eqb_spec c a) as [->|_]; [congruence|].
  simpl. now rewrite Ha.
Qed.

Lemma formatFieldName_spaces_one_letter_early_witness :
  ErrorHandler.formatFieldName "firstName" = "Firs tName".
Proof.
  apply (formatFieldName_spaces_one_letter_early "f" "t" "N" "irs" "ame");
    try reflexivity.
  discriminate.
Defined.

(** X18: what the helper builds is sent as it is meant: for each of its
    seven builders, the request is answered with the builder's status, the
    builder's error object as the only item of [errors], and the message
    [Request failed]. *)
Theorem helper_failures_are_sent_with_their_code (now res : string)
  (message field details : Js.value) (resource : option string) (r : Js.value) :
  In r [ ErrorHandler.badRequest message field details;
         ErrorHandler.unauthorized message;
         ErrorHandler.forbidden message;
         ErrorHandler.conflict message field;
         ErrorHandler.notFound resource;
         ErrorHandler.internalError message details;
         ErrorHandler.unprocessable message field ] ->
  exists code item,
    r = Js.Obj [ ("ok", Js.Bool false); ("code", Js.Num code);
                 ("errors", Js.Arr [Js.Obj item]) ]
    /\ In code [400; 401; 403; 409; 404; 500; 422]%Z
    /\ ApiHandler.respond now res r
       = [Sent res (Js.Num code)
            (Js.Obj [ ("ok", Js.Bool false); ("code", Js.Num code);
                      ("data", Js.Obj []); ("timestamp", Js.Str now);
                      ("errors", Js.Arr [Js.Obj item]);
                      ("message", Js.Str "Request failed") ])].
Proof.
  intros Hin. simpl in Hin.
  repeat (destruct Hin as [<-|Hin];
          [eexists; eexists; split; [reflexivity|]; split;
           [simpl; tauto | reflexivity]|]).
  contradiction.
Qed.

Lemma helper_failures_are_sent_with_their_code_witness :
  exists code item,
    ErrorHandler.notFound (Some "User")
    = Js.Obj [ ("ok", Js.Bool false); ("code", Js.Num code);
               ("errors", Js.Arr [Js.Obj item]) ]
    /\ In code [400; 401; 403; 409; 404; 500; 422]%Z
    /\ ApiHandler.respond "t" "res" (ErrorHandler.notFound (Some "User"))
       = [Sent "res" (Js.Num code)
            (Js.Obj [ ("ok", Js.Bool false); ("code", Js.Num code);
                      ("data", Js.Obj []); ("timestamp", Js.Str "t");
                      ("errors", Js.Arr [Js.Obj item]);
                      ("message", Js.Str "Request failed") ])].
Proof.
  apply (helper_failures_are_sent_with_their_code "t" "res" Js.Undefined
           Js.Undefined Js.Undefined (Some "User")).
  simpl. tauto.
Defined.

(** X19: [checkRolePermission] grants ([null]) exactly when the role is a
    non-empty string of the list; the empty string, though listed, is
    answered as not authenticated. *)
Theorem checkRolePermission_grants (userRole : Js.value) (requiredRoles : list string) :
  ErrorHandler.checkRolePermission userRole requiredRoles = Js.Null
  <-> exists role, userRole = Js.Str role /\ role <> "" /\ In role requiredRoles.
Proof.
  unfold ErrorHandler.checkRolePermission. split.
  - destruct (Js.truthy userRole) eqn:Ht; simpl; [|discriminate].
    destruct (ErrorHandler.includes requiredRoles userRole) eqn:Hi; simpl;
      [|discriminate].
    intros _. destruct userRole; simpl in Hi; try discriminate.
    exists s. repeat split.
    + intros ->. discriminate.
    + now apply existsb_eqb_in.
  - intros (role & -> & Hne & Hin).
    rewrite (truthy_Str _ Hne). simpl.
    now rewrite (proj2 (existsb_eqb_in role requiredRoles) Hin).
Qed.

(** X20: [validationErrors] throws exactly when an item is [null] or
    [undefined]; otherwise it answers a 400 with one error per item, each
    with the two keys [field] and [message] and nothing else. *)
Theorem validationErrors_shape (errorArray : list Js.value) :
  match ErrorHandler.validationErrors errorArray with
  | Ok r =>
      Forall (fun item => ErrorHandler.nullish item = false) errorArray
      /\ exists errs,
           r = Js.Obj [ ("ok", Js.Bool false); ("code", Js.Num 400);
                        ("errors", Js.Arr errs) ]
           /\ length errs = length errorArray
           /\ Forall (fun e => exists f m,
                          e = Js.Obj [("field", f); ("message", m)]) errs
  | Throw _ => Exists (fun item => ErrorHandler.nullish item = true) errorArray
  end.
Proof.
  unfold ErrorHandler.validationErrors.
  destruct (existsb ErrorHandler.nullish errorArray) eqn:E.
  - apply existsb_exists in E. apply Exists_exists. exact E.
  - split.
    + apply Forall_forall. intros item Hin.
      destruct (ErrorHandler.nullish item) eqn:Hn; auto.
      assert (existsb ErrorHandler.nullish errorArray = true)
        by (apply existsb_exists; eauto).
      congruence.
    + eexists. split; [reflexivity|]. split; [apply length_map|].
      apply Forall_forall. intros e He. apply in_map_iff in He.
      destruct He as (item & <- & _). eauto.
Qed.

(* ================================================================== *)
(** * Reading a user, reading a school *)

(** X21: to a caller without a token, or who is neither the user asked
    for nor a superadmin, [getUserById] answers without looking at what
    the database holds: the answer is the same whatever [_findUserById]
    would find. *)
Theorem getUserById_tells_others_nothing (find find' : Js.value -> Js.value)
  (data : Js.value) :
  Js.truthy (Js.get data "__token") = false \/ owner_or_superadmin data = false ->
  User.getUserById find data = User.getUserById find' data.
Proof.
  intros H. unfold User.getUserById.
  destruct (Js.truthy (ErrorHandler.validateRequired [("id", Js.get data "id")] ["id"]));
    [reflexivity|].
  destruct (Js.truthy (Js.get data "__token")) eqn:Ht; [|reflexivity].
  destruct H as [H|H]; [discriminate|].
  unfold owner_or_superadmin in H. apply orb_false_elim in H. destruct H as (H1 & H2).
  unfold ErrorHandler.checkResourceOwnership. rewrite H1, H2. reflexivity.
Qed.

Lemma getUserById_tells_others_nothing_witness :
  User.getUserById (fun _ => Js.Obj [("id", Js.Str "u2"); ("password", Js.Str "hash")])
    (Js.Obj [("id", Js.Str "u2");
             ("__token", Js.Obj [("userId", Js.Str "u1"); ("role", Js.Str "student")])])
  = User.getUserById (fun _ => Js.Null)
      (Js.Obj [("id", Js.Str "u2");
               ("__token", Js.Obj [("userId", Js.Str "u1"); ("role", Js.Str "student")])]).
Proof.
  apply (getUserById_tells_others_nothing
           (fun _ => Js.Obj [("id", Js.Str "u2"); ("password", Js.Str "hash")])
           (fun _ => Js.Null)
           (Js.Obj [("id", Js.Str "u2");
                    ("__token",
                     Js.Obj [("userId", Js.Str "u1"); ("role", Js.Str "student")])])).
  right. reflexivity.
Defined.

(** X22: when [getUserById] answers with a [user], the caller had a
    token and was that user or a superadmin, and the [user] is made of
    eight fields of the document found, [id], [username], [email],
    [firstName], [lastName], [role], [status] and [createdAt]: nothing
    else of the document, the password for one, goes out. *)
Theorem getUserById_returns_the_public_fields (find : Js.value -> Js.value)
  (data : Js.value) :
  Js.get (User.getUserById find data) "user" <> Js.Undefined ->
  Js.truthy (Js.get data "__token") = true
  /\ owner_or_superadmin data = true
  /\ Js.truthy (find (Js.get data "id")) = true
  /\ User.getUserById find data
     = Js.Obj
         [("user",
           Js.Obj (map (fun k => (k, Js.get (find (Js.get data "id")) k))
                     [ "id"; "username"; "email"; "firstName"; "lastName";
                       "role"; "status"; "createdAt" ]))].
Proof.
  unfold User.getUserById.
  destruct (ErrorHandler.validateRequired [("id", Js.get data "id")] ["id"])
    as [| | | | | |props|] eqn:Hv;
    try (cbn [ErrorHandler.validateRequired] in Hv;
         destruct (negb (Js.truthy (Js.get (Js.Obj [("id", Js.get data "id")]) "id"))
                   || ErrorHandler.blank
                        (Js.get (Js.Obj [("id", Js.get data "id")]) "id"));
         discriminate).
  - cbn [Js.truthy].
    destruct (Js.truthy (Js.get data "__token")) eqn:Ht; cbn [negb].
    + unfold ErrorHandler.checkResourceOwnership, owner_or_superadmin.
      destruct (ErrorHandler.strict_equal (Js.get (Js.get data "__token") "userId")
                  (Js.get data "id")) eqn:H1;
        destruct (ErrorHandler.strict_equal (Js.get (Js.get data "__token") "role")
                    (Js.Str "superadmin")) eqn:H2;
        cbn [negb andb orb Js.truthy];
        try (intros H; exfalso; apply H; reflexivity);
        (destruct (Js.truthy (find (Js.get data "id"))) eqn:Hf; cbn [negb];
         [intros _; repeat split; reflexivity
         |intros H; exfalso; apply H; reflexivity]).
    + intros H. exfalso. apply H. reflexivity.
  - cbn [ErrorHandler.validateRequired] in Hv.
    destruct (negb (Js.truthy (Js.get (Js.Obj [("id", Js.get data "id")]) "id"))
              || ErrorHandler.blank (Js.get (Js.Obj [("id", Js.get data "id")]) "id"));
      [|discriminate].
    injection Hv as <-. cbn [Js.truthy]. intros H. exfalso. apply H. reflexivity.
Qed.

Lemma getUserById_returns_the_public_fields_witness :
  User.getUserById
    (fun _ => Js.Obj [("id", Js.Str "u1"); ("username", Js.Str "ann");
                      ("password", Js.Str "hash")])
    (Js.Obj [("id", Js.Str "u1");
             ("__token", Js.Obj [("userId", Js.Str "u1"); ("role", Js.Str "student")])])
  = Js.Obj
      [("user",
        Js.Obj [ ("id", Js.Str "u1"); ("username", Js.Str "ann");
                 ("email", Js.Undefined); ("firstName", Js.Undefined);
                 ("lastName", Js.Undefined); ("role", Js.Undefined);
                 ("status", Js.Undefined); ("createdAt", Js.Undefined) ])].
Proof.
  apply (getUserById_returns_the_public_fields
           (fun _ => Js.Obj [("id", Js.Str "u1"); ("username", Js.Str "ann");
                             ("password", Js.Str "hash")])
           (Js.Obj [("id", Js.Str "u1");
                    ("__token",
                     Js.Obj [("userId", Js.Str "u1"); ("role", Js.Str "student")])])).
  discriminate.
Defined.

(** X23: [getSchoolById] asks for a token and nothing more: two callers
    with any two truthy tokens get the same answer for the same [id],
    whatever their role and their school. *)
Theorem getSchoolById_is_open_to_any_token (find : Js.value -> Js.value)
  (data data' : Js.value) :
  Js.get data "id" = Js.get data' "id" ->
  Js.truthy (Js.get data "__token") = true ->
  Js.truthy (Js.get data' "__token") = true ->
  School.getSchoolById find data = School.getSchoolById find data'.
Proof.
  intros Hid Ht Ht'. unfold School.getSchoolById.
  now rewrite Ht, Ht', Hid.
Qed.

Lemma getSchoolById_is_open_to_any_token_witness :
  School.getSchoolById (fun _ => Js.Obj [("id", Js.Str "s1")])
    (Js.Obj [("id", Js.Str "s1");
             ("__token", Js.Obj [("userId", Js.Str "u1"); ("role", Js.Str "superadmin")])])
  = School.getSchoolById (fun _ => Js.Obj [("id", Js.Str "s1")])
      (Js.Obj [("id", Js.Str "s1");
               ("__token", Js.Obj [("userId", Js.Str "u9"); ("role", Js.Str "student")])]).
Proof.
  apply (getSchoolById_is_open_to_any_token (fun _ => Js.Obj [("id", Js.Str "s1")])
           (Js.Obj [("id", Js.Str "s1");
                    ("__token",
                     Js.Obj [("userId", Js.Str "u1"); ("role", Js.Str "superadmin")])])
           (Js.Obj [("id", Js.Str "s1");
                    ("__token",
                     Js.Obj [("userId", Js.Str "u9"); ("role", Js.Str "student")])]));
    reflexivity.
Defined.

(* ================================================================== *)
(** * The user name validator *)

Lemma allowed_not_space (c : ascii) :
  Validators.allowed c = true -> Str.is_space c = false.
Proof.
  destruct c as [[|] [|] [|] [|] [|] [|] [|] [|]]; vm_compute; congruence.
Qed.

Lemma trimEnd_allowed (s : string) :
  Validators.all_allowed s = true -> Str.trimEnd s = s.
Proof.
  induction s as [|c s IH]; auto. cbn [Validators.all_allowed]. intros H.
  apply andb_prop in H. destruct H as (Hc & Hs).
  cbn [Str.trimEnd]. rewrite (IH Hs), (allowed_not_space _ Hc). now destruct s.
Qed.

Lemma trim_allowed (s : string) :
  Validators.all_allowed s = true -> Str.trim s = s.
Proof.
  intros H. unfold Str.trim.
  assert (Hstart : Str.trimStart s = s).
  { destruct s as [|c s]; auto. cbn [Validators.all_allowed] in H.
    apply andb_prop in H. destruct H as (Hc & _).
    cbn [Str.trimStart]. now rewrite (allowed_not_space _ Hc). }
  rewrite Hstart. now apply trimEnd_allowed.
Qed.

(** X24: the validator accepts ([null]) exactly the strings of 3 to 20
    characters made of letters, digits, underscores and hyphens. *)
Theorem username_accepts (data : Js.value) :
  Validators.username data = Js.Null
  <-> exists s,
        data = Js.Str s
        /\ 3 <= String.length s <= 20
        /\ Validators.all_allowed s = true.
Proof.
  split.
  - destruct data; try discriminate. cbn [Validators.username].
    destruct (String.eqb s "") eqn:He; [discriminate|].
    destruct (Nat.ltb (String.length (Str.trim s)) 3) eqn:H3; [discriminate|].
    destruct (Nat.ltb 20 (String.length (Str.trim s))) eqn:H20; [discriminate|].
    destruct (Validators.well_formed s) eqn:Hw; [|discriminate].
    intros _. unfold Validators.well_formed in Hw.
    apply andb_prop in Hw. destruct Hw as (_ & Ha).
    rewrite (trim_allowed _ Ha) in H3, H20.
    apply Nat.ltb_ge in H3, H20. exists s. repeat split; auto.
  - intros (s & -> & (H3 & H20) & Ha). cbn [Validators.username].
    rewrite (trim_allowed _ Ha).
    assert (He : String.eqb s "" = false) by (destruct s; [simpl in H3; lia | reflexivity]).
    rewrite He. unfold Validators.well_formed. rewrite He, Ha.
    apply Nat.ltb_ge in H3, H20. now rewrite H3, H20.
Qed.

(* ================================================================== *)
(** * The device unit *)

(** X25: the device unit always continues, with an object [{ip, agent}]
    whose two fields are truthy ([N/A] stands for what is not known); when
    the [useragent] package is not installed the agent is always [N/A]. *)
Theorem device_is_always_described (getClientIp : request -> Js.value)
  (useragent : option (Js.value -> Js.value)) (req : request) (res : string) :
  exists ip agent,
    DeviceMw.__device getClientIp useragent req res
    = Next (Js.Obj [("ip", ip); ("agent", agent)])
    /\ Js.truthy ip = true
    /\ Js.truthy agent = true
    /\ (useragent = None -> agent = Js.Str "N/A").
Proof.
  unfold DeviceMw.__device. eexists. eexists. split; [reflexivity|].
  assert (Hor : forall v, Js.truthy (Js.or v (Js.Str "N/A")) = true).
  { intros v. unfold Js.or. now destruct (Js.truthy v) eqn:E. }
  split; [apply Hor|]. split.
  - destruct useragent as [lookup_agent|]; auto.
    destruct (Js.truthy (Js.get (Js.Obj (req_headers req)) "user-agent")); auto.
  - now intros ->.
Qed.

(* ================================================================== *)
(** * The routes of a built handler *)

Lemma forEach_app {A S : Type} (f : A -> S -> result S) (done later : list A) :
  forall s s',
    forEach f (done ++ later) s = Ok s' ->
    exists s1, forEach f done s = Ok s1 /\ forEach f later s1 = Ok s'.
Proof.
  induction done as [|x done IH]; intros s s' Hrun; simpl in *.
  - eauto.
  - destruct (f x s) as [s0|]; simpl in *; [|discriminate].
    exact (IH _ _ Hrun).
Qed.

Lemma listed_with_methodMatrix (this : ApiHandler.t)
  (mm : list (string * list (string * list string))) (m verb fn : string) :
  listed (ApiHandler.with_methodMatrix mm this) m verb fn
  <-> exists matrix fns,
        Js.lookup m mm = Some matrix /\ Js.lookup verb matrix = Some fns /\ In fn fns.
Proof. reflexivity. Qed.

Section Routes.

Variable getParamNames : option func -> string -> string -> result string.

Lemma each_methodDef_listed (moduleName methodDef : string)
  (this this' : ApiHandler.t) :
  ApiHandler.each_methodDef getParamNames moduleName methodDef this = Ok this' ->
  forall m verb fn,
    listed this' m verb fn
    <-> listed this m verb fn
        \/ (m = moduleName /\ (verb, fn) = ApiHandler.parse methodDef).
Proof.
  intros Hrun m verb fn.
  destruct (each_methodDef_matrix _ _ _ _ _ Hrun) as (matrix & Hmatrix & Hx).
  destruct (ApiHandler.parse methodDef) as [v f]. simpl in Hx.
  unfold listed. rewrite Hx.
  destruct (string_dec m moduleName) as [->|Hm].
  - rewrite lookup_set_same, Hmatrix.
    destruct (string_dec verb v) as [->|Hv].
    + split.
      * intros (mx & fns & E1 & E2 & Hin). injection E1 as <-.
        rewrite lookup_set_same in E2. injection E2 as <-.
        apply in_app_or in Hin. destruct Hin as [Hin|[<-|[]]]; [|now right].
        left. destruct (Js.lookup v matrix) as [known|] eqn:Hk; [|contradiction].
        exists matrix, known. auto.
      * intros [(mx & fns & E1 & E2 & Hin)|(_ & E)].
        -- injection E1 as <-. rewrite E2.
           eexists. eexists. split; [reflexivity|]. split; [apply lookup_set_same|].
           apply in_or_app. now left.
        -- injection E as ->.
           eexists. eexists. split; [reflexivity|]. split; [apply lookup_set_same|].
           apply in_or_app. right. now left.
    + split.
      * intros (mx & fns & E1 & E2 & Hin). injection E1 as <-.
        rewrite lookup_set_other in E2 by assumption.
        rewrite init_lookup_other in E2 by assumption.
        left. exists matrix, fns. auto.
      * intros [(mx & fns & E1 & E2 & Hin)|(_ & E)]; [|congruence].
        injection E1 as <-.
        eexists. exists fns. split; [reflexivity|]. split; auto.
        rewrite lookup_set_other by assumption.
        now rewrite init_lookup_other by assumption.
  - rewrite lookup_set_other by assumption. split.
    + intros H. now left.
    + intros [H|(E & _)]; [exact H | contradiction].
Qed.

Lemma defs_listed (moduleName : string) (defs : list string) :
  forall this this' : ApiHandler.t,
    forEach (ApiHandler.each_methodDef getParamNames moduleName) defs this = Ok this' ->
    forall m verb fn,
      listed this' m verb fn
      <-> listed this m verb fn
          \/ (m = moduleName /\ In (verb, fn) (map ApiHandler.parse defs)).
Proof.
  induction defs as [|methodDef rest IH]; intros this this' Hrun m verb fn;
    simpl in Hrun.
  - injection Hrun as <-. simpl. tauto.
  - destruct (ApiHandler.each_methodDef getParamNames moduleName methodDef this)
      as [this1|] eqn:E; [|discriminate].
    simpl in Hrun. rewrite (IH _ _ Hrun), (each_methodDef_listed _ _ _ _ E).
    simpl. intuition (subst; auto).
Qed.

Lemma each_module_listed (moduleName : string) (this this' : ApiHandler.t) :
  ApiHandler.each_module getParamNames moduleName this = Ok this' ->
  forall m verb fn,
    listed this' m verb fn
    <-> (m = moduleName
         /\ In (verb, fn)
              (map ApiHandler.parse (exposed (ApiHandler.managers this) moduleName)))
        \/ ((m <> moduleName
             \/ forall mgr, Js.lookup moduleName (ApiHandler.managers this) = Some mgr ->
                            httpExposed mgr = None)
            /\ listed this m verb fn).
Proof.
  unfold ApiHandler.each_module, exposed. intros Hrun m verb fn.
  destruct (Js.lookup moduleName (ApiHandler.managers this)) as [mgr|] eqn:Hmgr;
    [|discriminate].
  destruct (httpExposed mgr) as [defs|] eqn:Hdefs.
  - rewrite (defs_listed _ _ _ _ Hrun), listed_with_methodMatrix.
    destruct (string_dec m moduleName) as [->|Hm].
    + rewrite lookup_set_same. split.
      * intros [(mx & fns & E1 & E2 & _)|(_ & Hin)]; [|now left].
        injection E1 as <-. discriminate.
      * intros [(_ & Hin)|([Hne|Hnone] & _)]; [now right | congruence |].
        specialize (Hnone mgr eq_refl). congruence.
    + rewrite lookup_set_other by assumption. split.
      * intros [H|(E & _)]; [|contradiction]. right. split; [now left | exact H].
      * intros [(E & _)|(_ & H)]; [contradiction | now left].
  - injection Hrun as <-. simpl. split.
    + intros H. right. split; auto. right. intros mgr' E. congruence.
    + intros [(_ & [])|(_ & H)]. exact H.
Qed.

Lemma modules_listed (managers : list (string * manager))
  (mwsRepo : list (string * middleware)) (names : list string) :
  forall this : ApiHandler.t,
    forEach (ApiHandler.each_module getParamNames) names
      (ApiHandler.fresh managers mwsRepo) = Ok this ->
    forall m verb fn,
      listed this m verb fn
      <-> In m names /\ In (verb, fn) (map ApiHandler.parse (exposed managers m)).
Proof.
  induction names as [|moduleName done IH] using rev_ind; intros this Hrun m verb fn.
  - injection Hrun as <-. unfold listed. simpl. split.
    + intros (mx & fns & E & _). discriminate.
    + tauto.
  - destruct (forEach_app _ _ _ _ _ Hrun) as (this1 & Hdone & Hlast).
    simpl in Hlast.
    destruct (ApiHandler.each_module getParamNames moduleName this1)
      as [this2|] eqn:E; [|discriminate].
    simpl in Hlast. injection Hlast as <-.
    destruct (modules_ok _ _ _ _ Hdone) as (Hmgrs & _). simpl in Hmgrs.
    rewrite (each_module_listed _ _ _ E), (IH _ Hdone), Hmgrs, in_app_iff. simpl.
    split.
    + intros [(-> & Hin)|(_ & Hd & Hin)]; auto.
    + intros ([Hd|[<-|[]]] & Hin).
      * destruct (string_dec m moduleName) as [->|Hm]; [now left|].
        right. split; auto.
      * now left.
Qed.

(** X26: the method matrix of a built handler lists a function under a
    verb for a module exactly when the [httpExposed] array of that module
    declares the pair: nothing is lost, and nothing is listed that no
    declaration asks for. *)
Theorem built_matrix_lists_the_declarations
  (managers : list (string * manager)) (mwsRepo : list (string * middleware))
  (this : ApiHandler.t) (moduleName verb fnName : string) :
  ApiHandler.constructor getParamNames managers mwsRepo = Ok this ->
  listed this moduleName verb fnName
  <-> In (verb, fnName) (map ApiHandler.parse (exposed managers moduleName)).
Proof.
  intros Hbuilt. unfold ApiHandler.constructor in Hbuilt.
  rewrite (modules_listed _ _ _ _ Hbuilt). split; [tauto|].
  intros Hin. split; auto.
  unfold exposed in Hin.
  destruct (Js.lookup moduleName managers) as [mgr|] eqn:Hmgr; [|contradiction].
  exact (lookup_some_keys _ _ _ Hmgr).
Qed.

(** X27: a built handler runs the pipeline for the requests whose verb
    (in lower case) and function are declared by the module, on the stack
    recorded for the route, and for no other: any other request is
    answered by one 400 failure envelope, and nothing runs.  (Names that
    every object inherits are left aside.) *)
Theorem built_handler_serves_the_declared_routes
  (managers : list (string * manager)) (mwsRepo : list (string * middleware))
  (this : ApiHandler.t) (now : string) (req : request) (res : string) :
  ApiHandler.constructor getParamNames managers mwsRepo = Ok this ->
  Js.inherited (params_moduleName req) = false ->
  Js.inherited (Str.toLowerCase (req_method req)) = false ->
  (In (Str.toLowerCase (req_method req), params_fnName req)
      (map ApiHandler.parse (exposed managers (params_moduleName req))) ->
   exists stack,
     Js.lookup (ApiHandler.route (params_moduleName req) (params_fnName req))
       (ApiHandler.mwsStack this) = Some stack
     /\ ApiHandler.mw this now req res
        = Some (VirtualStack.run mwsRepo now stack req res
                  (ApiHandler.onDone this now req res
                     (params_moduleName req) (params_fnName req))))
  /\ (~ In (Str.toLowerCase (req_method req), params_fnName req)
        (map ApiHandler.parse (exposed managers (params_moduleName req))) ->
      exists message,
        ApiHandler.mw this now req res
        = Some [Sent res (Js.Num 400) (failure_envelope now message)]).
Proof.
  intros Hbuilt Hmodule Hverb.
  assert (Hcov : covered this).
  { apply (modules_covered _ _ _ _ Hbuilt). intros m0 mm0 ? ? ? Hm0. discriminate. }
  destruct (constructor_ok _ _ _ _ Hbuilt) as (_ & Hrepo & _).
  assert (Hlisted : forall verb fn,
             listed this (params_moduleName req) verb fn
             <-> In (verb, fn)
                   (map ApiHandler.parse (exposed managers (params_moduleName req)))).
  { intros verb fn. unfold ApiHandler.constructor in Hbuilt.
    rewrite (modules_listed _ _ _ _ Hbuilt). split; [tauto|].
    intros Hin. split; auto. unfold exposed in Hin.
    destruct (Js.lookup (params_moduleName req) managers) as [mgr|] eqn:Hmgr;
      [|contradiction].
    exact (lookup_some_keys _ _ _ Hmgr). }
  unfold ApiHandler.mw. rewrite Hmodule, Hverb, Hrepo. split.
  - intros Hin. apply Hlisted in Hin. destruct Hin as (matrix & fns & Hm & Hv & Hf).
    rewrite Hm, Hv. rewrite (proj2 (existsb_eqb_in _ _) Hf). simpl.
    destruct (Js.lookup (ApiHandler.route (params_moduleName req) (params_fnName req))
                (ApiHandler.mwsStack this)) as [stack|] eqn:Hs.
    + exists stack. auto.
    + exfalso. exact (Hcov _ _ _ _ _ Hm Hv Hf Hs).
  - intros Hnot.
    destruct (Js.lookup (params_moduleName req) (ApiHandler.methodMatrix this))
      as [matrix|] eqn:Hm; [|eexists; reflexivity].
    destruct (Js.lookup (Str.toLowerCase (req_method req)) matrix)
      as [fns|] eqn:Hv; [|eexists; reflexivity].
    destruct (existsb (String.eqb (params_fnName req)) fns) eqn:Hf; simpl;
      [|eexists; reflexivity].
    exfalso. apply Hnot, Hlisted. exists matrix, fns.
    repeat split; auto. now apply existsb_eqb_in.
Qed.

End Routes.

Lemma built_matrix_lists_the_declarations_witness :
  listed Demo.this "thing" "post" "createThing"
  <-> In ("post", "createThing")
        (map ApiHandler.parse (exposed Demo.managers "thing")).
Proof.
  apply (built_matrix_lists_the_declarations Introspector.getParamNames
           Demo.managers Demo.mwsRepo Demo.this "thing" "post" "createThing").
  reflexivity.
Defined.

Lemma built_handler_serves_the_declared_routes_witness :
  exists message,
    ApiHandler.mw Demo.this "t"
      (Demo.request_to "DELETE" "thing" "createThing" Js.Undefined Js.Undefined) "res"
    = Some [Sent "res" (Js.Num 400) (failure_envelope "t" message)].
Proof.
  apply (built_handler_serves_the_declared_routes Introspector.getParamNames
           Demo.managers Demo.mwsRepo Demo.this "t"
           (Demo.request_to "DELETE" "thing" "createThing" Js.Undefined Js.Undefined)
           "res"); try reflexivity.
  vm_compute. intuition discriminate.
Defined.

(* ================================================================== *)
(** * Writing to the school collection *)

Lemma strict_equal_Str (v : Js.value) (s : string) :
  ErrorHandler.strict_equal v (Js.Str s) = true -> v = Js.Str s.
Proof.
  destruct v; simpl; try discriminate. intros H.
  apply String.eqb_eq in H. now subst.
Qed.

(** X28: [deleteSchool] writes to the database only for a caller whose
    token has the role [superadmin] and for a school that is found, and
    then it makes one write: the soft delete of the school of that [id]. *)
Theorem deleteSchool_writes_only_for_a_superadmin (find : Js.value -> Js.value)
  (findOneAndUpdate : Js.value -> Js.value -> Js.value -> bool) (now : string)
  (data : Js.value) :
  fst (School.deleteSchool find findOneAndUpdate now data) <> [] ->
  Js.get (Js.get data "__token") "role" = Js.Str "superadmin"
  /\ Js.truthy (find (Js.get data "id")) = true
  /\ fst (School.deleteSchool find findOneAndUpdate now data)
     = [School.FindOneAndUpdate
          (Js.Obj [("id", Js.get data "id")])
          (Js.Obj [("isDeleted", Js.Bool true); ("deletedAt", Js.Str now)])
          (Js.Obj [("new", Js.Bool true)])].
Proof.
  unfold School.deleteSchool.
  destruct (Js.truthy (Js.get data "__token")); cbn [negb fst];
    [|intros H; now contradiction H].
  destruct (ErrorHandler.strict_equal (Js.get (Js.get data "__token") "role")
              (Js.Str "superadmin")) eqn:Hrole; cbn [negb fst];
    [|intros H; now contradiction H].
  destruct (Js.truthy (find (Js.get data "id"))) eqn:Hfound; cbn [negb fst];
    [|intros H; now contradiction H].
  intros _. split; [now apply strict_equal_Str|]. split; reflexivity.
Qed.

Lemma deleteSchool_writes_only_for_a_superadmin_witness :
  Js.get (Js.get (Js.Obj [("id", Js.Str "s1");
                          ("__token", Js.Obj [("role", Js.Str "superadmin")])])
            "__token") "role" = Js.Str "superadmin".
Proof.
  apply (deleteSchool_writes_only_for_a_superadmin
           (fun _ => Js.Obj [("id", Js.Str "s1")]) (fun _ _ _ => true) "t"
           (Js.Obj [("id", Js.Str "s1");
                    ("__token", Js.Obj [("role", Js.Str "superadmin")])])).
  discriminate.
Defined.

(** X29: [createSchool] writes to the database only for a caller whose
    token has the role [superadmin], when the six required fields are
    truthy, the validator has answered with nothing to report and no
    school has the code; what it writes is then one new document, under
    the identifier drawn, with the status [active] and the three counts
    at zero. *)
Theorem createSchool_writes_only_a_checked_school
  (validate : Js.value -> option Js.value) (findByCode : Js.value -> Js.value)
  (schoolId : string) (create : Js.value -> option Js.value) (data doc : Js.value) :
  In (School.Create doc)
     (fst (School.createSchool validate findByCode schoolId create data)) ->
  Js.get (Js.get data "__token") "role" = Js.Str "superadmin"
  /\ Forall (fun field => Js.truthy (Js.get data field) = true)
       [ "schoolName"; "schoolAddress"; "schoolPhone"; "schoolEmail";
         "principalName"; "schoolCode" ]
  /\ (exists validation,
        validate
          (Js.Obj (map (fun field => (field, Js.get data field))
                     [ "schoolName"; "schoolAddress"; "schoolPhone"; "schoolEmail";
                       "principalName"; "schoolCode"; "establishedYear" ]))
        = Some validation
        /\ Js.truthy validation = false)
  /\ Js.truthy (findByCode (Js.get data "schoolCode")) = false
  /\ doc = Js.Obj [ ("id", Js.Str schoolId);
                    ("name", Js.get data "schoolName");
                    ("shortCode", Js.get data "schoolCode");
                    ("address", Js.get data "schoolAddress");
                    ("phone", Js.get data "schoolPhone");
                    ("email", Js.get data "schoolEmail");
                    ("principalName", Js.get data "principalName");
                    ("totalClassrooms", Js.Num 0); ("totalStudents", Js.Num 0);
                    ("totalTeachers", Js.Num 0); ("status", Js.Str "active") ]
  /\ fst (School.createSchool validate findByCode schoolId create data)
     = [School.Create doc].
Proof.
  unfold School.createSchool. cbn [map].
  destruct (Js.truthy (Js.get data "__token")); cbn [negb fst In]; [|tauto].
  destruct (ErrorHandler.strict_equal (Js.get (Js.get data "__token") "role")
              (Js.Str "superadmin")) eqn:Hrole; cbn [negb fst In]; [|tauto].
  destruct (Js.truthy (Js.get data "schoolName")) eqn:H1; cbn [negb fst In]; [|tauto].
  destruct (Js.truthy (Js.get data "schoolAddress")) eqn:H2; cbn [negb fst In];
    [|tauto].
  destruct (Js.truthy (Js.get data "schoolPhone")) eqn:H3; cbn [negb fst In]; [|tauto].
  destruct (Js.truthy (Js.get data "schoolEmail")) eqn:H4; cbn [negb fst In]; [|tauto].
  destruct (Js.truthy (Js.get data "principalName")) eqn:H5; cbn [negb fst In];
    [|tauto].
  destruct (Js.truthy (Js.get data "schoolCode")) eqn:H6; cbn [negb fst In]; [|tauto].
  destruct (validate _) as [validation|] eqn:Hv; cbn [fst In]; [|tauto].
  destruct (Js.truthy validation) eqn:Hval; cbn [fst In]; [tauto|].
  destruct (Js.truthy (findByCode (Js.get data "schoolCode"))) eqn:Hcode;
    cbn [fst In]; [tauto|].
  assert (Hdoc : forall made answer,
             In (School.Create doc) (fst ([School.Create made], answer : Js.value)) ->
             doc = made).
  { intros made answer [E|[]]. now injection E. }
  intros Hin.
  assert (E : doc = Js.Obj [ ("id", Js.Str schoolId);
                             ("name", Js.get data "schoolName");
                             ("shortCode", Js.get data "schoolCode");
                             ("address", Js.get data "schoolAddress");
                             ("phone", Js.get data "schoolPhone");
                             ("email", Js.get data "schoolEmail");
                             ("principalName", Js.get data "principalName");
                             ("totalClassrooms", Js.Num 0);
                             ("totalStudents", Js.Num 0);
                             ("totalTeachers", Js.Num 0);
                             ("status", Js.Str "active") ]).
  { destruct (create _); exact (Hdoc _ _ Hin). }
  split; [now apply strict_equal_Str|].
  split; [repeat constructor; assumption|].
  split; [exists validation; auto|].
  split; [reflexivity|]. split; [exact E|].
  rewrite E. now destruct (create _).
Qed.

Lemma createSchool_writes_only_a_checked_school_witness :
  Js.get
    (Js.get
       (Js.Obj [ ("schoolName", Js.Str "North"); ("schoolAddress", Js.Str "1 Road");
                 ("schoolPhone", Js.Str "555"); ("schoolEmail", Js.Str "n@s.org");
                 ("principalName", Js.Str "Ann"); ("schoolCode", Js.Str "N1");
                 ("__token", Js.Obj [("role", Js.Str "superadmin")]) ])
       "__token") "role" = Js.Str "superadmin".
Proof.
  apply (createSchool_writes_only_a_checked_school
           (fun _ => Some Js.Null) (fun _ => Js.Null) "id-1" (fun doc => Some doc)
           (Js.Obj [ ("schoolName", Js.Str "North"); ("schoolAddress", Js.Str "1 Road");
                     ("schoolPhone", Js.Str "555"); ("schoolEmail", Js.Str "n@s.org");
                     ("principalName", Js.Str "Ann"); ("schoolCode", Js.Str "N1");
                     ("__token", Js.Obj [("role", Js.Str "superadmin")]) ])
           (Js.Obj [ ("id", Js.Str "id-1"); ("name", Js.Str "North");
                     ("shortCode", Js.Str "N1"); ("address", Js.Str "1 Road");
                     ("phone", Js.Str "555"); ("email", Js.Str "n@s.org");
                     ("principalName", Js.Str "Ann");
                     ("totalClassrooms", Js.Num 0); ("totalStudents", Js.Num 0);
                     ("totalTeachers", Js.Num 0); ("status", Js.Str "active") ])).
  left. reflexivity.
Defined.

(* ================================================================== *)
(** * A marked parameter with an inherited name *)

(** C7: [probe], declared with the parameters [id,__proto__] (or, in
    place of [__proto__], with another marked name that every object
    inherits), is exposed by a module, and the registry holds no unit of
    that name.  Whatever the introspector, as long as it reads that
    parameter list off the method, the constructor does not throw:
    [this.mwsRepo[param]] is an inherited value, truthy, and the name is
    pushed on the stack of the route, where no unit answers to it. *)
Theorem inherited_name_passes_for_a_middleware
  (getParamNames : option func -> string -> string -> result string)
  (param : string) :
  In param [ "__proto__"; "__defineGetter__"; "__defineSetter__";
             "__lookupGetter__"; "__lookupSetter__" ] ->
  getParamNames (Some Demo.probe) "probe" "thing" = Ok ("id," ++ param)%string ->
  Str.startsWith "__" param = true
  /\ Js.lookup param Demo.mwsRepo = None
  /\ exists this,
       ApiHandler.constructor getParamNames [("thing", Demo.probing)] Demo.mwsRepo
       = Ok this
       /\ ApiHandler.methodMatrix this = [("thing", [("post", ["probe"])])]
       /\ ApiHandler.mwsStack this = [("thing.probe", [param])].
Proof.
  intros Hin Htext.
  assert (Hbuilt : forall name,
             getParamNames (Some Demo.probe) "probe" "thing" = Ok ("id," ++ name)%string ->
             Str.split "," name = [name] ->
             ApiHandler.clean name = name ->
             Str.startsWith "__" name = true ->
             ApiHandler.found name Demo.mwsRepo = true ->
             exists this,
               ApiHandler.constructor getParamNames [("thing", Demo.probing)]
                 Demo.mwsRepo = Ok this
               /\ ApiHandler.methodMatrix this = [("thing", [("post", ["probe"])])]
               /\ ApiHandler.mwsStack this = [("thing.probe", [name])]).
  { intros name Hgp Hsplit Hclean Hmark Hfound. eexists.
    unfold ApiHandler.constructor, ApiHandler.each_module. simpl.
    unfold ApiHandler.each_methodDef. simpl. rewrite Hgp. simpl.
    rewrite Hsplit. simpl. rewrite Hclean.
    unfold ApiHandler.each_param at 1. simpl. rewrite Hmark, Hfound. simpl.
    repeat split; reflexivity. }
  simpl in Hin.
  destruct Hin as [<-|[<-|[<-|[<-|[<-|[]]]]]];
    (split; [reflexivity|]; split; [reflexivity|];
     apply (Hbuilt _ Htext); reflexivity).
Qed.

Lemma inherited_name_passes_for_a_middleware_witness :
  Js.lookup "__proto__" Demo.mwsRepo = None
  /\ exists this,
       ApiHandler.constructor Introspector.getParamNames
         [("thing", Demo.probing)] Demo.mwsRepo = Ok this
       /\ ApiHandler.methodMatrix this = [("thing", [("post", ["probe"])])]
       /\ ApiHandler.mwsStack this = [("thing.probe", ["__proto__"])].
Proof.
  apply (inherited_name_passes_for_a_middleware Introspector.getParamNames
           "__proto__").
  - simpl. tauto.
  - reflexivity.
Defined.

(* ================================================================== *)
(** * Building again *)



